(** * SnakeNew: the platform-independent game engine

    A shallow embedding of [SnakeGameProject/core/game_engine.py] and the
    properties its design document states about it.

    Conventions of the embedding.
    - Python objects whose type is not enforced at run time (the fields of
      the [GameSettings] dataclass, which [from_dict] fills with whatever the
      settings file holds) are kept as dynamically typed [value]s; the fields
      the engine itself computes ([score], the grid size, the snake) carry
      their static type.
    - Clock reads, and what is computed from them, are Python floats, that
      is IEEE 754 binary64 numbers: the kernel's [float], whose operations
      round, overflow and compare as Python's do. The numbers of the
      settings file, and the speeds computed from them, are the rationals
      they denote ([Q]); where the code divides a speed by [1000.0] to get
      the tick interval, the speed is turned into the nearest float first
      and the division is the floats'.
    - Exceptions are values of [exn]; a method that can raise returns an
      [outcome] that also carries the state reached when it raised.
    - The three ambient effects of the module are explicit: the clock
      ([time.time()]) is an argument [now], the generator behind
      [random.randint] is a tape with a cursor, and the two JSON files of
      [DataManager] are fields of the world. *)

From Stdlib Require Import PrimFloat SpecFloat FloatOps.
From Stdlib Require Import ZArith QArith Qround List String Ascii Lia Permutation Sorted.
From Stdlib Require Import DecimalString Lqa.
From stdpp Require Import base gmap strings list.

Local Open Scope Z_scope.
Local Set Warnings "-register-all".

(** ** Python values and exceptions *)

Inductive exn : Type :=
| IndexError | KeyError | ValueError | TypeError | OverflowError.

Inductive value : Type :=
| VNone
| VBool (b : bool)
| VInt (z : Z)
| VFloat (q : Q)
| VStr (s : string)
| VList (l : list value)
| VDict (d : list (string * value)).

(** Result of a pure computation that may raise. *)
Inductive res (A : Type) : Type :=
| Val (a : A)
| Exc (x : exn).
Arguments Val {A} a.
Arguments Exc {A} x.

Definition Qltb (a b : Q) : bool := negb (Qle_bool b a).

(** [bool(v)]: the truth value Python gives an object in a condition. *)
Definition truthy (v : value) : bool :=
  match v with
  | VNone => false
  | VBool b => b
  | VInt z => negb (z =? 0)
  | VFloat q => negb (Qeq_bool q 0)
  | VStr s => negb (String.eqb s "")
  | VList l => match l with [] => false | _ => true end
  | VDict d => match d with [] => false | _ => true end
  end.

(** The number a value stands for in arithmetic ([bool] is a subclass of
    [int]); [None] where Python raises [TypeError]. *)
Definition num_of (v : value) : option Q :=
  match v with
  | VBool b => Some (inject_Z (if b then 1 else 0))
  | VInt z => Some (inject_Z z)
  | VFloat q => Some q
  | _ => None
  end.

(** [v - k] for an integer literal [k] and a numeric [v]. *)
Definition py_sub_int (v : value) (k : Z) : value :=
  match v with
  | VBool b => VInt ((if b then 1 else 0) - k)
  | VInt z => VInt (z - k)
  | VFloat q => VFloat (q - inject_Z k)
  | _ => v
  end.

(** [max(k, v)] for an integer literal [k]: the first argument is kept
    unless the second is strictly greater. *)
Definition py_max_int (k : Z) (v : value) : value :=
  match num_of v with
  | Some q => if Qltb (inject_Z k) q then v else VInt k
  | None => VInt k
  end.

(** ** Floats *)

(** The float nearest to a rational, ties to even, and an infinity beyond
    the range of the floats: what Python makes of an [int], or of the
    decimal numeral of a float, when it computes with it as a float. *)
Definition to_float (q : Q) : float :=
  SF2Prim
    (SFdiv prec emax
       match Qnum q with
       | Z0 => S754_zero false
       | Zpos n => S754_finite false n 0
       | Zneg n => S754_finite true n 0
       end
       (S754_finite false (Qden q) 0)).

(** [float(z)] for an [int]: [OverflowError] when [z] is too large. *)
Definition float_of_int (z : Z) : res float :=
  let f := to_float (inject_Z z) in
  if is_infinity f then Exc OverflowError else Val f.

(** The rational a float is; [None] for the infinities and NaN. *)
Definition float_value (f : float) : option Q :=
  match Prim2SF f with
  | S754_zero _ => Some 0%Q
  | S754_finite negative m e =>
      let magnitude := (inject_Z (Zpos m) * Qpower 2 e)%Q in
      Some (if negative then Qopp magnitude else magnitude)
  | S754_infinity _ => None
  | S754_nan => None
  end.

(** [v / d] for a float [d] that is not zero: an [int] is made a float
    first. *)
Definition py_div_float (v : value) (d : float) : res float :=
  match v with
  | VBool b => Val (PrimFloat.div (if b then 1 else 0) d)
  | VInt z =>
      match float_of_int z with
      | Val f => Val (PrimFloat.div f d)
      | Exc x => Exc x
      end
  | VFloat q => Val (PrimFloat.div (to_float q) d)
  | _ => Exc TypeError
  end.

(** Python [str] values that the engine inspects character by character (the
    player's name) are sequences of code points; labels and dictionary keys,
    which are only compared, are [string]s. *)
Definition pystr : Type := list N.

(** ** Grid primitives *)

Inductive Direction : Type := UP | DOWN | LEFT | RIGHT.

Definition Direction_value (d : Direction) : Z * Z :=
  match d with
  | UP => (-1, 0)
  | DOWN => (1, 0)
  | LEFT => (0, -1)
  | RIGHT => (0, 1)
  end.

Definition Direction_eqb (a b : Direction) : bool :=
  match a, b with
  | UP, UP | DOWN, DOWN | LEFT, LEFT | RIGHT, RIGHT => true
  | _, _ => false
  end.

Inductive GameState : Type :=
| MENU | PLAYING | PAUSED | GAME_OVER | SETTINGS | HIGH_SCORES | NAME_INPUT.

Record Point : Type := mkPoint { y : Z; x : Z }.

(** [Point.__add__] *)
Definition Point_add (p : Point) (direction : Direction) : Point :=
  let '(dy, dx) := Direction_value direction in
  mkPoint (y p + dy) (x p + dx).

(** [Point.__eq__] *)
Definition Point_eq (p other : Point) : bool :=
  (y p =? y other) && (x p =? x other).

(** [p in cells] on a list of points. *)
Definition contains (p : Point) (cells : list Point) : bool :=
  existsb (fun c => Point_eq c p) cells.

Record FieldSize : Type := mkFieldSize {
  fs_name : string;
  fs_width : Z;
  fs_height : Z;
  fs_description : string
}.

(** The presets, in the insertion order of the dictionary literal. *)
Definition FIELD_SIZES : list (string * FieldSize) :=
  [ ("Small", mkFieldSize "Small" 15 10 "Маленькое поле - быстрые игры");
    ("Medium", mkFieldSize "Medium" 20 15 "Средний размер - оптимально");
    ("Large", mkFieldSize "Large" 30 20 "Большое поле - долгие игры");
    ("Classic", mkFieldSize "Classic" 25 18 "Классический размер Nokia") ].

Fixpoint assoc {A : Type} (k : string) (d : list (string * A)) : option A :=
  match d with
  | [] => None
  | (k', a) :: d' => if String.eqb k k' then Some a else assoc k d'
  end.

(** [d[key]] on a dictionary with string keys: an unhashable key raises
    [TypeError], any other absent key [KeyError]. *)
Definition subscript {A : Type} (d : list (string * A)) (key : value) : res A :=
  match key with
  | VStr s => match assoc s d with Some a => Val a | None => Exc KeyError end
  | VList _ | VDict _ => Exc TypeError
  | _ => Exc KeyError
  end.

(** [xs.index(v)] on a list of strings. *)
Fixpoint index_from (i : Z) (xs : list string) (s : string) : option Z :=
  match xs with
  | [] => None
  | k :: xs' => if String.eqb k s then Some i else index_from (i + 1) xs' s
  end.

Definition list_index (xs : list string) (v : value) : res Z :=
  match v with
  | VStr s => match index_from 0 xs s with Some i => Val i | None => Exc ValueError end
  | _ => Exc ValueError
  end.

(** ** Settings *)

Module GameSettings.

Record t : Type := mk {
  initial_speed : value;
  difficulty : value;
  show_grid : value;
  smooth_animation : value;
  sound_effects : value;
  theme : value;
  field_size : value;
  timer_mode : value;
  auto_speed_increase : value;
  vibration : value
}.

(** The defaults of the dataclass fields. *)
Definition defaults : t :=
  {| initial_speed := VInt 150;
     difficulty := VStr "Medium";
     show_grid := VBool true;
     smooth_animation := VBool true;
     sound_effects := VBool false;
     theme := VStr "Classic";
     field_size := VStr "Medium";
     timer_mode := VBool true;
     auto_speed_increase := VBool true;
     vibration := VBool true |}.

(** [cls.__dataclass_fields__] as a set of names. *)
Definition known_fields : gset string :=
  {[ "initial_speed"; "difficulty"; "show_grid"; "smooth_animation";
     "sound_effects"; "theme"; "field_size"; "timer_mode";
     "auto_speed_increase"; "vibration" ]}.

(** The generated [__init__], called with keyword arguments: a keyword
    that is not a field raises [TypeError], a field without a keyword
    takes its default, and no value is type-checked. *)
Definition init (kwargs : gmap string value) : res t :=
  if bool_decide (dom kwargs ⊆ known_fields) then
    Val {| initial_speed := default (initial_speed defaults) (kwargs !! "initial_speed");
           difficulty := default (difficulty defaults) (kwargs !! "difficulty");
           show_grid := default (show_grid defaults) (kwargs !! "show_grid");
           smooth_animation := default (smooth_animation defaults) (kwargs !! "smooth_animation");
           sound_effects := default (sound_effects defaults) (kwargs !! "sound_effects");
           theme := default (theme defaults) (kwargs !! "theme");
           field_size := default (field_size defaults) (kwargs !! "field_size");
           timer_mode := default (timer_mode defaults) (kwargs !! "timer_mode");
           auto_speed_increase := default (auto_speed_increase defaults) (kwargs !! "auto_speed_increase");
           vibration := default (vibration defaults) (kwargs !! "vibration") |}
  else Exc TypeError.

(** [asdict(self)] *)
Definition to_dict (s : t) : gmap string value :=
  <["initial_speed" := initial_speed s]>
  (<["difficulty" := difficulty s]>
  (<["show_grid" := show_grid s]>
  (<["smooth_animation" := smooth_animation s]>
  (<["sound_effects" := sound_effects s]>
  (<["theme" := theme s]>
  (<["field_size" := field_size s]>
  (<["timer_mode" := timer_mode s]>
  (<["auto_speed_increase" := auto_speed_increase s]>
  (<["vibration" := vibration s]> ∅))))))))).

Definition from_dict (data : gmap string value) : res t :=
  let filtered_data :=
    filter (fun kv : string * value => kv.1 ∈ known_fields) data in
  init filtered_data.

(** Attribute assignment [self.<field> = v]. *)
Definition with_initial_speed (v : value) (self : t) : t :=
  mk v (difficulty self) (show_grid self) (smooth_animation self)
    (sound_effects self) (theme self) (field_size self) (timer_mode self)
    (auto_speed_increase self) (vibration self).
#[global] Arguments with_initial_speed v !self /.

Definition with_difficulty (v : value) (self : t) : t :=
  mk (initial_speed self) v (show_grid self) (smooth_animation self)
    (sound_effects self) (theme self) (field_size self) (timer_mode self)
    (auto_speed_increase self) (vibration self).
#[global] Arguments with_difficulty v !self /.

Definition with_show_grid (v : value) (self : t) : t :=
  mk (initial_speed self) (difficulty self) v (smooth_animation self)
    (sound_effects self) (theme self) (field_size self) (timer_mode self)
    (auto_speed_increase self) (vibration self).
#[global] Arguments with_show_grid v !self /.

Definition with_smooth_animation (v : value) (self : t) : t :=
  mk (initial_speed self) (difficulty self) (show_grid self) v
    (sound_effects self) (theme self) (field_size self) (timer_mode self)
    (auto_speed_increase self) (vibration self).
#[global] Arguments with_smooth_animation v !self /.

Definition with_sound_effects (v : value) (self : t) : t :=
  mk (initial_speed self) (difficulty self) (show_grid self)
    (smooth_animation self) v (theme self) (field_size self)
    (timer_mode self) (auto_speed_increase self) (vibration self).
#[global] Arguments with_sound_effects v !self /.

Definition with_field_size (v : value) (self : t) : t :=
  mk (initial_speed self) (difficulty self) (show_grid self)
    (smooth_animation self) (sound_effects self) (theme self) v
    (timer_mode self) (auto_speed_increase self) (vibration self).
#[global] Arguments with_field_size v !self /.

Definition with_timer_mode (v : value) (self : t) : t :=
  mk (initial_speed self) (difficulty self) (show_grid self)
    (smooth_animation self) (sound_effects self) (theme self)
    (field_size self) v (auto_speed_increase self) (vibration self).
#[global] Arguments with_timer_mode v !self /.

Definition with_auto_speed_increase (v : value) (self : t) : t :=
  mk (initial_speed self) (difficulty self) (show_grid self)
    (smooth_animation self) (sound_effects self) (theme self)
    (field_size self) (timer_mode self) v (vibration self).
#[global] Arguments with_auto_speed_increase v !self /.

Definition with_vibration (v : value) (self : t) : t :=
  mk (initial_speed self) (difficulty self) (show_grid self)
    (smooth_animation self) (sound_effects self) (theme self)
    (field_size self) (timer_mode self) (auto_speed_increase self) v.
#[global] Arguments with_vibration v !self /.

(** What the annotations of the dataclass ask of each field. *)
Definition is_int (v : value) : bool :=
  match v with VInt _ | VBool _ => true | _ => false end.
Definition is_str (v : value) : bool :=
  match v with VStr _ => true | _ => false end.
Definition is_bool (v : value) : bool :=
  match v with VBool _ => true | _ => false end.

Definition field_type (name : string) : value -> bool :=
  if String.eqb name "initial_speed" then is_int
  else if String.eqb name "difficulty" then is_str
  else if String.eqb name "theme" then is_str
  else if String.eqb name "field_size" then is_str
  else is_bool.

Definition well_typed (s : t) : bool :=
  is_int (initial_speed s) && is_str (difficulty s) && is_bool (show_grid s)
  && is_bool (smooth_animation s) && is_bool (sound_effects s)
  && is_str (theme s) && is_str (field_size s) && is_bool (timer_mode s)
  && is_bool (auto_speed_increase s) && is_bool (vibration s).

End GameSettings.

(** ** Sessions *)

Module GameSession.

Record t : Type := mk {
  start_time : float;
  end_time : float;
  score : Z;
  foods_eaten : Z;
  max_length : Z;
  field_size : value;
  difficulty : value;
  moves_made : Z;
  pauses_count : Z
}.

Definition with_moves_made (v : Z) (self : t) : t :=
  mk (start_time self) (end_time self) (score self) (foods_eaten self)
    (max_length self) (field_size self) (difficulty self) v
    (pauses_count self).
#[global] Arguments with_moves_made v !self /.

Definition with_pauses_count (v : Z) (self : t) : t :=
  mk (start_time self) (end_time self) (score self) (foods_eaten self)
    (max_length self) (field_size self) (difficulty self) (moves_made self)
    v.
#[global] Arguments with_pauses_count v !self /.

Definition with_end_time (v : float) (self : t) : t :=
  mk (start_time self) v (score self) (foods_eaten self) (max_length self)
    (field_size self) (difficulty self) (moves_made self) (pauses_count self).
#[global] Arguments with_end_time v !self /.

Definition with_score (v : Z) (self : t) : t :=
  mk (start_time self) (end_time self) v (foods_eaten self) (max_length self)
    (field_size self) (difficulty self) (moves_made self) (pauses_count self).
#[global] Arguments with_score v !self /.

Definition with_foods_eaten (v : Z) (self : t) : t :=
  mk (start_time self) (end_time self) (score self) v (max_length self)
    (field_size self) (difficulty self) (moves_made self) (pauses_count self).
#[global] Arguments with_foods_eaten v !self /.

Definition with_max_length (v : Z) (self : t) : t :=
  mk (start_time self) (end_time self) (score self) (foods_eaten self) v
    (field_size self) (difficulty self) (moves_made self) (pauses_count self).
#[global] Arguments with_max_length v !self /.

(** [GameSession(start_time=..., field_size=..., difficulty=...)] *)
Definition new (start_time : float) (field_size difficulty : value) : t :=
  mk start_time 0 0 0 3 field_size difficulty 0 0.

(** [(self.end_time or time.time()) - self.start_time]: a float is false
    when it equals zero, and the difference is the float one. *)
Definition duration (now : float) (self : t) : float :=
  PrimFloat.sub
    (if PrimFloat.eqb (end_time self) 0 then now else end_time self)
    (start_time self).

End GameSession.

(** ** Names *)

(** The code points [str.strip()] removes: those for which [str.isspace]
    holds. *)
Definition is_space (c : N) : bool :=
  (((9 <=? c) && (c <=? 13)) || ((28 <=? c) && (c <=? 32))
   || (c =? 133) || (c =? 160) || (c =? 5760)
   || ((8192 <=? c) && (c <=? 8202))
   || (c =? 8232) || (c =? 8233) || (c =? 8239) || (c =? 8287)
   || (c =? 12288))%N.

Fixpoint lstrip (s : pystr) : pystr :=
  match s with
  | [] => []
  | c :: s' => if is_space c then lstrip s' else s
  end.

Definition rstrip (s : pystr) : pystr := rev (lstrip (rev s)).

Definition strip (s : pystr) : pystr := rstrip (lstrip s).

(** The placeholder name, the six Cyrillic letters of the literal in
    [add_score]. *)
Definition anonymous : pystr := [1040; 1085; 1086; 1085; 1080; 1084]%N.

(** [s or anonymous] on strings: the empty string is false. *)
Definition or_anonymous (s : pystr) : pystr :=
  match s with
  | [] => anonymous
  | _ => s
  end.

(** ** The score ledger *)

Module Entry.

Record t : Type := mk {
  score : Z;
  name : pystr;
  timestamp : string;
  field_size : value;
  difficulty : value;
  duration : float;
  foods_eaten : Z;
  moves_made : Z;
  efficiency : Q
}.

End Entry.

Module DataManager.

(** The two JSON files behind a [DataManager]: [None] is a file that is
    absent or does not parse; [writable] tells whether opening a file for
    writing succeeds. *)
Record t : Type := mk {
  settings_file : option (gmap string value);
  scores_file : option (list Entry.t);
  writable : bool
}.

Definition load_settings (self : t) : GameSettings.t :=
  match settings_file self with
  | Some data =>
      match GameSettings.from_dict data with
      | Val s => s
      | Exc _ => GameSettings.defaults
      end
  | None => GameSettings.defaults
  end.

Definition save_settings (settings : GameSettings.t) (self : t) : t :=
  if writable self
  then mk (Some (GameSettings.to_dict settings)) (scores_file self) (writable self)
  else self.

Definition load_scores (self : t) : list Entry.t :=
  match scores_file self with
  | Some scores => scores
  | None => []
  end.

Definition save_scores (scores : list Entry.t) (self : t) : t :=
  if writable self
  then mk (settings_file self) (Some scores) (writable self)
  else self.

(** [scores.sort(key=lambda x: x['score'], reverse=True)]: the stable
    sort by decreasing score, as an insertion sort. An entry is put in
    front of the first entry whose score is not greater than its own, so
    entries with equal scores keep the order they had. *)
Fixpoint insert_desc (e : Entry.t) (sorted : list Entry.t) : list Entry.t :=
  match sorted with
  | [] => [e]
  | e' :: rest =>
      if Entry.score e <? Entry.score e'
      then e' :: insert_desc e rest
      else e :: e' :: rest
  end.

Fixpoint sort_desc (scores : list Entry.t) : list Entry.t :=
  match scores with
  | [] => []
  | e :: rest => insert_desc e (sort_desc rest)
  end.

(** The dictionary literal of [add_score]; [stamp] is what
    [time.strftime] returns and [now] what [time.time()] returns. *)
Definition build_entry (score : Z) (name : pystr) (session : GameSession.t)
    (stamp : string) (now : float) : Entry.t :=
  Entry.mk score
    (or_anonymous (strip name))
    stamp
    (GameSession.field_size session)
    (GameSession.difficulty session)
    (GameSession.duration now session)
    (GameSession.foods_eaten session)
    (GameSession.moves_made session)
    (inject_Z score / inject_Z (Z.max (GameSession.moves_made session) 1))%Q.

Definition add_score (score : Z) (name : pystr) (session : GameSession.t)
    (stamp : string) (now : float) (self : t) : list Entry.t * t :=
  let scores := load_scores self in
  let entry := build_entry score name session stamp now in
  let scores := scores ++ [entry] in
  let scores := sort_desc scores in
  let scores := take 50 scores in
  (scores, save_scores scores self).

End DataManager.

(** [xs[i]] on a list: a negative index counts from the end, an index out
    of range raises [IndexError]. *)
Definition list_get {A : Type} (xs : list A) (i : Z) : res A :=
  let n := Z.of_nat (length xs) in
  let j := if i <? 0 then i + n else i in
  if (0 <=? j) && (j <? n) then
    match nth_error xs (Z.to_nat j) with
    | Some a => Val a
    | None => Exc IndexError
    end
  else Exc IndexError.

(** The integer part of a rational, towards zero. *)
Definition truncate (q : Q) : Z :=
  if Qle_bool 0 q then Qfloor q else Qceiling q.

(** [int(x)] on a float: the integer part of its value; [ValueError] on
    NaN and [OverflowError] on an infinity. *)
Definition py_int (f : float) : res Z :=
  match float_value f with
  | Some q => Val (truncate q)
  | None => if is_nan f then Exc ValueError else Exc OverflowError
  end.

(** [f"{n:02d}"]: decimal digits, padded with zeros to two characters, the
    sign counting as one. *)
Definition format_02d (n : Z) : string :=
  if n <? 0 then String.append "-" (NilZero.string_of_uint (N.to_uint (Z.abs_N n)))
  else
    let digits := NilZero.string_of_uint (N.to_uint (Z.abs_N n)) in
    if (String.length digits <? 2)%nat then String.append "0" digits else digits.

(** [k - v] for an integer literal [k]. *)
Definition py_rsub_int (k : Z) (v : value) : res value :=
  match v with
  | VBool b => Val (VInt (k - (if b then 1 else 0)))
  | VInt z => Val (VInt (k - z))
  | VFloat q => Val (VFloat (inject_Z k - q))
  | _ => Exc TypeError
  end.

Definition GameState_eqb (a b : GameState) : bool :=
  match a, b with
  | MENU, MENU | PLAYING, PLAYING | PAUSED, PAUSED | GAME_OVER, GAME_OVER
  | SETTINGS, SETTINGS | HIGH_SCORES, HIGH_SCORES | NAME_INPUT, NAME_INPUT => true
  | _, _ => false
  end.

(** The dictionary [get_game_state_data] returns. *)
Module GameStateData.

Record t : Type := mk {
  snake : list Point;
  food : Point;
  score : Z;
  high_score : Z;
  field_width : Z;
  field_height : Z;
  timer : string;
  speed : value;
  foods_eaten : Z;
  paused : bool;
  game_over : bool
}.

End GameStateData.

(** ** The engine *)

Module SnakeGameEngine.

Record t : Type := mk {
  state : GameState;
  settings : GameSettings.t;
  menu_index : Z;
  settings_index : Z;
  field_width : Z;
  field_height : Z;
  snake : list Point;
  food : Point;
  direction : Direction;
  next_direction : Direction;
  score : Z;
  game_over : bool;
  paused : bool;
  player_name : pystr;
  max_name_length : Z;
  current_session : option GameSession.t;
  current_speed : value;
  last_update_time : float;
  last_speed_increase : float;
  foods_eaten : Z;
  on_food_eaten : bool;
  on_game_over : bool;
  on_score_changed : bool
}.

Definition with_state (v : GameState) (self : t) : t :=
  mk v (settings self) (menu_index self) (settings_index self)
    (field_width self) (field_height self) (snake self) (food self)
    (direction self) (next_direction self) (score self) (game_over self)
    (paused self) (player_name self) (max_name_length self)
    (current_session self) (current_speed self) (last_update_time self)
    (last_speed_increase self) (foods_eaten self) (on_food_eaten self)
    (on_game_over self) (on_score_changed self).
#[global] Arguments with_state v !self /.

Definition with_settings (v : GameSettings.t) (self : t) : t :=
  mk (state self) v (menu_index self) (settings_index self)
    (field_width self) (field_height self) (snake self) (food self)
    (direction self) (next_direction self) (score self) (game_over self)
    (paused self) (player_name self) (max_name_length self)
    (current_session self) (current_speed self) (last_update_time self)
    (last_speed_increase self) (foods_eaten self) (on_food_eaten self)
    (on_game_over self) (on_score_changed self).
#[global] Arguments with_settings v !self /.

Definition with_settings_index (v : Z) (self : t) : t :=
  mk (state self) (settings self) (menu_index self) v (field_width self)
    (field_height self) (snake self) (food self) (direction self)
    (next_direction self) (score self) (game_over self) (paused self)
    (player_name self) (max_name_length self) (current_session self)
    (current_speed self) (last_update_time self) (last_speed_increase self)
    (foods_eaten self) (on_food_eaten self) (on_game_over self)
    (on_score_changed self).
#[global] Arguments with_settings_index v !self /.

Definition with_field_width (v : Z) (self : t) : t :=
  mk (state self) (settings self) (menu_index self) (settings_index self) v
    (field_height self) (snake self) (food self) (direction self)
    (next_direction self) (score self) (game_over self) (paused self)
    (player_name self) (max_name_length self) (current_session self)
    (current_speed self) (last_update_time self) (last_speed_increase self)
    (foods_eaten self) (on_food_eaten self) (on_game_over self)
    (on_score_changed self).
#[global] Arguments with_field_width v !self /.

Definition with_field_height (v : Z) (self : t) : t :=
  mk (state self) (settings self) (menu_index self) (settings_index self)
    (field_width self) v (snake self) (food self) (direction self)
    (next_direction self) (score self) (game_over self) (paused self)
    (player_name self) (max_name_length self) (current_session self)
    (current_speed self) (last_update_time self) (last_speed_increase self)
    (foods_eaten self) (on_food_eaten self) (on_game_over self)
    (on_score_changed self).
#[global] Arguments with_field_height v !self /.

Definition with_snake (v : list Point) (self : t) : t :=
  mk (state self) (settings self) (menu_index self) (settings_index self)
    (field_width self) (field_height self) v (food self) (direction self)
    (next_direction self) (score self) (game_over self) (paused self)
    (player_name self) (max_name_length self) (current_session self)
    (current_speed self) (last_update_time self) (last_speed_increase self)
    (foods_eaten self) (on_food_eaten self) (on_game_over self)
    (on_score_changed self).
#[global] Arguments with_snake v !self /.

Definition with_food (v : Point) (self : t) : t :=
  mk (state self) (settings self) (menu_index self) (settings_index self)
    (field_width self) (field_height self) (snake self) v (direction self)
    (next_direction self) (score self) (game_over self) (paused self)
    (player_name self) (max_name_length self) (current_session self)
    (current_speed self) (last_update_time self) (last_speed_increase self)
    (foods_eaten self) (on_food_eaten self) (on_game_over self)
    (on_score_changed self).
#[global] Arguments with_food v !self /.

Definition with_direction (v : Direction) (self : t) : t :=
  mk (state self) (settings self) (menu_index self) (settings_index self)
    (field_width self) (field_height self) (snake self) (food self) v
    (next_direction self) (score self) (game_over self) (paused self)
    (player_name self) (max_name_length self) (current_session self)
    (current_speed self) (last_update_time self) (last_speed_increase self)
    (foods_eaten self) (on_food_eaten self) (on_game_over self)
    (on_score_changed self).
#[global] Arguments with_direction v !self /.

Definition with_next_direction (v : Direction) (self : t) : t :=
  mk (state self) (settings self) (menu_index self) (settings_index self)
    (field_width self) (field_height self) (snake self) (food self)
    (direction self) v (score self) (game_over self) (paused self)
    (player_name self) (max_name_length self) (current_session self)
    (current_speed self) (last_update_time self) (last_speed_increase self)
    (foods_eaten self) (on_food_eaten self) (on_game_over self)
    (on_score_changed self).
#[global] Arguments with_next_direction v !self /.

Definition with_score (v : Z) (self : t) : t :=
  mk (state self) (settings self) (menu_index self) (settings_index self)
    (field_width self) (field_height self) (snake self) (food self)
    (direction self) (next_direction self) v (game_over self) (paused self)
    (player_name self) (max_name_length self) (current_session self)
    (current_speed self) (last_update_time self) (last_speed_increase self)
    (foods_eaten self) (on_food_eaten self) (on_game_over self)
    (on_score_changed self).
#[global] Arguments with_score v !self /.

Definition with_game_over (v : bool) (self : t) : t :=
  mk (state self) (settings self) (menu_index self) (settings_index self)
    (field_width self) (field_height self) (snake self) (food self)
    (direction self) (next_direction self) (score self) v (paused self)
    (player_name self) (max_name_length self) (current_session self)
    (current_speed self) (last_update_time self) (last_speed_increase self)
    (foods_eaten self) (on_food_eaten self) (on_game_over self)
    (on_score_changed self).
#[global] Arguments with_game_over v !self /.

Definition with_paused (v : bool) (self : t) : t :=
  mk (state self) (settings self) (menu_index self) (settings_index self)
    (field_width self) (field_height self) (snake self) (food self)
    (direction self) (next_direction self) (score self) (game_over self) v
    (player_name self) (max_name_length self) (current_session self)
    (current_speed self) (last_update_time self) (last_speed_increase self)
    (foods_eaten self) (on_food_eaten self) (on_game_over self)
    (on_score_changed self).
#[global] Arguments with_paused v !self /.

Definition with_current_session (v : option GameSession.t) (self : t) : t :=
  mk (state self) (settings self) (menu_index self) (settings_index self)
    (field_width self) (field_height self) (snake self) (food self)
    (direction self) (next_direction self) (score self) (game_over self)
    (paused self) (player_name self) (max_name_length self) v
    (current_speed self) (last_update_time self) (last_speed_increase self)
    (foods_eaten self) (on_food_eaten self) (on_game_over self)
    (on_score_changed self).
#[global] Arguments with_current_session v !self /.

Definition with_current_speed (v : value) (self : t) : t :=
  mk (state self) (settings self) (menu_index self) (settings_index self)
    (field_width self) (field_height self) (snake self) (food self)
    (direction self) (next_direction self) (score self) (game_over self)
    (paused self) (player_name self) (max_name_length self)
    (current_session self) v (last_update_time self)
    (last_speed_increase self) (foods_eaten self) (on_food_eaten self)
    (on_game_over self) (on_score_changed self).
#[global] Arguments with_current_speed v !self /.

Definition with_last_update_time (v : float) (self : t) : t :=
  mk (state self) (settings self) (menu_index self) (settings_index self)
    (field_width self) (field_height self) (snake self) (food self)
    (direction self) (next_direction self) (score self) (game_over self)
    (paused self) (player_name self) (max_name_length self)
    (current_session self) (current_speed self) v
    (last_speed_increase self) (foods_eaten self) (on_food_eaten self)
    (on_game_over self) (on_score_changed self).
#[global] Arguments with_last_update_time v !self /.

Definition with_last_speed_increase (v : float) (self : t) : t :=
  mk (state self) (settings self) (menu_index self) (settings_index self)
    (field_width self) (field_height self) (snake self) (food self)
    (direction self) (next_direction self) (score self) (game_over self)
    (paused self) (player_name self) (max_name_length self)
    (current_session self) (current_speed self) (last_update_time self) v
    (foods_eaten self) (on_food_eaten self) (on_game_over self)
    (on_score_changed self).
#[global] Arguments with_last_speed_increase v !self /.

Definition with_foods_eaten (v : Z) (self : t) : t :=
  mk (state self) (settings self) (menu_index self) (settings_index self)
    (field_width self) (field_height self) (snake self) (food self)
    (direction self) (next_direction self) (score self) (game_over self)
    (paused self) (player_name self) (max_name_length self)
    (current_session self) (current_speed self) (last_update_time self)
    (last_speed_increase self) v (on_food_eaten self) (on_game_over self)
    (on_score_changed self).
#[global] Arguments with_foods_eaten v !self /.

Definition with_menu_index (v : Z) (self : t) : t :=
  mk (state self) (settings self) v (settings_index self) (field_width self)
    (field_height self) (snake self) (food self) (direction self)
    (next_direction self) (score self) (game_over self) (paused self)
    (player_name self) (max_name_length self) (current_session self)
    (current_speed self) (last_update_time self) (last_speed_increase self)
    (foods_eaten self) (on_food_eaten self) (on_game_over self)
    (on_score_changed self).
#[global] Arguments with_menu_index v !self /.

Definition with_player_name (v : pystr) (self : t) : t :=
  mk (state self) (settings self) (menu_index self) (settings_index self)
    (field_width self) (field_height self) (snake self) (food self)
    (direction self) (next_direction self) (score self) (game_over self)
    (paused self) v (max_name_length self) (current_session self)
    (current_speed self) (last_update_time self) (last_speed_increase self)
    (foods_eaten self) (on_food_eaten self) (on_game_over self)
    (on_score_changed self).
#[global] Arguments with_player_name v !self /.

(** The calls the engine makes to the callbacks of its host. A callback
    slot of the engine is [true] when a callable is registered in it; the
    model records the call and takes the callable not to reach back into
    the engine. *)
Inductive Event : Type :=
| CallFoodEaten
| CallGameOver
| CallScoreChanged (score : Z).

(** The generator of the [random] module: the raw numbers it will
    produce, and how many have been consumed. *)
Record Random : Type := mkRandom {
  tape : nat -> Z;
  cursor : nat
}.

(** Everything a method of the engine can read or change. *)
Record World : Type := mkWorld {
  self : t;
  random : Random;
  data_manager : DataManager.t;
  calls : list Event
}.

(** *** Methods as state transformers that may raise *)

Inductive outcome (A : Type) : Type :=
| Ok (a : A) (w : World)
| Raise (x : exn) (w : World).
Arguments Ok {A} a w.
Arguments Raise {A} x w.

Definition M (A : Type) : Type := World -> outcome A.

#[global] Instance M_ret : MRet M := fun A a w => Ok a w.

#[global] Instance M_bind : MBind M := fun A B f m w =>
  match m w with
  | Ok a w' => f a w'
  | Raise x w' => Raise x w'
  end.

(** The world a call leaves behind, whether it returned or raised. *)
Definition final {A : Type} (o : outcome A) : World :=
  match o with
  | Ok _ w => w
  | Raise _ w => w
  end.

Definition returned {A : Type} (o : outcome A) : bool :=
  match o with
  | Ok _ _ => true
  | Raise _ _ => false
  end.

Definition raise {A : Type} (x : exn) : M A := fun w => Raise x w.

Definition lift {A : Type} (r : res A) : M A :=
  match r with
  | Val a => mret a
  | Exc x => raise x
  end.

(** Reading and assigning an attribute of [self]. *)
Definition ask {A : Type} (f : t -> A) : M A := fun w => Ok (f (self w)) w.

Definition upd (f : t -> t) : M unit := fun w =>
  Ok tt (mkWorld (f (self w)) (random w) (data_manager w) (calls w)).

Definition call (ev : Event) : M unit := fun w =>
  Ok tt (mkWorld (self w) (random w) (data_manager w) (calls w ++ [ev])).

Definition when (b : bool) (m : M unit) : M unit :=
  if b then m else mret tt.

(** [random.randint(a, b)]: [ValueError] on an empty range, otherwise
    the next number of the tape reduced into [a..b]. *)
Definition randint (a b : Z) : M Z := fun w =>
  if b <? a then Raise ValueError w
  else
    let r := random w in
    Ok (a + tape r (cursor r) mod (b - a + 1))
       (mkWorld (self w) (mkRandom (tape r) (S (cursor r))) (data_manager w) (calls w)).

Definition calculate_field_dimensions : M unit :=
  s ← ask settings;
  field_info ← lift (subscript FIELD_SIZES (GameSettings.field_size s));
  upd (with_field_width (fs_width field_info));;
  upd (with_field_height (fs_height field_info)).

(** [__init__]: the attributes as the constructor sets them, for a data
    manager and a generator given by the host; no callback is
    registered. *)
Definition new (data_manager : DataManager.t) (random : Random) : outcome unit :=
  calculate_field_dimensions
    (mkWorld
       (mk MENU (DataManager.load_settings data_manager) 0 0 20 15
          [] (mkPoint 0 0) RIGHT RIGHT 0 false false [] 20 None (VInt 150)
          0 0 0 false false false)
       random data_manager []).

(** The loop of [place_food], by the number of attempts still allowed
    ([100 - attempts]). *)
Fixpoint place_food_loop (remaining : nat) : M unit :=
  match remaining with
  | O => mret tt
  | S remaining' =>
      h ← ask field_height;
      food_y ← randint 0 (h - 1);
      w ← ask field_width;
      food_x ← randint 0 (w - 1);
      let new_food := mkPoint food_y food_x in
      body ← ask snake;
      if negb (contains new_food body)
      then upd (with_food new_food)
      else place_food_loop remaining'
  end.

Definition place_food : M unit := place_food_loop 100.

Definition reset_game (now : float) : M unit :=
  calculate_field_dimensions;;
  h ← ask field_height;
  w ← ask field_width;
  let center_y := h / 2 in
  let center_x := w / 2 in
  upd (with_snake [ mkPoint center_y center_x;
                    mkPoint center_y (center_x - 1);
                    mkPoint center_y (center_x - 2) ]);;
  upd (with_direction RIGHT);;
  upd (with_next_direction RIGHT);;
  upd (with_score 0);;
  upd (with_game_over false);;
  upd (with_paused false);;
  upd (with_foods_eaten 0);;
  s ← ask settings;
  upd (with_current_speed (GameSettings.initial_speed s));;
  upd (with_last_speed_increase 0%float);;
  place_food;;
  s ← ask settings;
  upd (with_current_session
         (Some (GameSession.new now (GameSettings.field_size s)
                  (GameSettings.difficulty s)))).

(** The dictionary [opposite] of [handle_direction_input]. *)
Definition opposite (d : Direction) : Direction :=
  match d with
  | UP => DOWN
  | DOWN => UP
  | LEFT => RIGHT
  | RIGHT => LEFT
  end.

Definition handle_direction_input (new_direction : Direction) : M bool :=
  p ← ask paused;
  g ← ask game_over;
  if p || g then mret false
  else
    d ← ask direction;
    if negb (Direction_eqb new_direction (opposite d))
    then upd (with_next_direction new_direction);; mret true
    else mret false.

Definition save_settings : M unit := fun w =>
  Ok tt (mkWorld (self w) (random w)
           (DataManager.save_settings (settings (self w)) (data_manager w))
           (calls w)).

(** [self.settings.<field> = v] *)
Definition upd_settings (f : GameSettings.t -> GameSettings.t) : M unit :=
  s ← ask settings;
  upd (with_settings (f s)).

Definition toggle (get : GameSettings.t -> value)
    (set : value -> GameSettings.t -> GameSettings.t) : M unit :=
  s ← ask settings;
  upd_settings (set (VBool (negb (truthy (get s))))).

Definition difficulties : list string := ["Easy"; "Medium"; "Hard"; "Extreme"].

Definition speeds : list (string * Z) :=
  [("Easy", 200); ("Medium", 150); ("Hard", 100); ("Extreme", 60)].

Definition handle_settings_navigation (action : string) : M unit :=
  let max_settings := 9 in
  if String.eqb action "up" then
    i ← ask settings_index;
    upd (with_settings_index ((i - 1) mod max_settings))
  else if String.eqb action "down" then
    i ← ask settings_index;
    upd (with_settings_index ((i + 1) mod max_settings))
  else if String.eqb action "select" then
    i ← ask settings_index;
    if i =? 0 then
      s ← ask settings;
      current ← lift (list_index difficulties (GameSettings.difficulty s));
      d ← lift (list_get difficulties
                  ((current + 1) mod Z.of_nat (length difficulties)));
      upd_settings (GameSettings.with_difficulty (VStr d));;
      s ← ask settings;
      speed ← lift (subscript speeds (GameSettings.difficulty s));
      upd_settings (GameSettings.with_initial_speed (VInt speed))
    else if i =? 1 then
      let sizes := map fst FIELD_SIZES in
      s ← ask settings;
      current ← lift (list_index sizes (GameSettings.field_size s));
      size ← lift (list_get sizes ((current + 1) mod Z.of_nat (length sizes)));
      upd_settings (GameSettings.with_field_size (VStr size))
    else if i =? 2 then
      toggle GameSettings.show_grid GameSettings.with_show_grid
    else if i =? 3 then
      toggle GameSettings.smooth_animation GameSettings.with_smooth_animation
    else if i =? 4 then
      toggle GameSettings.timer_mode GameSettings.with_timer_mode
    else if i =? 5 then
      toggle GameSettings.auto_speed_increase GameSettings.with_auto_speed_increase
    else if i =? 6 then
      toggle GameSettings.sound_effects GameSettings.with_sound_effects
    else if i =? 7 then
      toggle GameSettings.vibration GameSettings.with_vibration
    else if i =? 8 then
      save_settings;;
      upd (with_state MENU)
    else mret tt
  else if String.eqb action "back" then
    upd (with_state MENU)
  else mret tt.

(** The game-over exit shared by the two collision checks. *)
Definition end_game : M unit :=
  upd (with_game_over true);;
  upd (with_state NAME_INPUT);;
  cb ← ask on_game_over;
  when cb (call CallGameOver).

Definition update_game_logic (current_time : float) : M unit :=
  g ← ask game_over;
  p ← ask paused;
  if g || p then mret tt
  else
    speed ← ask current_speed;
    interval ← lift (py_div_float speed 1000);
    last ← ask last_update_time;
    if PrimFloat.ltb (PrimFloat.sub current_time last) interval then mret tt
    else
      upd (with_last_update_time current_time);;
      sess ← ask current_session;
      match sess with
      | Some session =>
          upd (with_current_session
                 (Some (GameSession.with_moves_made
                          (GameSession.moves_made session + 1) session)));;
          s ← ask settings;
          since ← ask last_speed_increase;
          when (truthy (GameSettings.timer_mode s)
                && truthy (GameSettings.auto_speed_increase s)
                && PrimFloat.leb 30
                     (PrimFloat.sub
                        (PrimFloat.sub current_time (GameSession.start_time session))
                        since))
            (speed ← ask current_speed;
             upd (with_current_speed (py_max_int 50 (py_sub_int speed 10)));;
             upd (with_last_speed_increase
                    (PrimFloat.sub current_time (GameSession.start_time session))))
      | None => mret tt
      end;;
      next ← ask next_direction;
      upd (with_direction next);;
      body ← ask snake;
      head ← lift (list_get body 0);
      d ← ask direction;
      let new_head := Point_add head d in
      h ← ask field_height;
      w ← ask field_width;
      if (y new_head <? 0) || (h <=? y new_head)
         || (x new_head <? 0) || (w <=? x new_head)
      then end_game
      else if contains new_head body then end_game
      else
        upd (with_snake (new_head :: body));;
        f ← ask food;
        if Point_eq new_head f then
          sc ← ask score;
          upd (with_score (sc + 10));;
          eaten ← ask foods_eaten;
          upd (with_foods_eaten (eaten + 1));;
          place_food;;
          s ← ask settings;
          when (truthy (GameSettings.auto_speed_increase s))
            (speed ← ask current_speed;
             upd (with_current_speed (py_max_int 40 (py_sub_int speed 3))));;
          cb ← ask on_food_eaten;
          when cb (call CallFoodEaten);;
          cb ← ask on_score_changed;
          sc ← ask score;
          when cb (call (CallScoreChanged sc))
        else
          body ← ask snake;
          upd (with_snake (removelast body)).

(** *** The screens around the game *)

Definition get_high_score : M Z := fun w =>
  Ok (match DataManager.load_scores (data_manager w) with
      | [] => 0
      | first :: _ => Entry.score first
      end) w.

Definition handle_menu_navigation (now : float) (action : string) : M bool :=
  if String.eqb action "up" then
    i ← ask menu_index;
    upd (with_menu_index ((i - 1) mod 4));;
    mret false
  else if String.eqb action "down" then
    i ← ask menu_index;
    upd (with_menu_index ((i + 1) mod 4));;
    mret false
  else if String.eqb action "select" then
    i ← ask menu_index;
    if i =? 0 then
      upd (with_state PLAYING);;
      reset_game now;;
      mret false
    else if i =? 1 then
      upd (with_state SETTINGS);;
      upd (with_settings_index 0);;
      mret false
    else if i =? 2 then
      upd (with_state HIGH_SCORES);;
      mret false
    else if i =? 3 then mret true
    else mret false
  else mret false.

(** [self.data_manager.add_score(...)]; [stamp] and [now] are what the
    clock gives inside it. *)
Definition data_manager_add_score (score : Z) (name : pystr)
    (session : GameSession.t) (stamp : string) (now : float) : M (list Entry.t) :=
  fun w =>
    let result :=
      DataManager.add_score score name session stamp now (data_manager w) in
    Ok result.1 (mkWorld (self w) (random w) result.2 (calls w)).

(** [self.current_session.<field> = v], where a session exists. *)
Definition upd_session (f : GameSession.t -> GameSession.t) : M unit :=
  sess ← ask current_session;
  match sess with
  | Some session => upd (with_current_session (Some (f session)))
  | None => mret tt
  end.

(** [now] is the clock read for [end_time]; [stamp] and [later] are the
    reads inside [add_score]. *)
Definition finish_game_session (now : float) (stamp : string) (later : float) :
    M unit :=
  sess ← ask current_session;
  match sess with
  | Some _ =>
      upd_session (GameSession.with_end_time now);;
      sc ← ask score;
      upd_session (GameSession.with_score sc);;
      eaten ← ask foods_eaten;
      upd_session (GameSession.with_foods_eaten eaten);;
      body ← ask snake;
      upd_session (GameSession.with_max_length (Z.of_nat (length body)));;
      name ← ask player_name;
      let final_name := or_anonymous (strip name) in
      sc ← ask score;
      sess ← ask current_session;
      match sess with
      | Some session =>
          data_manager_add_score sc final_name session stamp later;;
          mret tt
      | None => mret tt
      end
  | None => mret tt
  end;;
  upd (with_player_name []);;
  upd (with_state MENU).

Section name_entry.

(** [str.isprintable] on one code point, a table of the Unicode
    database. *)
Variable isprintable : N -> bool.

Definition handle_name_input (action : string) (char : pystr)
    (now : float) (stamp : string) (later : float) : M unit :=
  if String.eqb action "char" && match char with [] => false | _ => true end
  then
    name ← ask player_name;
    limit ← ask max_name_length;
    if (Z.of_nat (length name) <? limit) && forallb isprintable char
    then upd (with_player_name (name ++ char))
    else mret tt
  else if String.eqb action "backspace" then
    name ← ask player_name;
    match name with
    | [] => mret tt
    | _ => upd (with_player_name (removelast name))
    end
  else if String.eqb action "enter" then
    finish_game_session now stamp later
  else if String.eqb action "skip" then
    upd (with_player_name anonymous);;
    finish_game_session now stamp later
  else mret tt.

End name_entry.

Definition toggle_pause : M unit :=
  st ← ask state;
  g ← ask game_over;
  if GameState_eqb st PLAYING && negb g then
    p ← ask paused;
    upd (with_paused (negb p));;
    upd_session (fun session =>
      GameSession.with_pauses_count (GameSession.pauses_count session + 1) session)
  else mret tt.

(** *** Rendering *)

(** The calls [run_frame] makes to its renderer, with their arguments. *)
Inductive DrawCall : Type :=
| draw_menu (menu_items : list string) (selected_index : Z)
| draw_settings (settings_items : list string) (selected_index : Z)
| draw_high_scores (scores : list Entry.t)
| draw_name_input (name : pystr) (cursor_pos : Z) (is_new_record : bool) (score : Z)
| draw_game_field (snake : list Point) (food : Point) (field_width field_height : Z)
| draw_ui (score high_score : Z) (timer : string) (speed : value).

Definition get_menu_items : list string :=
  [ "🎮 НАЧАТЬ ИГРУ"; "⚙️ НАСТРОЙКИ"; "🏆 РЕКОРДЫ"; "❌ ВЫХОД" ].

(** [now] is the clock read inside [duration]. *)
Definition get_game_state_data (now : float) : M GameStateData.t :=
  sess ← ask current_session;
  timer_str ← match sess with
              | Some session =>
                  elapsed ← lift (py_int (GameSession.duration now session));
                  mret (String.append (format_02d (elapsed / 60))
                          (String.append ":" (format_02d (elapsed mod 60))))
              | None => mret "00:00"%string
              end;
  e ← ask (fun e => e);
  high ← get_high_score;
  speed ← lift (py_rsub_int 200 (current_speed e));
  mret (GameStateData.mk (snake e) (food e) (score e) high (field_width e)
          (field_height e) timer_str speed (foods_eaten e) (paused e)
          (game_over e)).

Section rendering.

(** What an f-string makes of a value, [format(v, "")]. *)
Variable format_value : value -> string.

Definition yes_no (v : value) : string :=
  if truthy v then "Да" else "Нет".

Definition get_settings_items : M (list string) :=
  s ← ask settings;
  mret [ String.append "Сложность: " (format_value (GameSettings.difficulty s));
         String.append "Размер поля: " (format_value (GameSettings.field_size s));
         String.append "Показать сетку: " (yes_no (GameSettings.show_grid s));
         String.append "Плавная анимация: " (yes_no (GameSettings.smooth_animation s));
         String.append "Режим таймера: " (yes_no (GameSettings.timer_mode s));
         String.append "Авто-ускорение: " (yes_no (GameSettings.auto_speed_increase s));
         String.append "Звуковые эффекты: " (yes_no (GameSettings.sound_effects s));
         String.append "Вибрация: " (yes_no (GameSettings.vibration s));
         "СОХРАНИТЬ И ВЫЙТИ" ].

(** One frame: [now] is the clock read of the tick, [later] the one of
    the timer shown. The renderer is given what the calls carry and does
    not reach back into the engine. *)
Definition run_frame (now later : float) : M (list DrawCall) :=
  st ← ask state;
  (if GameState_eqb st PLAYING then update_game_logic now else mret tt);;
  st ← ask state;
  match st with
  | MENU =>
      i ← ask menu_index;
      mret [draw_menu get_menu_items i]
  | SETTINGS =>
      items ← get_settings_items;
      i ← ask settings_index;
      mret [draw_settings items i]
  | HIGH_SCORES =>
      scores ← (fun w => Ok (DataManager.load_scores (data_manager w)) w);
      mret [draw_high_scores scores]
  | NAME_INPUT =>
      sc ← ask score;
      high ← get_high_score;
      name ← ask player_name;
      mret [draw_name_input name (Z.of_nat (length name)) (high <? sc) sc]
  | PLAYING =>
      d ← get_game_state_data later;
      mret [ draw_game_field (GameStateData.snake d) (GameStateData.food d)
               (GameStateData.field_width d) (GameStateData.field_height d);
             draw_ui (GameStateData.score d) (GameStateData.high_score d)
               (GameStateData.timer d) (GameStateData.speed d) ]
  | _ => mret []
  end.

End rendering.

End SnakeGameEngine.

Import SnakeGameEngine.

(** * Vocabulary of the properties *)

(** A cell of the grid [[0,height) x [0,width)]. *)
Definition inside (p : Point) (e : t) : Prop :=
  0 <= y p < field_height e /\ 0 <= x p < field_width e.

(** The game is neither over nor paused. *)
Definition running (e : t) : Prop :=
  game_over e = false /\ paused e = false.

(** The tick interval, [current_speed] milliseconds, has elapsed at [now]
    since the last tick that was applied: the test the code makes,
    [current_time - self.last_update_time < self.current_speed / 1000.0]
    in float arithmetic, is false. *)
Definition due (now : float) (e : t) : Prop :=
  exists interval,
    py_div_float (current_speed e) 1000 = Val interval
    /\ PrimFloat.ltb (PrimFloat.sub now (last_update_time e)) interval = false.

(** It has not elapsed yet: the test is true. *)
Definition early (now : float) (e : t) : Prop :=
  exists interval,
    py_div_float (current_speed e) 1000 = Val interval
    /\ PrimFloat.ltb (PrimFloat.sub now (last_update_time e)) interval = true.

(** The [i]-th cell [place_food] would draw in world [w]: two numbers of
    the tape per attempt, row first. *)
Definition candidate (w : World) (i : nat) : Point :=
  let r := random w in
  mkPoint (tape r (cursor r + 2 * i)%nat mod field_height (self w))
          (tape r (S (cursor r + 2 * i)) mod field_width (self w)).

(** The first [n] cells drawn all lie on [cells]. *)
Definition all_taken (w : World) (cells : list Point) (n : nat) : Prop :=
  forall i, (i < n)%nat -> contains (candidate w i) cells = true.

(** Attempt [i] is the first to draw a cell off [cells]. *)
Definition first_free (w : World) (cells : list Point) (i : nat) : Prop :=
  contains (candidate w i) cells = false /\ all_taken w cells i.

(** World [w] after [attempts] attempts that left the food at [f]. *)
Definition fed (w : World) (f : Point) (attempts : nat) : World :=
  mkWorld (with_food f (self w))
    (mkRandom (tape (random w)) (cursor (random w) + 2 * attempts))
    (data_manager w) (calls w).

(** The food put where a test wants it. *)
Definition force_food (f : Point) (w : World) : World :=
  mkWorld (with_food f (self w)) (random w) (data_manager w) (calls w).

(** Descending order of the ledger. *)
Definition desc (a b : Entry.t) : Prop := Entry.score b <= Entry.score a.

(** [other] is ranked before a new entry [e]: its score is at least that
    of [e]. *)
Definition outranks (e other : Entry.t) : bool :=
  Entry.score e <=? Entry.score other.

(** ** Concrete worlds used as examples *)

(** A generator that always produces [k]. *)
Definition constant_tape (k : Z) : Random := mkRandom (fun _ => k) 0.

(** A settings file that selects the 15 x 10 field. *)
Definition small_field_file : DataManager.t :=
  DataManager.mk (Some {[ "field_size" := VStr "Small" ]}) None true.

(** The engine as constructed over that file. *)
Definition small_world (r : Random) : World := final (new small_field_file r).

(** The same after [reset_game] at time 0. *)
Definition small_game (r : Random) : World := final (reset_game 0 (small_world r)).

(** A settings file whose initial speed is an integer beyond the range
    of the floats. *)
Definition huge_speed_file : DataManager.t :=
  DataManager.mk
    (Some {[ "field_size" := VStr "Small"; "initial_speed" := VInt (10 ^ 400) ]})
    None true.

(** A settings file whose initial speed is the least positive float,
    [5e-324]. *)
Definition tiny_speed_file : DataManager.t :=
  DataManager.mk
    (Some {[ "field_size" := VStr "Small";
             "initial_speed" := VFloat (1 # 2 ^ 1074) ]})
    None true.

(** A game on the small field with the given body, queued direction and
    food. *)
Definition position (body : list Point) (d : Direction) (f : Point) : World :=
  let w := small_game (constant_tape 0) in
  mkWorld (with_food f (with_next_direction d (with_snake body (self w))))
    (random w) (data_manager w) (calls w).

Definition pt (row col : Z) : Point := mkPoint row col.

(** A generator that draws the cell (5,8) again and again. *)
Definition alternating_tape : Random :=
  mkRandom (fun n => if Nat.even n then 5 else 8) 0.

(** A game played from the constructor on: the food is placed at (5,8) and
    eaten by the first tick; every cell drawn for the next food is (5,8)
    again, now under the head, so the food stays there; the snake then
    goes up, right and down around a square and is told to go left, back
    onto (5,8), which is still its tail. *)
Definition coiled : World :=
  final ((reset_game 0;;
          update_game_logic 1;;
          handle_direction_input UP;;
          update_game_logic 2;;
          handle_direction_input RIGHT;;
          update_game_logic 3;;
          handle_direction_input DOWN;;
          update_game_logic 4;;
          handle_direction_input LEFT;;
          mret tt) (small_world alternating_tape)).

Definition session0 : GameSession.t := GameSession.new 0 (VStr "Small") (VStr "Medium").

Definition champion : Entry.t :=
  DataManager.build_entry 100 [65%N] session0 "2024-01-01 00:00:00" 1.

(** A ledger already holding fifty entries of score 100. *)
Definition full_ledger : DataManager.t :=
  DataManager.mk None (Some (repeat champion 50)) true.

(** ** Vocabulary of the further properties *)

(** The time-based speed-up of a tick applies. *)
Definition speeds_up (now : float) (e : t) : bool :=
  match current_session e with
  | Some session =>
      truthy (GameSettings.timer_mode (settings e))
      && truthy (GameSettings.auto_speed_increase (settings e))
      && PrimFloat.leb 30
           (PrimFloat.sub (PrimFloat.sub now (GameSession.start_time session))
              (last_speed_increase e))
  | None => false
  end.

(** The engine after the bookkeeping of a due tick: the time of the tick,
    the move counted in the session, the time-based speed-up, the queued
    direction applied. *)
Definition ticked (now : float) (e : t) : t :=
  with_direction (next_direction e)
    match current_session e with
    | Some session =>
        let counted :=
          with_current_session
            (Some (GameSession.with_moves_made
                     (GameSession.moves_made session + 1) session))
            (with_last_update_time now e) in
        if speeds_up now e
        then with_last_speed_increase
               (PrimFloat.sub now (GameSession.start_time session))
               (with_current_speed (py_max_int 50 (py_sub_int (current_speed e) 10))
                  counted)
        else counted
    | None => with_last_update_time now e
    end.

(** The engine after a tick that ate: the snake grown onto the food, the
    score and the count of foods raised, the food at [f], the interval
    shortened when the setting asks for it. *)
Definition fed_engine (now : float) (e : t) (f : Point) : t :=
  let grown :=
    with_food f
      (with_foods_eaten (foods_eaten e + 1)
         (with_score (score e + 10)
            (with_snake (food e :: snake e) (ticked now e)))) in
  if truthy (GameSettings.auto_speed_increase (settings e))
  then with_current_speed
         (py_max_int 40 (py_sub_int (current_speed (ticked now e)) 3)) grown
  else grown.

(** The log of callbacks after the calls of a tick that ate. *)
Definition fed_calls (e : t) (log : list Event) : list Event :=
  (if on_food_eaten e then log ++ [CallFoodEaten] else log)
  ++ (if on_score_changed e then [CallScoreChanged (score e + 10)] else []).

(** The ways a call of [update_game_logic] at [now] in world [w] can go,
    each with the outcome it has. *)
Inductive tick_case (now : float) (w : World) : outcome unit -> Prop :=
| tick_skip :
    game_over (self w) = true \/ paused (self w) = true \/ early now (self w) ->
    tick_case now w (Ok tt w)
| tick_bad_speed x :
    running (self w) -> py_div_float (current_speed (self w)) 1000 = Exc x ->
    tick_case now w (Raise x w)
| tick_empty :
    running (self w) -> due now (self w) -> snake (self w) = [] ->
    tick_case now w
      (Raise IndexError
         (mkWorld (ticked now (self w)) (random w) (data_manager w) (calls w)))
| tick_crash head rest :
    running (self w) -> due now (self w) -> snake (self w) = head :: rest ->
    ~ inside (Point_add head (next_direction (self w))) (self w)
    \/ In (Point_add head (next_direction (self w))) (snake (self w)) ->
    tick_case now w
      (Ok tt
         (mkWorld
            (with_state NAME_INPUT (with_game_over true (ticked now (self w))))
            (random w) (data_manager w)
            (if on_game_over (self w) then calls w ++ [CallGameOver] else calls w)))
| tick_step head rest :
    running (self w) -> due now (self w) -> snake (self w) = head :: rest ->
    inside (Point_add head (next_direction (self w))) (self w) ->
    ~ In (Point_add head (next_direction (self w))) (snake (self w)) ->
    Point_add head (next_direction (self w)) <> food (self w) ->
    tick_case now w
      (Ok tt
         (mkWorld
            (with_snake
               (Point_add head (next_direction (self w))
                :: removelast (snake (self w)))
               (ticked now (self w)))
            (random w) (data_manager w) (calls w)))
| tick_feed head rest f k :
    running (self w) -> due now (self w) -> snake (self w) = head :: rest ->
    inside (Point_add head (next_direction (self w))) (self w) ->
    ~ In (Point_add head (next_direction (self w))) (snake (self w)) ->
    Point_add head (next_direction (self w)) = food (self w) ->
    (k = 100%nat /\ f = food (self w)
     /\ all_taken w (food (self w) :: snake (self w)) 100)
    \/ (exists i, k = S i /\ (i < 100)%nat /\ f = candidate w i
                  /\ first_free w (food (self w) :: snake (self w)) i) ->
    tick_case now w
      (Ok tt
         (mkWorld (fed_engine now (self w) f)
            (mkRandom (tape (random w)) (cursor (random w) + 2 * k))
            (data_manager w) (fed_calls (self w) (calls w)))).

(** [p] and [q] are neighbours on the grid. *)
Definition adjacent (p q : Point) : Prop := exists d, p = Point_add q d.

(** Each cell of the body is a neighbour of the next one. *)
Fixpoint connected (cells : list Point) : Prop :=
  match cells with
  | p :: (q :: _) as rest => adjacent p q /\ connected rest
  | _ => True
  end.

(** Every cell of the snake is a cell of the grid. *)
Definition on_grid (e : t) : Prop :=
  Forall (fun p => inside p e) (snake e).

(** The score and the length follow the count of foods eaten. *)
Definition tallied (e : t) : Prop :=
  score e = 10 * foods_eaten e
  /\ Z.of_nat (length (snake e)) = 3 + foods_eaten e.

(** The head is where the applied direction took it from the second
    cell. *)
Definition heading (e : t) : Prop :=
  match snake e with
  | h :: n :: _ => h = Point_add n (direction e)
  | _ => True
  end.

(** The queued direction is not a reversal, and a game that goes on has its
    head where its direction says. *)
Definition steered (e : t) : Prop :=
  next_direction e <> opposite (direction e)
  /\ (game_over e = false -> heading e).

(** A string that does not start with white space. *)
Definition starts_clean (s : pystr) : Prop :=
  match s with
  | [] => True
  | c :: _ => is_space c = false
  end.

(** The score is at most ten points a move of the session, and not
    negative. *)
Definition paced (e : t) : Prop :=
  match current_session e with
  | Some session => 0 <= score e <= 10 * GameSession.moves_made session
  | None => True
  end.

(** The timer [get_game_state_data] shows at the clock read [now], or
    what computing it raises. *)
Definition shown_timer (now : float) (e : t) : res string :=
  match current_session e with
  | Some session =>
      match py_int (GameSession.duration now session) with
      | Val elapsed =>
          Val (String.append (format_02d (elapsed / 60))
                 (String.append ":" (format_02d (elapsed mod 60))))
      | Exc x => Exc x
      end
  | None => Val "00:00"%string
  end.

(** The body of the snake is a path of neighbours and has no cell
    twice. *)
Definition sound_body (e : t) : Prop :=
  connected (snake e) /\ NoDup (snake e).

(** The body of the snake lies on the grid, is a path of neighbours, and
    has no cell twice. *)
Definition sound_board (e : t) : Prop :=
  on_grid e /\ connected (snake e) /\ NoDup (snake e).

(** A state other than the two the engine has no use for. *)
Definition live (s : GameState) : Prop := s <> PAUSED /\ s <> GAME_OVER.

(** The calls a host can make on an engine: every method of
    [SnakeGameEngine] but the constructor, with its arguments and the
    clock reads it makes. *)
Inductive Method : Type :=
| do_calculate_field_dimensions
| do_reset_game (now : float)
| do_place_food
| do_get_high_score
| do_handle_direction_input (new_direction : Direction)
| do_handle_menu_navigation (now : float) (action : string)
| do_handle_settings_navigation (action : string)
| do_handle_name_input (action : string) (char : pystr)
    (now : float) (stamp : string) (later : float)
| do_finish_game_session (now : float) (stamp : string) (later : float)
| do_toggle_pause
| do_update_game_logic (now : float)
| do_get_game_state_data (now : float)
| do_get_menu_items
| do_get_settings_items
| do_run_frame (now later : float).

(** The call sets the grid in use without resetting the game. *)
Definition resizes (m : Method) : bool :=
  match m with
  | do_calculate_field_dimensions => true
  | _ => false
  end.

Section host.

Variable isprintable : N -> bool.
Variable format_value : value -> string.

(** The world a call leaves, whether it returns or raises. *)
Definition after (m : Method) (w : World) : World :=
  match m with
  | do_calculate_field_dimensions => final (calculate_field_dimensions w)
  | do_reset_game now => final (reset_game now w)
  | do_place_food => final (place_food w)
  | do_get_high_score => final (get_high_score w)
  | do_handle_direction_input d => final (handle_direction_input d w)
  | do_handle_menu_navigation now action =>
      final (handle_menu_navigation now action w)
  | do_handle_settings_navigation action =>
      final (handle_settings_navigation action w)
  | do_handle_name_input action char now stamp later =>
      final (handle_name_input isprintable action char now stamp later w)
  | do_finish_game_session now stamp later =>
      final (finish_game_session now stamp later w)
  | do_toggle_pause => final (toggle_pause w)
  | do_update_game_logic now => final (update_game_logic now w)
  | do_get_game_state_data now => final (get_game_state_data now w)
  | do_get_menu_items => w
  | do_get_settings_items => final (get_settings_items format_value w)
  | do_run_frame now later => final (run_frame format_value now later w)
  end.

(** The world after a sequence of calls, a host that goes on after an
    exception included. *)
Definition played (calls : list Method) (w : World) : World :=
  fold_left (fun w m => after m w) calls w.

End host.

(** A call that took world [w] to [w'] kept the state live, the body of
    the snake sound, and the snake on the grid. *)
Definition keeps (w w' : World) : Prop :=
  (live (state (self w)) -> live (state (self w')))
  /\ (sound_body (self w) -> sound_body (self w'))
  /\ (on_grid (self w) -> on_grid (self w')).

(** * Settings *)

Section settings_facts.
Import GameSettings.

Implicit Types (data : gmap string value) (s : t).

Lemma filtered_lookup data k :
  k ∈ known_fields ->
  filter (fun kv : string * value => kv.1 ∈ known_fields) data !! k = data !! k.
Proof.
  intros Hk. rewrite map_lookup_filter.
  destruct (data !! k) as [v|]; simpl; [|reflexivity].
  rewrite option_guard_True; [reflexivity | exact Hk].
Qed.

Lemma filtered_dom data :
  dom (filter (fun kv : string * value => kv.1 ∈ known_fields) data) ⊆ known_fields.
Proof.
  intros k Hk. apply elem_of_dom in Hk as [v Hv].
  apply map_lookup_filter_Some in Hv as [_ HP]. exact HP.
Qed.

Lemma from_dict_fields data :
  from_dict data =
  Val (mk (default (VInt 150) (data !! "initial_speed"))
          (default (VStr "Medium") (data !! "difficulty"))
          (default (VBool true) (data !! "show_grid"))
          (default (VBool true) (data !! "smooth_animation"))
          (default (VBool false) (data !! "sound_effects"))
          (default (VStr "Classic") (data !! "theme"))
          (default (VStr "Medium") (data !! "field_size"))
          (default (VBool true) (data !! "timer_mode"))
          (default (VBool true) (data !! "auto_speed_increase"))
          (default (VBool true) (data !! "vibration"))).
Proof.
  unfold from_dict, init.
  rewrite bool_decide_eq_true_2 by apply filtered_dom.
  rewrite !filtered_lookup by (unfold known_fields; set_solver).
  reflexivity.
Qed.

Lemma from_dict_insert_unknown data k v :
  k ∉ known_fields -> from_dict (<[k:=v]> data) = from_dict data.
Proof.
  intros Hk. rewrite !from_dict_fields.
  rewrite !lookup_insert_ne; [reflexivity | ..];
    intros ->; apply Hk; unfold known_fields; set_solver.
Qed.

Lemma from_dict_delete_unknown data k :
  k ∉ known_fields -> from_dict (delete k data) = from_dict data.
Proof.
  intros Hk. rewrite !from_dict_fields.
  rewrite !lookup_delete_ne; [reflexivity | ..];
    intros ->; apply Hk; unfold known_fields; set_solver.
Qed.

Lemma default_typed (p : value -> bool) d o :
  p d = true -> (forall v, o = Some v -> p v = true) -> p (default d o) = true.
Proof. intros Hd Ho. destruct o as [v|]; simpl; [apply Ho; reflexivity | exact Hd]. Qed.

Lemma from_dict_well_typed data :
  (forall k v, k ∈ known_fields -> data !! k = Some v -> field_type k v = true) ->
  exists s, from_dict data = Val s /\ well_typed s = true.
Proof.
  intros Hty. eexists. split; [apply from_dict_fields|].
  unfold well_typed; simpl.
  repeat (apply andb_true_intro; split);
    (apply default_typed; [reflexivity|]); intros v Hv;
    (eapply (Hty _ v) in Hv; [exact Hv | unfold known_fields; set_solver]).
Qed.

Lemma round_trip s : from_dict (to_dict s) = Val s.
Proof. destruct s. reflexivity. Qed.

(** C7. Serialising a settings record and reading it back gives the same
    record; [from_dict] never raises: whatever the mapping, it returns the
    record whose every field is the mapping's value under that name, or
    the default when the name is absent, so a key that is not a field
    changes nothing; and when the values found under the field names have
    the fields' types the record is well typed. *)
Theorem settings_round_trip s data k v :
  from_dict (to_dict s) = Val s
  /\ from_dict data =
     Val (mk (default (initial_speed defaults) (data !! "initial_speed"))
            (default (difficulty defaults) (data !! "difficulty"))
            (default (show_grid defaults) (data !! "show_grid"))
            (default (smooth_animation defaults) (data !! "smooth_animation"))
            (default (sound_effects defaults) (data !! "sound_effects"))
            (default (theme defaults) (data !! "theme"))
            (default (field_size defaults) (data !! "field_size"))
            (default (timer_mode defaults) (data !! "timer_mode"))
            (default (auto_speed_increase defaults) (data !! "auto_speed_increase"))
            (default (vibration defaults) (data !! "vibration")))
  /\ (k ∉ known_fields -> from_dict (<[k:=v]> data) = from_dict data)
  /\ (k ∉ known_fields -> from_dict (delete k data) = from_dict data)
  /\ ((forall f u, f ∈ known_fields -> data !! f = Some u -> field_type f u = true) ->
      exists s', from_dict data = Val s' /\ well_typed s' = true).
Proof.
  split; [apply round_trip|].
  split; [apply from_dict_fields|].
  split; [apply from_dict_insert_unknown|].
  split; [apply from_dict_delete_unknown | apply from_dict_well_typed].
Qed.

Lemma settings_round_trip_witness :
  from_dict (<["colour" := VStr "green"]> {[ "theme" := VStr "Neon" ]})
  = from_dict {[ "theme" := VStr "Neon" ]}
  /\ from_dict (delete "colour" {[ "theme" := VStr "Neon" ]})
     = from_dict {[ "theme" := VStr "Neon" ]}
  /\ exists s', from_dict {[ "theme" := VStr "Neon" ]} = Val s'
                /\ well_typed s' = true.
Proof.
  pose proof (settings_round_trip defaults {[ "theme" := VStr "Neon" ]}
                "colour" (VStr "green")) as (_ & _ & Hins & Hdel & Hty).
  assert (Hk : "colour" ∉ known_fields) by (vm_compute; intros H; discriminate H).
  split; [exact (Hins Hk)|]. split; [exact (Hdel Hk)|].
  apply Hty. intros f u _ Hf.
  apply lookup_singleton_Some in Hf as [<- <-]. reflexivity.
Defined.
End settings_facts.

(** * The score ledger *)

Section ledger_facts.
Import DataManager.
Implicit Types (e : Entry.t) (l : list Entry.t).

Lemma insert_desc_perm e l : Permutation (insert_desc e l) (e :: l).
Proof.
  induction l as [|e' l IH]; simpl; [reflexivity|].
  destruct (Entry.score e <? Entry.score e'); [|reflexivity].
  rewrite IH. apply perm_swap.
Qed.

Lemma sort_desc_perm l : Permutation (sort_desc l) l.
Proof.
  induction l as [|e l IH]; simpl; [reflexivity|].
  rewrite insert_desc_perm. apply perm_skip, IH.
Qed.

Lemma sort_desc_length l : length (sort_desc l) = length l.
Proof. apply Permutation_length, sort_desc_perm. Qed.

Lemma insert_desc_sorted e l :
  StronglySorted desc l -> StronglySorted desc (insert_desc e l).
Proof.
  induction 1 as [|e' l Hl IH Hall]; simpl.
  - repeat constructor.
  - destruct (Z.ltb_spec (Entry.score e) (Entry.score e')) as [Hlt|Hge].
    + constructor; [exact IH|].
      rewrite (insert_desc_perm e l). constructor; [unfold desc; lia | exact Hall].
    + constructor; [constructor; assumption|].
      constructor; [exact Hge|].
      eapply Forall_impl; [exact Hall|]. unfold desc. intros a Ha. lia.
Qed.

Lemma sort_desc_sorted l : StronglySorted desc (sort_desc l).
Proof.
  induction l; simpl; [constructor | apply insert_desc_sorted; assumption].
Qed.

Lemma take_sorted n l : StronglySorted desc l -> StronglySorted desc (take n l).
Proof.
  intros H. revert n. induction H as [|e l Hl IH Hall]; intros [|n]; simpl;
    try constructor; [apply IH|].
  apply Forall_forall. intros a Ha. rewrite Forall_forall in Hall.
  apply Hall. apply elem_of_take in Ha as (i & Hi & _).
  eapply list_elem_of_lookup_2; eassumption.
Qed.

(** Stability: entries of one score keep their relative order. *)
Lemma insert_desc_stable k e l :
  List.filter (fun a => Entry.score a =? k) (insert_desc e l)
  = List.filter (fun a => Entry.score a =? k) (e :: l).
Proof.
  induction l as [|e' l IH]; [reflexivity|].
  simpl insert_desc.
  destruct (Z.ltb_spec (Entry.score e) (Entry.score e')) as [Hlt|Hge]; [|reflexivity].
  simpl in *. rewrite IH.
  destruct (Z.eqb_spec (Entry.score e') k), (Z.eqb_spec (Entry.score e) k);
    try reflexivity; lia.
Qed.

Lemma sort_desc_stable k l :
  List.filter (fun a => Entry.score a =? k) (sort_desc l)
  = List.filter (fun a => Entry.score a =? k) l.
Proof.
  induction l as [|e l IH]; [reflexivity|].
  simpl sort_desc. rewrite insert_desc_stable. simpl. rewrite IH. reflexivity.
Qed.

(** Where a new last entry lands. *)
Lemma insert_desc_before e x front back :
  Entry.score x <= Entry.score e ->
  insert_desc e (front ++ x :: back) = insert_desc e front ++ x :: back.
Proof.
  intros Hx. induction front as [|a front IH]; simpl.
  - destruct (Z.ltb_spec (Entry.score e) (Entry.score x)); [lia | reflexivity].
  - destruct (Entry.score e <? Entry.score a); [|reflexivity].
    rewrite IH. reflexivity.
Qed.

Lemma insert_desc_after e x front back :
  Entry.score e < Entry.score x ->
  Forall (fun a => Entry.score e < Entry.score a) front ->
  insert_desc e (front ++ x :: back) = front ++ x :: insert_desc e back.
Proof.
  intros Hx. induction 1 as [|a front Ha _ IH]; simpl.
  - destruct (Z.ltb_spec (Entry.score e) (Entry.score x)); [reflexivity | lia].
  - destruct (Z.ltb_spec (Entry.score e) (Entry.score a)); [|lia].
    rewrite IH. reflexivity.
Qed.

Lemma sort_desc_snoc l x :
  sort_desc (l ++ [x])
  = sort_desc (List.filter (outranks x) l) ++ x
    :: sort_desc (List.filter (fun a => negb (outranks x a)) l).
Proof.
  induction l as [|e l IH]; [reflexivity|].
  simpl. rewrite IH.
  destruct (outranks x e) eqn:Hrank; unfold outranks in Hrank; simpl.
  - apply insert_desc_before. apply Z.leb_le. exact Hrank.
  - apply Z.leb_gt in Hrank.
    apply insert_desc_after; [exact Hrank|].
    apply Forall_forall. intros a Ha.
    apply list_elem_of_In in Ha.
    apply (Permutation_in _ (sort_desc_perm _)) in Ha.
    apply filter_In in Ha as [_ Ha]. unfold outranks in Ha.
    apply Z.leb_le in Ha. lia.
Qed.

Lemma insert_desc_skip e front back :
  Forall (fun a => Entry.score e < Entry.score a) front ->
  insert_desc e (front ++ back) = front ++ insert_desc e back.
Proof.
  induction 1 as [|a front Ha _ IH]; simpl; [reflexivity|].
  destruct (Z.ltb_spec (Entry.score e) (Entry.score a)); [|lia].
  rewrite IH. reflexivity.
Qed.

(** The sorted list, seen from an entry [x]: those ranked before [x],
    then the others. *)
Lemma sort_desc_split x l :
  sort_desc l
  = sort_desc (List.filter (outranks x) l)
    ++ sort_desc (List.filter (fun a => negb (outranks x a)) l).
Proof.
  induction l as [|e l IH]; [reflexivity|].
  simpl. rewrite IH.
  destruct (outranks x e) eqn:Hrank; unfold outranks in Hrank; simpl.
  - apply Z.leb_le in Hrank.
    destruct (sort_desc (List.filter (fun a => negb (outranks x a)) l))
      as [|b back] eqn:Hback.
    + rewrite !app_nil_r. reflexivity.
    + apply insert_desc_before.
      assert (Hb : In b (List.filter (fun a => negb (outranks x a)) l)).
      { apply (Permutation_in _ (sort_desc_perm _)). rewrite Hback. left. reflexivity. }
      apply filter_In in Hb as [_ Hb]. unfold outranks in Hb.
      apply negb_true_iff, Z.leb_gt in Hb. lia.
  - apply Z.leb_gt in Hrank.
    apply insert_desc_skip.
    apply Forall_forall. intros a Ha.
    apply list_elem_of_In in Ha.
    apply (Permutation_in _ (sort_desc_perm _)) in Ha.
    apply filter_In in Ha as [_ Ha]. unfold outranks in Ha.
    apply Z.leb_le in Ha. lia.
Qed.

Lemma or_anonymous_blank s : s = [] -> or_anonymous s = anonymous.
Proof. intros ->. reflexivity. Qed.

Lemma or_anonymous_nonblank s : s <> [] -> or_anonymous s = s.
Proof. destruct s; [congruence | reflexivity]. Qed.

Lemma strip_blank_example : strip [32; 9; 160]%N = [].
Proof. reflexivity. Qed.

(** The ledger that [add_score] returns, entry by entry: the entries
    ranked before the new one, the new one, the others, cut at fifty. *)
Lemma add_score_layout score name session stamp now dm :
  let entry := build_entry score name session stamp now in
  (add_score score name session stamp now dm).1
  = take 50 (sort_desc (List.filter (outranks entry) (load_scores dm))
             ++ entry
             :: sort_desc (List.filter (fun a => negb (outranks entry a))
                             (load_scores dm))).
Proof. intros entry. unfold add_score. cbn [fst]. rewrite sort_desc_snoc. reflexivity. Qed.

(** C6, as the code has it. The list [add_score] returns is sorted by
    decreasing score and has at most fifty entries; the entry built has
    the placeholder for a name when the given name is blank after
    trimming, and the trimmed name otherwise; the list holds that entry
    whenever fewer than fifty earlier entries have at least its score;
    otherwise the cut at fifty drops it: the list is then the first
    fifty of the earlier entries alone, sorted, and does not hold the
    entry unless an equal entry was there before; and the list is what
    is written to the scores file. *)
Theorem add_score_ledger score name session stamp now dm :
  let entry := build_entry score name session stamp now in
  let scores := (add_score score name session stamp now dm).1 in
  StronglySorted desc scores
  /\ (length scores <= 50)%nat
  /\ (strip name = [] -> Entry.name entry = anonymous)
  /\ (strip name <> [] -> Entry.name entry = strip name)
  /\ ((length (List.filter (outranks entry) (load_scores dm)) < 50)%nat ->
      In entry scores)
  /\ ((50 <= length (List.filter (outranks entry) (load_scores dm)))%nat ->
      scores = take 50 (sort_desc (load_scores dm))
      /\ (~ In entry (load_scores dm) -> ~ In entry scores))
  /\ (writable dm = true ->
      load_scores (add_score score name session stamp now dm).2 = scores).
Proof.
  intros entry scores.
  split; [apply take_sorted, sort_desc_sorted|].
  split; [unfold scores, add_score; cbn [fst]; rewrite length_take; lia|].
  split; [apply or_anonymous_blank|].
  split; [apply or_anonymous_nonblank|].
  split.
  - intros Hrank. unfold scores. rewrite add_score_layout. fold entry.
    apply list_elem_of_In, elem_of_take.
    exists (length (sort_desc (List.filter (outranks entry) (load_scores dm)))).
    split; [apply list_lookup_middle; reflexivity|].
    rewrite sort_desc_length. exact Hrank.
  - split; [|intros Hw; unfold scores, add_score, save_scores; cbn [fst snd];
              rewrite Hw; reflexivity].
    intros Hrank.
    assert (Hcut : scores = take 50 (sort_desc (load_scores dm))).
    { unfold scores. rewrite add_score_layout. fold entry.
      rewrite (sort_desc_split entry (load_scores dm)).
      rewrite !take_app_le by (rewrite sort_desc_length; exact Hrank).
      reflexivity. }
    split; [exact Hcut|].
    intros Hnew Hin. apply Hnew. rewrite Hcut in Hin.
    apply (Permutation_in _ (sort_desc_perm _)).
    apply list_elem_of_In. apply list_elem_of_In in Hin.
    apply elem_of_take in Hin as (i & Hi & _).
    exact (list_elem_of_lookup_2 _ _ _ Hi).
Qed.

Lemma add_score_ledger_witness :
  Entry.name (build_entry 30 [32; 9]%N session0 "2024-01-02 00:00:00" 2) = anonymous
  /\ Entry.name (build_entry 30 [32; 66; 111; 32]%N session0 "" 2) = [66; 111]%N
  /\ In (build_entry 30 [32; 9]%N session0 "2024-01-02 00:00:00" 2)
        (add_score 30 [32; 9]%N session0 "2024-01-02 00:00:00" 2
           (DataManager.mk None (Some [champion]) true)).1
  /\ load_scores (add_score 30 [32; 9]%N session0 "2024-01-02 00:00:00" 2
                    (DataManager.mk None (Some [champion]) true)).2
     = (add_score 30 [32; 9]%N session0 "2024-01-02 00:00:00" 2
          (DataManager.mk None (Some [champion]) true)).1
  /\ (add_score 0 [32]%N session0 "2024-01-02 00:00:00" 2 full_ledger).1
     = take 50 (sort_desc (load_scores full_ledger))
  /\ ~ In (build_entry 0 [32]%N session0 "2024-01-02 00:00:00" 2)
         (add_score 0 [32]%N session0 "2024-01-02 00:00:00" 2 full_ledger).1.
Proof.
  pose proof (add_score_ledger 30 [32; 9]%N session0 "2024-01-02 00:00:00" 2
                (DataManager.mk None (Some [champion]) true))
    as (_ & _ & Hblank & _ & Hin & _ & Hsave).
  pose proof (add_score_ledger 30 [32; 66; 111; 32]%N session0 "" 2
                (DataManager.mk None None true))
    as (_ & _ & _ & Hname & _).
  pose proof (add_score_ledger 0 [32]%N session0 "2024-01-02 00:00:00" 2
                full_ledger)
    as (_ & _ & _ & _ & _ & Hdrop & _).
  assert (Hfull : (50 <= length (List.filter
                                   (outranks (build_entry 0 [32]%N session0
                                                "2024-01-02 00:00:00" 2))
                                   (load_scores full_ledger)))%nat)
    by (vm_compute; lia).
  split; [apply Hblank; reflexivity|].
  split; [apply Hname; vm_compute; discriminate|].
  split; [apply Hin; vm_compute; lia|].
  split; [apply Hsave; reflexivity|].
  split; [exact (proj1 (Hdrop Hfull))|].
  apply (proj2 (Hdrop Hfull)).
  intros Hold. apply repeat_spec in Hold. vm_compute in Hold. discriminate Hold.
Defined.

(** C6 as stated fails: on a full ledger of higher scores the new entry
    is cut off, so the returned list holds no entry with the placeholder
    although the given name is blank. *)
Lemma add_score_full_ledger_counterexample :
  strip [32]%N = []
  /\ (add_score 0 [32]%N session0 "2024-01-02 00:00:00" 2 full_ledger).1
     = repeat champion 50
  /\ forall e,
       In e (add_score 0 [32]%N session0 "2024-01-02 00:00:00" 2 full_ledger).1 ->
       Entry.name e <> anonymous.
Proof.
  assert (Hres : (add_score 0 [32]%N session0 "2024-01-02 00:00:00" 2 full_ledger).1
                 = repeat champion 50) by (vm_compute; reflexivity).
  split; [reflexivity|]. split; [exact Hres|].
  intros e He. rewrite Hres in He. apply repeat_spec in He. subst e.
  vm_compute. discriminate.
Qed.
End ledger_facts.

(** * The engine *)

Section basic_facts.
Implicit Types (w : World) (e : t) (p : Point).

Lemma Qltb_lt a b : Qltb a b = true <-> (a < b)%Q.
Proof.
  unfold Qltb. rewrite negb_true_iff. split.
  - intros H. apply Qnot_le_lt. intros Hle.
    apply Qle_bool_iff in Hle. congruence.
  - intros H. destruct (Qle_bool b a) eqn:E; [|reflexivity].
    apply Qle_bool_iff in E. exfalso. exact (Qlt_not_le _ _ H E).
Qed.

Lemma Qltb_ge a b : Qltb a b = false <-> (b <= a)%Q.
Proof. unfold Qltb. rewrite negb_false_iff. apply Qle_bool_iff. Qed.

Lemma list_get_head {A} (a : A) l : list_get (a :: l) 0 = Val a.
Proof.
  unfold list_get. cbn [Z.ltb Z.compare length]. rewrite Nat2Z.inj_succ.
  destruct (Z.ltb_spec 0 (Z.succ (Z.of_nat (length l)))); [reflexivity | lia].
Qed.

Lemma Point_eq_true p q : Point_eq p q = true <-> p = q.
Proof.
  destruct p as [py px], q as [qy qx]. unfold Point_eq; cbn.
  rewrite andb_true_iff, !Z.eqb_eq. split.
  - intros [-> ->]. reflexivity.
  - intros [= -> ->]. split; reflexivity.
Qed.

Lemma Point_eq_false p q : Point_eq p q = false <-> p <> q.
Proof.
  rewrite <- Point_eq_true. destruct (Point_eq p q); split; congruence.
Qed.

Lemma contains_In p cells : contains p cells = true <-> In p cells.
Proof.
  unfold contains. rewrite existsb_exists. split.
  - intros (c & Hc & Heq). apply Point_eq_true in Heq. subst c. exact Hc.
  - intros Hin. exists p. split; [exact Hin | apply Point_eq_true; reflexivity].
Qed.

Lemma contains_not_In p cells : contains p cells = false <-> ~ In p cells.
Proof.
  rewrite <- contains_In. destruct (contains p cells); split; congruence.
Qed.

(** The test of the bounds in [update_game_logic] is the negation of
    [inside]. *)
Lemma bounds_test p e :
  (y p <? 0) || (field_height e <=? y p) || (x p <? 0) || (field_width e <=? x p)
  = false <-> inside p e.
Proof.
  unfold inside. rewrite !orb_false_iff, !Z.ltb_ge, !Z.leb_gt. lia.
Qed.

Lemma bounds_test_out p e :
  ~ inside p e ->
  (y p <? 0) || (field_height e <=? y p) || (x p <? 0) || (field_width e <=? x p)
  = true.
Proof.
  intros Hout. apply not_false_iff_true. intros Hb. apply Hout, bounds_test, Hb.
Qed.

End basic_facts.

(** Symbolic execution of a method: unfold the monad and compute, leaving
    the operations on cells, numbers and the food loop folded. *)
Ltac mstep :=
  unfold mbind, M_bind, mret, M_ret, ask, upd, call, when, lift, raise; cbn.

Ltac run :=
  repeat progress
    (cbn -[Point_add Point_eq contains place_food place_food_loop removelast
           Qltb Qle_bool num_of py_max_int py_sub_int py_div_float truthy
           list_get assoc
           subscript list_index String.eqb Z.modulo Z.div];
     rewrite ?list_get_head).

Ltac enter :=
  cbv delta [mbind M_bind mret M_ret ask upd call when lift raise end_game];
  run.

Section engine_facts.
Implicit Types (w : World) (e : t) (p : Point).

Lemma with_food_id e : with_food (food e) e = e.
Proof. destruct e; reflexivity. Qed.

Lemma fed_0 w : fed w (food (self w)) 0 = w.
Proof.
  destruct w as [e [tp c] dm cs]. unfold fed; cbn.
  rewrite with_food_id, Nat.add_0_r. reflexivity.
Qed.

Lemma randint_from_0 n w :
  0 < n ->
  randint 0 (n - 1) w
  = Ok (tape (random w) (cursor (random w)) mod n)
       (mkWorld (self w) (mkRandom (tape (random w)) (S (cursor (random w))))
          (data_manager w) (calls w)).
Proof.
  intros Hn. unfold randint.
  destruct (Z.ltb_spec (n - 1) 0); [lia|].
  replace (n - 1 - 0 + 1) with n by lia. reflexivity.
Qed.

Lemma randint_cursor a b w :
  (cursor (random w) <= cursor (random (final (randint a b w)))
   <= S (cursor (random w)))%nat
  /\ self (final (randint a b w)) = self w.
Proof. unfold randint. destruct (b <? a); cbn; (split; [lia | reflexivity]). Qed.

(** One attempt of the loop, when both draws succeed. *)
Lemma place_food_loop_step n w :
  0 < field_height (self w) -> 0 < field_width (self w) ->
  place_food_loop (S n) w
  = if contains (candidate w 0) (snake (self w))
    then place_food_loop n
           (mkWorld (self w)
              (mkRandom (tape (random w)) (S (S (cursor (random w)))))
              (data_manager w) (calls w))
    else Ok tt (fed w (candidate w 0) 1).
Proof.
  intros Hh Hw. cbn [place_food_loop]. mstep.
  rewrite randint_from_0 by exact Hh. cbn.
  rewrite randint_from_0 by exact Hw. cbn.
  unfold candidate, fed; cbn. rewrite !Nat.add_0_r.
  destruct (contains _ _); cbn; [reflexivity|].
  do 3 f_equal. lia.
Qed.

Lemma place_food_loop_spec n w :
  0 < field_height (self w) -> 0 < field_width (self w) ->
  exists f k,
    place_food_loop n w = Ok tt (fed w f k) /\
    ((k = n /\ f = food (self w) /\ all_taken w (snake (self w)) n)
     \/ (exists i, k = S i /\ (i < n)%nat /\ f = candidate w i
                   /\ first_free w (snake (self w)) i)).
Proof.
  revert w. induction n as [|n IH]; intros w Hh Hw.
  - exists (food (self w)), 0%nat. split.
    + rewrite fed_0. reflexivity.
    + left. repeat split. intros i Hi. lia.
  - rewrite place_food_loop_step by assumption.
    destruct (contains (candidate w 0) (snake (self w))) eqn:Hc.
    + set (w1 := mkWorld (self w)
               (mkRandom (tape (random w)) (S (S (cursor (random w)))))
               (data_manager w) (calls w)).
      assert (Hcand : forall i, candidate w1 i = candidate w (S i)).
      { intros i. unfold candidate, w1; cbn.
        replace (S (S (cursor (random w) + (i + (i + 0)))))
          with (cursor (random w) + S (i + S (i + 0)))%nat by lia.
        reflexivity. }
      destruct (IH w1 Hh Hw) as (f & k & Hrun & Hcases).
      exists f, (S k). split.
      * rewrite Hrun. unfold fed, w1; cbn. do 3 f_equal. lia.
      * destruct Hcases as [(-> & -> & Hall) | (i & -> & Hi & -> & Hfree & Hall)].
        -- left. repeat split. intros [|i] Hi; [exact Hc|].
           rewrite <- Hcand. apply Hall. lia.
        -- right. exists (S i). repeat split; [lia | apply Hcand | |].
           ++ rewrite <- Hcand. exact Hfree.
           ++ intros [|j] Hj; [exact Hc|]. rewrite <- Hcand. apply Hall. lia.
    + exists (candidate w 0), 1%nat. split; [reflexivity|].
      right. exists 0%nat. repeat split; [lia | exact Hc |].
      intros j Hj. lia.
Qed.

(** Whatever the world, the loop stops after at most [n] attempts: it
    consumes at most [2 * n] numbers of the tape, and touches nothing
    of the engine but the food. *)
Lemma place_food_loop_bounded n w :
  (cursor (random w) <= cursor (random (final (place_food_loop n w)))
   <= cursor (random w) + 2 * n)%nat
  /\ exists f, self (final (place_food_loop n w)) = with_food f (self w).
Proof.
  revert w. induction n as [|n IH]; intros w.
  - cbn. split; [lia|]. exists (food (self w)). symmetry. apply with_food_id.
  - cbn [place_food_loop]. mstep.
    pose proof (randint_cursor 0 (field_height (self w) - 1) w) as [Hc1 Hs1].
    destruct (randint 0 (field_height (self w) - 1) w) as [fy w1|x1 w1]; cbn in *.
    2:{ split; [lia|]. exists (food (self w)). rewrite Hs1. symmetry. apply with_food_id. }
    pose proof (randint_cursor 0 (field_width (self w1) - 1) w1) as [Hc2 Hs2].
    destruct (randint 0 (field_width (self w1) - 1) w1) as [fx w2|x2 w2]; cbn in *.
    2:{ split; [lia|]. exists (food (self w)). rewrite Hs2, Hs1. symmetry. apply with_food_id. }
    destruct (contains _ _); cbn.
    + destruct (IH w2) as [Hc3 [f Hf]]. split; [lia|].
      exists f. rewrite Hf, Hs2, Hs1. reflexivity.
    + split; [lia|]. eexists. rewrite Hs2, Hs1. reflexivity.
Qed.

(** C2, as the code has it. [place_food] stops after at most 100
    attempts, in every world: it consumes at most 200 numbers of the
    generator. On a grid with cells, it returns; when attempt [i] is the
    first to draw a cell off the snake, that cell becomes the food; when
    all 100 attempts draw a cell of the snake, no cell is accepted and
    the food stays where it was. *)
Theorem place_food_bounded w :
  (cursor (random (final (place_food w))) <= cursor (random w) + 2 * 100)%nat
  /\ (0 < field_height (self w) -> 0 < field_width (self w) ->
      all_taken w (snake (self w)) 100 ->
      place_food w = Ok tt (fed w (food (self w)) 100))
  /\ (0 < field_height (self w) -> 0 < field_width (self w) ->
      forall i, (i < 100)%nat -> first_free w (snake (self w)) i ->
      place_food w = Ok tt (fed w (candidate w i) (S i))
      /\ contains (candidate w i) (snake (self w)) = false).
Proof.
  split; [apply place_food_loop_bounded|]. split.
  - intros Hh Hw Hall.
    destruct (place_food_loop_spec 100 w Hh Hw) as (f & k & Hrun & Hcases).
    unfold place_food. rewrite Hrun.
    destruct Hcases as [(-> & -> & _) | (i & -> & Hi & -> & Hfree & _)];
      [reflexivity|].
    rewrite (Hall i Hi) in Hfree. discriminate.
  - intros Hh Hw i Hi [Hfree Hbefore]. split; [|exact Hfree].
    destruct (place_food_loop_spec 100 w Hh Hw) as (f & k & Hrun & Hcases).
    unfold place_food. rewrite Hrun.
    destruct Hcases as [(-> & -> & Hall) | (j & -> & Hj & -> & Hfree' & Hbefore')].
    + rewrite (Hall i Hi) in Hfree. discriminate.
    + destruct (Nat.lt_trichotomy i j) as [Hlt | [-> | Hgt]]; [| reflexivity |].
      * rewrite (Hbefore' i Hlt) in Hfree. discriminate.
      * rewrite (Hbefore j Hgt) in Hfree'. discriminate.
Qed.

Lemma place_food_bounded_witness :
  place_food (small_game (constant_tape 5))
  = Ok tt (fed (small_game (constant_tape 5)) (pt 0 0) 100)
  /\ place_food (small_game (constant_tape 3))
     = Ok tt (fed (small_game (constant_tape 3)) (pt 3 3) 1).
Proof.
  split.
  - apply (proj1 (proj2 (place_food_bounded (small_game (constant_tape 5)))));
      [reflexivity | reflexivity |].
    intros i Hi. reflexivity.
  - apply (proj2 (proj2 (place_food_bounded (small_game (constant_tape 3))))
             eq_refl eq_refl 0%nat); [lia|].
    split; [reflexivity|]. intros i Hi. lia.
Defined.

(** C2 as stated fails: with a generator that keeps drawing the tail
    cell (5,5), all 100 attempts land on the snake and the food is still
    at (0,0), not at the last cell drawn. *)
Lemma place_food_exhausted_counterexample :
  all_taken (small_game (constant_tape 5))
    (snake (self (small_game (constant_tape 5)))) 100
  /\ candidate (small_game (constant_tape 5)) 99 = pt 5 5
  /\ exists w', place_food (small_game (constant_tape 5)) = Ok tt w'
                /\ food (self w') = pt 0 0
                /\ food (self w') <> candidate (small_game (constant_tape 5)) 99.
Proof.
  split; [intros i Hi; reflexivity|]. split; [reflexivity|].
  eexists. split; [vm_compute; reflexivity|].
  split; [reflexivity | vm_compute; discriminate].
Qed.
End engine_facts.

Section tick_facts.
Implicit Types (w : World) (e : t) (p : Point).

Lemma place_food_returns w :
  0 < field_height (self w) -> 0 < field_width (self w) ->
  exists f k,
    place_food w = Ok tt (fed w f k) /\
    ((k = 100%nat /\ f = food (self w) /\ all_taken w (snake (self w)) 100)
     \/ (exists i, k = S i /\ (i < 100)%nat /\ f = candidate w i
                   /\ first_free w (snake (self w)) i)).
Proof. apply place_food_loop_spec. Qed.

Lemma removelast_cons_length {A} (a : A) l :
  length (removelast (a :: l)) = length l.
Proof.
  revert a. induction l as [|b l IH]; intros a; [reflexivity|].
  change (removelast (a :: b :: l)) with (a :: removelast (b :: l)).
  cbn [length]. rewrite IH. reflexivity.
Qed.

Lemma removelast_In {A} (a : A) l : In a (removelast l) -> In a l.
Proof.
  induction l as [|b l IH]; [intros []|].
  destruct l as [|c l]; [intros []|].
  change (removelast (b :: c :: l)) with (b :: removelast (c :: l)).
  intros [->|H]; [left; reflexivity | right; apply IH, H].
Qed.

Lemma removelast_NoDup {A} (l : list A) : NoDup l -> NoDup (removelast l).
Proof.
  induction 1 as [|a l Ha Hl IH]; [constructor|].
  destruct l as [|c l]; [constructor|].
  change (removelast (a :: c :: l)) with (a :: removelast (c :: l)).
  constructor; [|exact IH].
  intros Hin. apply Ha. apply list_elem_of_In, removelast_In, list_elem_of_In, Hin.
Qed.

(** A tick that is not due, or a game that does not run, changes
    nothing. *)
Lemma tick_skipped now w :
  game_over (self w) = true \/ paused (self w) = true \/ early now (self w) ->
  update_game_logic now w = Ok tt w.
Proof.
  destruct w as [e r dm cs]. destruct e. cbn.
  intros [H | [H | (ms & Hms & Hlt)]]; cbn in *; subst;
    unfold update_game_logic; enter.
  - reflexivity.
  - rewrite orb_true_r. reflexivity.
  - destruct game_over0, paused0; run; try reflexivity.
    rewrite Hms; run. rewrite Hlt. reflexivity.
Qed.

(** A due tick whose new head leaves the grid or meets the body. *)
Lemma tick_collision now w head rest :
  running (self w) -> due now (self w) ->
  snake (self w) = head :: rest ->
  ~ inside (Point_add head (next_direction (self w))) (self w)
  \/ In (Point_add head (next_direction (self w))) (snake (self w)) ->
  exists w', update_game_logic now w = Ok tt w'
    /\ game_over (self w') = true
    /\ snake (self w') = snake (self w)
    /\ state (self w') = NAME_INPUT
    /\ score (self w') = score (self w)
    /\ food (self w') = food (self w)
    /\ direction (self w') = next_direction (self w).
Proof.
  destruct w as [e r dm cs]. destruct e. cbn.
  intros [Hg Hp] (ms & Hms & Hdue) Hs Hhit. cbn in *. subst.
  unfold update_game_logic. enter. rewrite Hms. run.
  rewrite Hdue. run.
  destruct current_session0 as [session|]; run;
    [destruct (_ && _ && PrimFloat.leb _ _); run|].
  all: destruct Hhit as [Hout | Hin];
    [ apply bounds_test_out in Hout; cbn in Hout; rewrite Hout
    | apply contains_In in Hin; rewrite Hin;
      match goal with |- context [if ?b then _ else _] => destruct b end ];
    run; destruct on_game_over0; run; eexists; (split; [reflexivity|]);
    run; repeat split; reflexivity.
Qed.

(** A due tick on a game without a snake: [self.snake[0]] raises, after
    the queued direction has been applied. *)
Lemma tick_no_snake now w :
  running (self w) -> due now (self w) -> snake (self w) = [] ->
  exists w', update_game_logic now w = Raise IndexError w'
    /\ direction (self w') = next_direction (self w)
    /\ snake (self w') = [].
Proof.
  destruct w as [e r dm cs]. destruct e. cbn.
  intros [Hg Hp] (ms & Hms & Hdue) Hs. cbn in *. subst.
  unfold update_game_logic. enter. rewrite Hms. run.
  rewrite Hdue. run.
  destruct current_session0 as [session|]; run;
    [destruct (_ && _ && PrimFloat.leb _ _); run|].
  all: eexists; (split; [reflexivity|]); split; reflexivity.
Qed.

(** A due tick that moves the snake to a free cell without food. *)
Lemma tick_move now w head rest :
  running (self w) -> due now (self w) ->
  snake (self w) = head :: rest ->
  inside (Point_add head (next_direction (self w))) (self w) ->
  ~ In (Point_add head (next_direction (self w))) (snake (self w)) ->
  Point_add head (next_direction (self w)) <> food (self w) ->
  exists w', update_game_logic now w = Ok tt w'
    /\ game_over (self w') = false
    /\ snake (self w')
       = Point_add head (next_direction (self w)) :: removelast (snake (self w))
    /\ score (self w') = score (self w)
    /\ food (self w') = food (self w)
    /\ direction (self w') = next_direction (self w).
Proof.
  destruct w as [e r dm cs]. destruct e. cbn.
  intros [Hg Hp] (ms & Hms & Hdue) Hs Hin Hfree Hfood. cbn in *. subst.
  unfold update_game_logic. enter. rewrite Hms. run.
  rewrite Hdue. run.
  apply bounds_test in Hin. cbn in Hin.
  apply contains_not_In in Hfree. apply Point_eq_false in Hfood.
  destruct current_session0 as [session|]; run;
    [destruct (_ && _ && PrimFloat.leb _ _); run|].
  all: rewrite Hin; run; rewrite Hfree; run; rewrite Hfood; run;
    eexists; (split; [reflexivity|]); run; repeat split; reflexivity.
Qed.

(** A due tick that moves the snake onto the food. The food is placed
    anew against the grown snake, with the cells the generator gives from
    where it stood before the tick. *)
Lemma tick_eat now w head rest :
  running (self w) -> due now (self w) ->
  snake (self w) = head :: rest ->
  inside (Point_add head (next_direction (self w))) (self w) ->
  ~ In (Point_add head (next_direction (self w))) (snake (self w)) ->
  Point_add head (next_direction (self w)) = food (self w) ->
  exists w' k,
    update_game_logic now w = Ok tt w'
    /\ game_over (self w') = false
    /\ snake (self w') = food (self w) :: snake (self w)
    /\ score (self w') = score (self w) + 10
    /\ foods_eaten (self w') = foods_eaten (self w) + 1
    /\ direction (self w') = next_direction (self w)
    /\ random w' = mkRandom (tape (random w)) (cursor (random w) + 2 * k)
    /\ ((k = 100%nat /\ food (self w') = food (self w)
         /\ all_taken w (snake (self w')) 100)
        \/ (exists i, k = S i /\ (i < 100)%nat
                      /\ food (self w') = candidate w i
                      /\ first_free w (snake (self w')) i)).
Proof.
  destruct w as [e r dm cs]. destruct e. cbn.
  intros [Hg Hp] (ms & Hms & Hdue) Hs Hin Hfree Hfood. cbn in *. subst.
  unfold update_game_logic. enter. rewrite Hms. run.
  rewrite Hdue. run.
  pose proof Hin as [[_ Hh] [_ Hw]]. cbn in Hh, Hw.
  apply bounds_test in Hin. cbn in Hin.
  apply contains_not_In in Hfree.
  destruct current_session0 as [session|]; run;
    [destruct (_ && _ && PrimFloat.leb _ _); run|].
  all: rewrite Hin; run; rewrite Hfree; run;
    rewrite (proj2 (Point_eq_true _ _) eq_refl); run;
    match goal with
    | |- context [place_food ?W] =>
        destruct (place_food_returns W) as (f & k & Hrun & Hcases);
          [cbn; lia | cbn; lia | rewrite Hrun; unfold fed in *; cbn in Hcases]
    end;
    run;
    destruct (truthy (GameSettings.auto_speed_increase settings0)); run;
    destruct on_food_eaten0; run; destruct on_score_changed0; run;
    eexists; exists k; (split; [reflexivity|]); run;
    (repeat (split; [reflexivity|])); exact Hcases.
Qed.
End tick_facts.

Section game_facts.
Implicit Types (w : World) (e : t) (p : Point).

Lemma preset_has_cells size fs :
  assoc size FIELD_SIZES = Some fs -> 0 < fs_width fs /\ 0 < fs_height fs.
Proof.
  unfold FIELD_SIZES. cbn [assoc].
  repeat (destruct (String.eqb size _);
          [intros [= <-]; cbn; lia|]).
  discriminate.
Qed.

Lemma calculate_field_dimensions_ok w size fs :
  GameSettings.field_size (settings (self w)) = VStr size ->
  assoc size FIELD_SIZES = Some fs ->
  calculate_field_dimensions w
  = Ok tt (mkWorld
             (with_field_height (fs_height fs)
                (with_field_width (fs_width fs) (self w)))
             (random w) (data_manager w) (calls w)).
Proof.
  intros Hsize Hassoc. unfold calculate_field_dimensions.
  cbv beta iota delta [mbind M_bind ask]. rewrite Hsize.
  cbn [subscript]. rewrite Hassoc. reflexivity.
Qed.

(** [reset_game] on a preset that exists. *)
Lemma reset_game_spawn now w size fs :
  GameSettings.field_size (settings (self w)) = VStr size ->
  assoc size FIELD_SIZES = Some fs ->
  exists w', reset_game now w = Ok tt w'
    /\ field_width (self w') = fs_width fs
    /\ field_height (self w') = fs_height fs
    /\ snake (self w')
       = [ mkPoint (fs_height fs / 2) (fs_width fs / 2);
           mkPoint (fs_height fs / 2) (fs_width fs / 2 - 1);
           mkPoint (fs_height fs / 2) (fs_width fs / 2 - 2) ]
    /\ direction (self w') = RIGHT
    /\ next_direction (self w') = RIGHT
    /\ score (self w') = 0
    /\ foods_eaten (self w') = 0
    /\ game_over (self w') = false
    /\ paused (self w') = false
    /\ current_speed (self w') = GameSettings.initial_speed (settings (self w))
    /\ last_update_time (self w') = last_update_time (self w).
Proof.
  intros Hsize Hassoc. destruct (preset_has_cells _ _ Hassoc) as [Hw Hh].
  unfold reset_game. unfold mbind at 1. unfold M_bind at 1.
  rewrite (calculate_field_dimensions_ok w size fs Hsize Hassoc).
  destruct w as [e r dm cs]. destruct e. enter.
  match goal with
  | |- context [place_food ?W] =>
      destruct (place_food_returns W) as (f & k & Hrun & _);
        [cbn; lia | cbn; lia | rewrite Hrun; unfold fed]
  end.
  run. eexists. split; [reflexivity|]. run. repeat split; reflexivity.
Qed.

Lemma inside_dec p e : {inside p e} + {~ inside p e}.
Proof.
  unfold inside.
  destruct (Z_le_dec 0 (y p)), (Z_lt_dec (y p) (field_height e)),
    (Z_le_dec 0 (x p)), (Z_lt_dec (x p) (field_width e));
    solve [left; lia | right; lia].
Qed.

(** A running game whose interval cannot be computed: [TypeError] when
    [current_speed] is no number, [OverflowError] when it is an [int] too
    large for a float. *)
Lemma tick_type_error now w x :
  running (self w) -> py_div_float (current_speed (self w)) 1000 = Exc x ->
  update_game_logic now w = Raise x w.
Proof.
  destruct w as [e r dm cs]. destruct e. cbn.
  intros [Hg Hp] Hms. cbn in *. subst.
  unfold update_game_logic. enter. rewrite Hms. reflexivity.
Qed.

(** The three ways a call of [update_game_logic] can go. *)
Lemma tick_status now w :
  update_game_logic now w = Ok tt w
  \/ (exists x, update_game_logic now w = Raise x w)
  \/ (running (self w) /\ due now (self w)).
Proof.
  destruct (game_over (self w)) eqn:Hg;
    [left; apply tick_skipped; left; exact Hg|].
  destruct (paused (self w)) eqn:Hp;
    [left; apply tick_skipped; right; left; exact Hp|].
  destruct (py_div_float (current_speed (self w)) 1000) as [interval|x] eqn:Hms.
  - destruct (PrimFloat.ltb (PrimFloat.sub now (last_update_time (self w))) interval)
      eqn:Htest.
    + left. apply tick_skipped. right; right. exists interval. split; assumption.
    + right; right. split; [split; assumption|]. exists interval. split; assumption.
  - right; left. exists x. apply tick_type_error; [split; assumption | exact Hms].
Qed.

(** The outcomes of a due tick, by what the new head meets. *)
Lemma tick_outcomes now w :
  running (self w) -> due now (self w) ->
  let w' := final (update_game_logic now w) in
  direction (self w') = next_direction (self w)
  /\ (snake (self w') = snake (self w)
      \/ exists head rest,
           snake (self w) = head :: rest
           /\ ~ In (Point_add head (next_direction (self w))) (snake (self w))
           /\ (snake (self w')
               = Point_add head (next_direction (self w)) :: snake (self w)
               \/ snake (self w')
                  = Point_add head (next_direction (self w))
                    :: removelast (snake (self w)))).
Proof.
  intros Hrun Hdue.
  destruct (snake (self w)) as [|head rest] eqn:Hs.
  - destruct (tick_no_snake now w Hrun Hdue Hs) as (w1 & -> & Hd & Hs1).
    cbn [final]. split; [exact Hd | left; exact Hs1].
  - set (nh := Point_add head (next_direction (self w))).
    destruct (inside_dec nh (self w)) as [Hin|Hout].
    2:{ destruct (tick_collision now w head rest Hrun Hdue Hs (or_introl Hout))
          as (w1 & -> & _ & Hs1 & _ & _ & _ & Hd).
        cbn [final]. split; [exact Hd | left; congruence]. }
    destruct (contains nh (snake (self w))) eqn:Hc.
    { apply contains_In in Hc.
      destruct (tick_collision now w head rest Hrun Hdue Hs (or_intror Hc))
        as (w1 & -> & _ & Hs1 & _ & _ & _ & Hd).
      cbn [final]. split; [exact Hd | left; congruence]. }
    apply contains_not_In in Hc.
    destruct (Point_eq nh (food (self w))) eqn:Hf.
    + apply Point_eq_true in Hf.
      destruct (tick_eat now w head rest Hrun Hdue Hs Hin Hc Hf)
        as (w1 & k & -> & _ & Hs1 & _ & _ & Hd & _).
      cbn [final]. split; [exact Hd|]. right. exists head, rest.
      split; [reflexivity|]. split; [rewrite <- Hs; exact Hc|].
      left. rewrite Hs1, Hs. unfold nh in Hf. rewrite Hf. reflexivity.
    + apply Point_eq_false in Hf.
      destruct (tick_move now w head rest Hrun Hdue Hs Hin Hc Hf)
        as (w1 & -> & _ & Hs1 & _ & _ & Hd).
      cbn [final]. split; [exact Hd|]. right. exists head, rest.
      split; [reflexivity|]. split; [rewrite <- Hs; exact Hc|].
      right. rewrite Hs1, Hs. reflexivity.
Qed.
End game_facts.

(** Discharges [running] and [due] on a concrete world. *)
Ltac ready :=
  lazymatch goal with
  | |- running _ => split; reflexivity
  | |- due _ _ =>
      exists (PrimFloat.div 150 1000);
      split; [vm_compute; reflexivity | vm_compute; reflexivity]
  | |- early _ _ =>
      exists (PrimFloat.div 150 1000);
      split; [vm_compute; reflexivity | vm_compute; reflexivity]
  end.

Section claims.
Implicit Types (w : World) (e : t) (p : Point).



(** The test is the floats'. At speed 150 the interval is the float
    [150 / 1000.0]; the float nearest to 0.15 is not less than it, so a
    call 0.15 after the last tick is not early, and it moves the snake. *)
Example tick_at_the_interval :
  due (to_float (15 # 100)) (self (small_game (constant_tape 3)))
  /\ ~ early (to_float (15 # 100)) (self (small_game (constant_tape 3)))
  /\ snake (self (small_game (constant_tape 3))) = [pt 5 7; pt 5 6; pt 5 5]
  /\ snake (self (final (update_game_logic (to_float (15 # 100))
                           (small_game (constant_tape 3)))))
     = [pt 5 8; pt 5 7; pt 5 6].
Proof.
  split; [ready|]. split.
  - intros (interval & Hinterval & Hless).
    vm_compute in Hinterval. injection Hinterval as <-.
    vm_compute in Hless. discriminate Hless.
  - split; vm_compute; reflexivity.
Qed.

(** An integer speed too large for a float: the interval cannot be
    computed, and the call raises [OverflowError] with nothing changed. *)
Example tick_overflows_on_huge_speed :
  update_game_logic 1 (final (reset_game 0 (final (new huge_speed_file (constant_tape 3)))))
  = Raise OverflowError
      (final (reset_game 0 (final (new huge_speed_file (constant_tape 3))))).
Proof.
  apply tick_type_error; [split; reflexivity | vm_compute; reflexivity].
Qed.

(** C1. In a game that is neither paused nor over, on a tick that is
    due, if the head moved by the direction this tick applies lies
    outside the grid, [update_game_logic] returns with [game_over] set and
    the snake exactly as it was; the state becomes the name input. This
    is for every direction and every edge. *)
Theorem boundary_collision_ends_game now w head rest :
  running (self w) -> due now (self w) ->
  snake (self w) = head :: rest ->
  ~ inside (Point_add head (next_direction (self w))) (self w) ->
  exists w', update_game_logic now w = Ok tt w'
    /\ game_over (self w') = true
    /\ snake (self w') = snake (self w)
    /\ state (self w') = NAME_INPUT.
Proof.
  intros Hrun Hdue Hs Hout.
  destruct (tick_collision now w head rest Hrun Hdue Hs (or_introl Hout))
    as (w' & Hstep & Hg & Hsnake & Hstate & _).
  exists w'. repeat split; assumption.
Qed.

Lemma boundary_collision_ends_game_witness :
  (exists w', update_game_logic 1 (position [pt 5 14; pt 5 13; pt 5 12] RIGHT (pt 0 0))
              = Ok tt w'
              /\ game_over (self w') = true
              /\ snake (self w') = [pt 5 14; pt 5 13; pt 5 12]
              /\ state (self w') = NAME_INPUT)
  /\ (exists w', update_game_logic 1 (position [pt 5 0; pt 5 1; pt 5 2] LEFT (pt 0 0))
                 = Ok tt w'
                 /\ game_over (self w') = true
                 /\ snake (self w') = [pt 5 0; pt 5 1; pt 5 2]
                 /\ state (self w') = NAME_INPUT)
  /\ (exists w', update_game_logic 1 (position [pt 0 3; pt 1 3; pt 2 3] UP (pt 0 0))
                 = Ok tt w'
                 /\ game_over (self w') = true
                 /\ snake (self w') = [pt 0 3; pt 1 3; pt 2 3]
                 /\ state (self w') = NAME_INPUT)
  /\ (exists w', update_game_logic 1 (position [pt 9 3; pt 8 3; pt 7 3] DOWN (pt 0 0))
                 = Ok tt w'
                 /\ game_over (self w') = true
                 /\ snake (self w') = [pt 9 3; pt 8 3; pt 7 3]
                 /\ state (self w') = NAME_INPUT).
Proof.
  repeat split;
    (eapply boundary_collision_ends_game;
     [ready | ready | reflexivity | unfold inside; vm_compute; intuition congruence]).
Defined.

(** C3, as the code has it. In a game that is neither paused nor over,
    on a tick that is due, when the new head is a cell of the grid that
    the snake does not occupy: if it is the food cell, the snake grows by
    exactly one cell and the score by exactly 10; if it is not, the
    length and the score stay as they were. *)
Theorem growth_law now w head rest :
  running (self w) -> due now (self w) ->
  snake (self w) = head :: rest ->
  inside (Point_add head (next_direction (self w))) (self w) ->
  ~ In (Point_add head (next_direction (self w))) (snake (self w)) ->
  exists w', update_game_logic now w = Ok tt w'
    /\ game_over (self w') = false
    /\ (Point_add head (next_direction (self w)) = food (self w) ->
        length (snake (self w')) = S (length (snake (self w)))
        /\ score (self w') = score (self w) + 10
        /\ snake (self w') = food (self w) :: snake (self w))
    /\ (Point_add head (next_direction (self w)) <> food (self w) ->
        length (snake (self w')) = length (snake (self w))
        /\ score (self w') = score (self w)
        /\ snake (self w')
           = Point_add head (next_direction (self w))
             :: removelast (snake (self w))).
Proof.
  intros Hrun Hdue Hs Hin Hfree.
  destruct (Point_eq (Point_add head (next_direction (self w))) (food (self w)))
    eqn:Hf.
  - apply Point_eq_true in Hf.
    destruct (tick_eat now w head rest Hrun Hdue Hs Hin Hfree Hf)
      as (w' & k & Hstep & Hg & Hsnake & Hscore & _).
    exists w'. split; [exact Hstep|]. split; [exact Hg|]. split.
    + intros _. rewrite Hsnake. repeat split; [exact Hscore].
    + intros Hne. contradiction.
  - apply Point_eq_false in Hf.
    destruct (tick_move now w head rest Hrun Hdue Hs Hin Hfree Hf)
      as (w' & Hstep & Hg & Hsnake & Hscore & _).
    exists w'. split; [exact Hstep|]. split; [exact Hg|]. split.
    + intros Heq. contradiction.
    + intros _. rewrite Hsnake, Hs. cbn [length].
      rewrite removelast_cons_length. repeat split; exact Hscore.
Qed.

Lemma growth_law_witness :
  (exists w', update_game_logic 1 (position [pt 5 7; pt 5 6; pt 5 5] RIGHT (pt 5 8))
              = Ok tt w'
              /\ length (snake (self w')) = 4%nat /\ score (self w') = 10)
  /\ (exists w', update_game_logic 1 (position [pt 5 7; pt 5 6; pt 5 5] RIGHT (pt 2 2))
                 = Ok tt w'
                 /\ length (snake (self w')) = 3%nat /\ score (self w') = 0).
Proof.
  split.
  - destruct (growth_law 1 (position [pt 5 7; pt 5 6; pt 5 5] RIGHT (pt 5 8))
                (pt 5 7) [pt 5 6; pt 5 5])
      as (w' & Hstep & _ & Heat & _);
      [ready | ready | reflexivity | unfold inside; vm_compute; intuition congruence
      | vm_compute; intuition congruence |].
    exists w'. split; [exact Hstep|].
    destruct Heat as (Hlen & Hscore & _); [reflexivity|].
    split; [exact Hlen | exact Hscore].
  - destruct (growth_law 1 (position [pt 5 7; pt 5 6; pt 5 5] RIGHT (pt 2 2))
                (pt 5 7) [pt 5 6; pt 5 5])
      as (w' & Hstep & _ & _ & Hmove);
      [ready | ready | reflexivity | unfold inside; vm_compute; intuition congruence
      | vm_compute; intuition congruence |].
    exists w'. split; [exact Hstep|].
    destruct Hmove as (Hlen & Hscore & _); [vm_compute; congruence|].
    split; [exact Hlen | exact Hscore].
Defined.

(** C3 as stated fails: the new head can be the food cell and yet the
    snake does not grow, because that cell is part of the body and the
    tick ends the game. *)
Lemma growth_law_counterexample :
  running (self coiled) /\ due 5 (self coiled)
  /\ snake (self coiled) = [pt 5 9; pt 4 9; pt 4 8; pt 5 8]
  /\ Point_add (pt 5 9) (next_direction (self coiled)) = food (self coiled)
  /\ exists w', update_game_logic 5 coiled = Ok tt w'
       /\ length (snake (self w')) = length (snake (self coiled))
       /\ score (self w') = score (self coiled)
       /\ game_over (self w') = true.
Proof.
  split; [split; vm_compute; reflexivity|].
  split; [exists (PrimFloat.div 147 1000); split; vm_compute; reflexivity|].
  split; [vm_compute; reflexivity|]. split; [vm_compute; reflexivity|].
  eexists. split; [vm_compute; reflexivity|].
  repeat split; vm_compute; reflexivity.
Qed.
End claims.

Section input_claims.
Implicit Types (w : World) (e : t) (p : Point).

Lemma opposite_eqb d d' :
  Direction_eqb d d' = true <-> d = d'.
Proof. destruct d, d'; cbn; split; congruence. Qed.

Lemma direction_rejected d w :
  paused (self w) = true \/ game_over (self w) = true
  \/ d = opposite (direction (self w)) ->
  handle_direction_input d w = Ok false w.
Proof.
  destruct w as [e r dm cs]. destruct e. cbn.
  intros [H | [H | H]]; subst; unfold handle_direction_input; enter.
  - reflexivity.
  - rewrite orb_true_r. reflexivity.
  - destruct (paused0 || game_over0); run; [reflexivity|].
    rewrite (proj2 (opposite_eqb _ _) eq_refl). reflexivity.
Qed.

Lemma direction_accepted d w :
  running (self w) -> d <> opposite (direction (self w)) ->
  handle_direction_input d w
  = Ok true (mkWorld (with_next_direction d (self w)) (random w)
               (data_manager w) (calls w)).
Proof.
  destruct w as [e r dm cs]. destruct e. cbn.
  intros [Hg Hp] Hd. cbn in *. subst.
  unfold handle_direction_input. enter.
  destruct (Direction_eqb d (opposite direction0)) eqn:E; run; [|reflexivity].
  apply opposite_eqb in E. contradiction.
Qed.

(** C4. [handle_direction_input d] returns [False] and changes nothing
    when the game is paused or over, or when [d] is the opposite of
    [direction], the direction last applied, whatever is queued in
    [next_direction]; otherwise it stores [d] in [next_direction] and
    returns [True]. Hence the next due tick applies an accepted [d]; and a
    rejected opposite leaves that tick as it would have been without the
    call, so that with nothing else queued the direction stays what it
    was. *)
Theorem direction_input d w now :
  (paused (self w) = true \/ game_over (self w) = true
   \/ d = opposite (direction (self w)) ->
   handle_direction_input d w = Ok false w)
  /\ (running (self w) -> d <> opposite (direction (self w)) ->
      handle_direction_input d w
      = Ok true (mkWorld (with_next_direction d (self w)) (random w)
                   (data_manager w) (calls w)))
  /\ (running (self w) -> d <> opposite (direction (self w)) ->
      due now (self w) ->
      direction
        (self (final (update_game_logic now (final (handle_direction_input d w)))))
      = d)
  /\ (d = opposite (direction (self w)) ->
      update_game_logic now (final (handle_direction_input d w))
      = update_game_logic now w)
  /\ (d = opposite (direction (self w)) ->
      running (self w) -> due now (self w) ->
      next_direction (self w) = direction (self w) ->
      direction
        (self (final (update_game_logic now (final (handle_direction_input d w)))))
      = direction (self w)).
Proof.
  split; [apply direction_rejected|].
  split; [apply direction_accepted|].
  split; [|split].
  - intros Hrun Hd Hdue. rewrite (direction_accepted d w Hrun Hd). cbn [final].
    destruct w as [e r dm cs]. destruct e.
    apply (tick_outcomes now); [exact Hrun | exact Hdue].
  - intros Hd. rewrite direction_rejected by (right; right; exact Hd).
    reflexivity.
  - intros Hd Hrun Hdue Hnext.
    rewrite direction_rejected by (right; right; exact Hd). cbn [final].
    rewrite <- Hnext. apply (tick_outcomes now); assumption.
Qed.

Lemma direction_input_witness :
  handle_direction_input LEFT (small_game (constant_tape 3))
  = Ok false (small_game (constant_tape 3))
  /\ direction
       (self (final (update_game_logic 1
                       (final (handle_direction_input UP
                                 (small_game (constant_tape 3)))))))
     = UP
  /\ direction
       (self (final (update_game_logic 1
                       (final (handle_direction_input LEFT
                                 (small_game (constant_tape 3)))))))
     = RIGHT.
Proof.
  pose proof (direction_input LEFT (small_game (constant_tape 3)) 1)
    as (Hrej & _ & _ & _ & Hkeep).
  pose proof (direction_input UP (small_game (constant_tape 3)) 1)
    as (_ & _ & Hnext & _).
  split; [apply Hrej; right; right; reflexivity|].
  split.
  - apply Hnext; [ready | vm_compute; discriminate | ready].
  - apply Hkeep; [reflexivity | ready | ready | reflexivity].
Defined.

(** C5. The cells of the snake are pairwise distinct after [reset_game],
    which returns on every field preset, and stay so through
    [update_game_logic], however the call ends. The collision test looks
    at the body before the move: a new head on any of its cells, the tail
    included, ends the game and moves nothing. *)
Theorem snake_cells_distinct now w :
  (forall size,
      GameSettings.field_size (settings (self w)) = VStr size ->
      is_Some (assoc size FIELD_SIZES) ->
      exists w', reset_game now w = Ok tt w' /\ NoDup (snake (self w')))
  /\ (NoDup (snake (self w)) ->
      NoDup (snake (self (final (update_game_logic now w)))))
  /\ (forall head rest,
        running (self w) -> due now (self w) ->
        snake (self w) = head :: rest ->
        In (Point_add head (next_direction (self w))) (snake (self w)) ->
        exists w', update_game_logic now w = Ok tt w'
          /\ game_over (self w') = true
          /\ snake (self w') = snake (self w)).
Proof.
  split; [|split].
  - intros size Hsize [fs Hfs].
    destruct (reset_game_spawn now w size fs Hsize Hfs)
      as (w' & Hstep & _ & _ & Hsnake & _).
    exists w'. split; [exact Hstep|]. rewrite Hsnake.
    apply NoDup_ListNoDup. repeat constructor; cbn; intros H;
      repeat (destruct H as [H|H]; [injection H; lia|]); exact H.
  - intros Hnd.
    destruct (tick_status now w) as [-> | [[x ->] | [Hrun Hdue]]];
      [exact Hnd | exact Hnd |].
    destruct (tick_outcomes now w Hrun Hdue)
      as (_ & [-> | (head & rest & Hs & Hfree & [-> | ->])]);
      [exact Hnd | |].
    + apply NoDup_cons. split; [|exact Hnd].
      intros Hin. apply Hfree, list_elem_of_In, Hin.
    + apply NoDup_cons. split; [|apply removelast_NoDup, Hnd].
      intros Hin. apply Hfree, removelast_In, list_elem_of_In, Hin.
  - intros head rest Hrun Hdue Hs Hin.
    destruct (tick_collision now w head rest Hrun Hdue Hs (or_intror Hin))
      as (w' & Hstep & Hg & Hsnake & _).
    exists w'. repeat split; assumption.
Qed.

Lemma snake_cells_distinct_witness :
  (exists w', reset_game 0 (small_world (constant_tape 3)) = Ok tt w'
              /\ NoDup (snake (self w')))
  /\ NoDup (snake (self (final (update_game_logic 1
                                  (small_game (constant_tape 3))))))
  /\ (exists w', update_game_logic 5 coiled = Ok tt w'
                 /\ game_over (self w') = true
                 /\ snake (self w') = snake (self coiled)).
Proof.
  pose proof (snake_cells_distinct 0 (small_world (constant_tape 3)))
    as (Hreset & _ & _).
  pose proof (snake_cells_distinct 1 (small_game (constant_tape 3)))
    as (_ & Hstep & _).
  pose proof (snake_cells_distinct 5 coiled) as (_ & _ & Hhit).
  split; [apply (Hreset "Small"); [reflexivity | eexists; reflexivity]|].
  split.
  - apply Hstep.
    assert (E : snake (self (small_game (constant_tape 3)))
                = [pt 5 7; pt 5 6; pt 5 5]) by (vm_compute; reflexivity).
    rewrite E. apply NoDup_ListNoDup.
    repeat (constructor; [cbv; intuition congruence|]). constructor.
  - apply (Hhit (pt 5 9) [pt 4 9; pt 4 8; pt 5 8]);
      [ split; vm_compute; reflexivity
      | exists (PrimFloat.div 147 1000); split; vm_compute; reflexivity
      | vm_compute; reflexivity |].
    assert (E : Point_add (pt 5 9) (next_direction (self coiled)) = pt 5 8)
      by (vm_compute; reflexivity).
    assert (E' : snake (self coiled) = [pt 5 9; pt 4 9; pt 4 8; pt 5 8])
      by (vm_compute; reflexivity).
    rewrite E, E'. cbv. intuition congruence.
Defined.
End input_claims.

Section scenario_claims.
Implicit Types (w : World) (e : t) (p : Point).

Lemma candidate_inside w i :
  0 < field_height (self w) -> 0 < field_width (self w) ->
  inside (candidate w i) (self w).
Proof.
  intros Hh Hw. unfold inside, candidate; cbn [y x].
  split; apply Z.mod_pos_bound; assumption.
Qed.

(** C9, as the code has it. With the 15 x 10 field selected, [reset_game]
    returns with the snake on (5,7), (5,6), (5,5), head first, facing
    right. With the food then put at (5,8), one due tick moves the head
    to (5,8), eats the food, makes the score 10 and the length 4, and
    puts the food on the first of up to 100 drawn cells that is off the
    snake, a cell of the grid; when all 100 drawn cells are on the snake,
    the food stays at (5,8), under the head. *)
Theorem small_field_scenario now0 now w :
  GameSettings.field_size (settings (self w)) = VStr "Small" ->
  exists w1, reset_game now0 w = Ok tt w1
    /\ field_width (self w1) = 15 /\ field_height (self w1) = 10
    /\ snake (self w1) = [pt 5 7; pt 5 6; pt 5 5]
    /\ direction (self w1) = RIGHT
    /\ (due now (self (force_food (pt 5 8) w1)) ->
        exists w3,
          update_game_logic now (force_food (pt 5 8) w1) = Ok tt w3
          /\ snake (self w3) = [pt 5 8; pt 5 7; pt 5 6; pt 5 5]
          /\ score (self w3) = 10
          /\ length (snake (self w3)) = 4%nat
          /\ foods_eaten (self w3) = 1
          /\ ((exists i, (i < 100)%nat
                         /\ first_free (force_food (pt 5 8) w1) (snake (self w3)) i
                         /\ food (self w3) = candidate (force_food (pt 5 8) w1) i
                         /\ contains (food (self w3)) (snake (self w3)) = false
                         /\ inside (food (self w3)) (self (force_food (pt 5 8) w1)))
              \/ (all_taken (force_food (pt 5 8) w1) (snake (self w3)) 100
                  /\ food (self w3) = pt 5 8))).
Proof.
  intros Hsize.
  destruct (reset_game_spawn now0 w "Small"
              (mkFieldSize "Small" 15 10 "Маленькое поле - быстрые игры")
              Hsize eq_refl)
    as (w1 & Hreset & Hw & Hh & Hsnake & Hd & Hnext & Hscore & Heaten
        & Hg & Hp & _).
  cbn in Hw, Hh, Hsnake.
  exists w1. split; [exact Hreset|]. split; [exact Hw|]. split; [exact Hh|].
  split; [exact Hsnake|]. split; [exact Hd|].
  intros Hdue.
  destruct w1 as [e1 r1 dm1 cs1]. destruct e1. cbn in * |-. subst.
  destruct (tick_eat now
              (force_food (pt 5 8)
                 (mkWorld
                    (mk state0 settings0 menu_index0 settings_index0 15 10
                       [pt 5 7; pt 5 6; pt 5 5] food0 RIGHT RIGHT 0 false
                       false player_name0 max_name_length0 current_session0
                       current_speed0 last_update_time0 last_speed_increase0
                       0 on_food_eaten0 on_game_over0 on_score_changed0)
                    r1 dm1 cs1))
              (pt 5 7) [pt 5 6; pt 5 5])
    as (w3 & k & Hstep & _ & Hs3 & Hsc3 & He3 & _ & _ & Hfood);
    [split; reflexivity | exact Hdue | reflexivity
    | unfold inside; cbn; lia
    | cbv; intuition congruence
    | reflexivity |].
  exists w3. split; [exact Hstep|].
  cbn in Hs3, Hsc3, He3.
  split; [exact Hs3|]. split; [exact Hsc3|].
  split; [rewrite Hs3; reflexivity|]. split; [exact He3|].
  destruct Hfood as [(_ & Hsame & Hall) | (i & _ & Hi & Hcand & Hfree)].
  - right. split; [exact Hall | exact Hsame].
  - left. exists i. split; [exact Hi|]. split; [exact Hfree|].
    split; [exact Hcand|]. split.
    + rewrite Hcand. apply Hfree.
    + rewrite Hcand. apply candidate_inside; cbn; lia.
Qed.

Lemma small_field_scenario_witness :
  exists w1, reset_game 0 (small_world (constant_tape 3)) = Ok tt w1
    /\ snake (self w1) = [pt 5 7; pt 5 6; pt 5 5]
    /\ exists w3,
         update_game_logic 1 (force_food (pt 5 8) w1) = Ok tt w3
         /\ snake (self w3) = [pt 5 8; pt 5 7; pt 5 6; pt 5 5]
         /\ score (self w3) = 10.
Proof.
  destruct (small_field_scenario 0 1 (small_world (constant_tape 3)))
    as (w1 & Hreset & _ & _ & Hsnake & _ & Htick); [reflexivity|].
  exists w1. split; [exact Hreset|]. split; [exact Hsnake|].
  assert (E : w1 = small_game (constant_tape 3))
    by (unfold small_game; rewrite Hreset; reflexivity).
  rewrite E in Htick |- *.
  destruct Htick as (w3 & Hstep & Hs3 & Hsc3 & _); [ready|].
  exists w3. split; [exact Hstep|]. split; [exact Hs3 | exact Hsc3].
Defined.

(** C9 as stated fails: with a generator that keeps drawing the cell
    (5,5), no drawn cell is off the snake and the food is still at (5,8),
    which the head now occupies. *)
Lemma small_field_scenario_counterexample :
  exists w1 w3,
    reset_game 0 (small_world (constant_tape 5)) = Ok tt w1
    /\ snake (self w1) = [pt 5 7; pt 5 6; pt 5 5]
    /\ direction (self w1) = RIGHT
    /\ due 1 (self (force_food (pt 5 8) w1))
    /\ update_game_logic 1 (force_food (pt 5 8) w1) = Ok tt w3
    /\ snake (self w3) = [pt 5 8; pt 5 7; pt 5 6; pt 5 5]
    /\ score (self w3) = 10
    /\ food (self w3) = pt 5 8
    /\ contains (food (self w3)) (snake (self w3)) = true.
Proof.
  eexists. eexists.
  split; [vm_compute; reflexivity|].
  split; [reflexivity|]. split; [reflexivity|].
  split; [ready|].
  split; [vm_compute; reflexivity|].
  repeat split; reflexivity.
Qed.

Lemma settings_frame action w :
  action <> "select" \/ settings_index (self w) <> 8 ->
  data_manager (final (handle_settings_navigation action w)) = data_manager w.
Proof.
  destruct w as [e r dm cs]. destruct e. cbn.
  intros Hother. unfold handle_settings_navigation, toggle, upd_settings,
    save_settings. enter.
  repeat match goal with
         | |- context [if String.eqb ?a ?b then _ else _] =>
             destruct (String.eqb_spec a b)
         | |- context [if Z.eqb ?a ?b then _ else _] =>
             destruct (Z.eqb_spec a b)
         | |- context [match list_index ?a ?b with _ => _ end] =>
             destruct (list_index a b)
         | |- context [match list_get ?a ?b with _ => _ end] =>
             destruct (list_get a b)
         | |- context [match subscript ?a ?b with _ => _ end] =>
             destruct (subscript a b)
         | _ => progress run
         end;
    try reflexivity.
  cbn in *. destruct Hother; congruence.
Qed.

(** C10. The "back" action of the settings screen only sets the state
    to the menu: the settings record in memory keeps what was changed,
    and nothing is written. The settings file is written by the "select"
    action on item 8 and by no other action. *)
Theorem settings_back_keeps_file action w :
  handle_settings_navigation "back" w
  = Ok tt (mkWorld (with_state MENU (self w)) (random w) (data_manager w) (calls w))
  /\ settings (self (final (handle_settings_navigation "back" w)))
     = settings (self w)
  /\ data_manager (final (handle_settings_navigation "back" w)) = data_manager w
  /\ (action <> "select" \/ settings_index (self w) <> 8 ->
      data_manager (final (handle_settings_navigation action w)) = data_manager w)
  /\ (settings_index (self w) = 8 ->
      handle_settings_navigation "select" w
      = Ok tt (mkWorld (with_state MENU (self w)) (random w)
                 (DataManager.save_settings (settings (self w)) (data_manager w))
                 (calls w))).
Proof.
  split; [reflexivity|].
  split; [destruct w as [e r dm cs]; destruct e; reflexivity|].
  split; [reflexivity|].
  split; [apply settings_frame|].
  destruct w as [e r dm cs]. destruct e. cbn. intros ->. reflexivity.
Qed.

Lemma settings_back_keeps_file_witness :
  data_manager
    (final (handle_settings_navigation "select" (small_world (constant_tape 3))))
  = data_manager (small_world (constant_tape 3))
  /\ DataManager.settings_file
       (data_manager
          (final (handle_settings_navigation "select"
                    (final (handle_settings_navigation "up"
                              (small_world (constant_tape 3)))))))
     = Some (GameSettings.to_dict
               (settings (self (small_world (constant_tape 3))))).
Proof.
  split.
  - apply (proj1 (proj2 (proj2 (proj2
             (settings_back_keeps_file "select" (small_world (constant_tape 3))))))).
    right. vm_compute. discriminate.
  - pose proof (proj2 (proj2 (proj2 (proj2
             (settings_back_keeps_file "select"
                (final (handle_settings_navigation "up"
                          (small_world (constant_tape 3))))))))) as Hsave.
    rewrite Hsave by reflexivity. reflexivity.
Defined.
End scenario_claims.

(** * Further properties of the engine *)

(** ** A tick, case by case *)

Section tick_exact.
Implicit Types (w : World) (e : t) (p : Point).

(** What a due tick makes of the world, case by case. *)
Lemma tick_exact_no_snake now w :
  running (self w) -> due now (self w) -> snake (self w) = [] ->
  update_game_logic now w
  = Raise IndexError
      (mkWorld (ticked now (self w)) (random w) (data_manager w) (calls w)).
Proof.
  destruct w as [e r dm cs]. destruct e. cbn.
  intros [Hg Hp] (ms & Hms & Hdue) Hs. cbn in *. subst.
  unfold update_game_logic. enter. rewrite Hms. run.
  rewrite Hdue. run.
  unfold ticked, speeds_up.
  destruct current_session0 as [session|]; run;
    [destruct (_ && _ && PrimFloat.leb _ _); run|]; reflexivity.
Qed.

Lemma tick_exact_collision now w head rest :
  running (self w) -> due now (self w) ->
  snake (self w) = head :: rest ->
  ~ inside (Point_add head (next_direction (self w))) (self w)
  \/ In (Point_add head (next_direction (self w))) (snake (self w)) ->
  update_game_logic now w
  = Ok tt
      (mkWorld (with_state NAME_INPUT (with_game_over true (ticked now (self w))))
         (random w) (data_manager w)
         (if on_game_over (self w) then calls w ++ [CallGameOver] else calls w)).
Proof.
  destruct w as [e r dm cs]. destruct e. cbn.
  intros [Hg Hp] (ms & Hms & Hdue) Hs Hhit. cbn in *. subst.
  unfold update_game_logic. enter. rewrite Hms. run.
  rewrite Hdue. run.
  unfold ticked, speeds_up.
  destruct current_session0 as [session|]; run;
    [destruct (_ && _ && PrimFloat.leb _ _); run|].
  all: destruct Hhit as [Hout | Hin];
    [ apply bounds_test_out in Hout; cbn in Hout; rewrite Hout
    | apply contains_In in Hin; rewrite Hin;
      match goal with |- context [if ?b then _ else _] => destruct b end ];
    run; destruct on_game_over0; reflexivity.
Qed.

Lemma tick_exact_move now w head rest :
  running (self w) -> due now (self w) ->
  snake (self w) = head :: rest ->
  inside (Point_add head (next_direction (self w))) (self w) ->
  ~ In (Point_add head (next_direction (self w))) (snake (self w)) ->
  Point_add head (next_direction (self w)) <> food (self w) ->
  update_game_logic now w
  = Ok tt
      (mkWorld
         (with_snake
            (Point_add head (next_direction (self w)) :: removelast (snake (self w)))
            (ticked now (self w)))
         (random w) (data_manager w) (calls w)).
Proof.
  destruct w as [e r dm cs]. destruct e. cbn.
  intros [Hg Hp] (ms & Hms & Hdue) Hs Hin Hfree Hfood. cbn in *. subst.
  unfold update_game_logic. enter. rewrite Hms. run.
  rewrite Hdue. run.
  apply bounds_test in Hin. cbn in Hin.
  apply contains_not_In in Hfree. apply Point_eq_false in Hfood.
  unfold ticked, speeds_up.
  destruct current_session0 as [session|]; run;
    [destruct (_ && _ && PrimFloat.leb _ _); run|].
  all: rewrite Hin; run; rewrite Hfree; run; rewrite Hfood; run; reflexivity.
Qed.

Lemma tick_exact_eat now w head rest :
  running (self w) -> due now (self w) ->
  snake (self w) = head :: rest ->
  inside (Point_add head (next_direction (self w))) (self w) ->
  ~ In (Point_add head (next_direction (self w))) (snake (self w)) ->
  Point_add head (next_direction (self w)) = food (self w) ->
  exists f k,
    update_game_logic now w
    = Ok tt
        (mkWorld (fed_engine now (self w) f)
           (mkRandom (tape (random w)) (cursor (random w) + 2 * k))
           (data_manager w) (fed_calls (self w) (calls w)))
    /\ ((k = 100%nat /\ f = food (self w)
         /\ all_taken w (food (self w) :: snake (self w)) 100)
        \/ (exists i, k = S i /\ (i < 100)%nat /\ f = candidate w i
                      /\ first_free w (food (self w) :: snake (self w)) i)).
Proof.
  destruct w as [e r dm cs]. destruct e. cbn.
  intros [Hg Hp] (ms & Hms & Hdue) Hs Hin Hfree Hfood. cbn in *. subst.
  unfold update_game_logic. enter. rewrite Hms. run.
  rewrite Hdue. run.
  pose proof Hin as [[_ Hh] [_ Hw]]. cbn in Hh, Hw.
  apply bounds_test in Hin. cbn in Hin.
  apply contains_not_In in Hfree.
  unfold fed_engine, fed_calls, ticked, speeds_up.
  destruct current_session0 as [session|]; run;
    [destruct (_ && _ && PrimFloat.leb _ _); run|].
  all: rewrite Hin; run; rewrite Hfree; run;
    rewrite (proj2 (Point_eq_true _ _) eq_refl); run;
    match goal with
    | |- context [place_food ?W] =>
        destruct (place_food_returns W) as (f & k & Hrun & Hcases);
          [cbn; lia | cbn; lia | rewrite Hrun; unfold fed in *; cbn in Hcases]
    end;
    run; exists f, k; (split; [|exact Hcases]);
    destruct (truthy (GameSettings.auto_speed_increase settings0)); run;
    destruct on_food_eaten0; run; destruct on_score_changed0; run;
    rewrite ?app_nil_r; reflexivity.
Qed.
End tick_exact.

Section tick_classification.
Implicit Types (w : World) (e : t) (p : Point).

Lemma tick_classified now w : tick_case now w (update_game_logic now w).
Proof.
  destruct (game_over (self w)) eqn:Hg.
  { rewrite tick_skipped by (left; exact Hg). constructor. left; exact Hg. }
  destruct (paused (self w)) eqn:Hp.
  { rewrite tick_skipped by (right; left; exact Hp).
    constructor. right; left; exact Hp. }
  assert (Hrun : running (self w)) by (split; assumption).
  destruct (py_div_float (current_speed (self w)) 1000) as [ms|x] eqn:Hms.
  2:{ rewrite (tick_type_error now w x) by assumption. constructor 2; assumption. }
  destruct (PrimFloat.ltb (PrimFloat.sub now (last_update_time (self w))) ms)
    eqn:Htest.
  { assert (Hearly : early now (self w)) by (exists ms; split; assumption).
    rewrite tick_skipped by (right; right; exact Hearly).
    constructor. right; right; exact Hearly. }
  assert (Hdue : due now (self w)) by (exists ms; split; assumption).
  destruct (snake (self w)) as [|head rest] eqn:Hs.
  { rewrite tick_exact_no_snake by assumption. constructor 3; assumption. }
  destruct (inside_dec (Point_add head (next_direction (self w))) (self w))
    as [Hin|Hout].
  2:{ rewrite (tick_exact_collision now w head rest) by (try assumption; left; exact Hout).
      econstructor 4; [eassumption .. | left; exact Hout]. }
  destruct (contains (Point_add head (next_direction (self w))) (snake (self w)))
    eqn:Hc.
  { apply contains_In in Hc.
    rewrite (tick_exact_collision now w head rest) by (try assumption; right; exact Hc).
    econstructor 4; [eassumption .. | right; exact Hc]. }
  apply contains_not_In in Hc.
  destruct (Point_eq (Point_add head (next_direction (self w))) (food (self w)))
    eqn:Hf.
  - apply Point_eq_true in Hf.
    destruct (tick_exact_eat now w head rest Hrun Hdue Hs Hin Hc Hf)
      as (f & k & -> & Hcases).
    econstructor 6; eassumption.
  - apply Point_eq_false in Hf.
    rewrite (tick_exact_move now w head rest) by assumption.
    econstructor 5; eassumption.
Qed.
End tick_classification.

Ltac by_ticked :=
  unfold fed_engine, ticked, speeds_up;
  match goal with e : t |- _ => destruct e end; cbn;
  repeat match goal with
         | |- context [match ?s with Some _ => _ | None => _ end] => destruct s; cbn
         | |- context [if ?b then _ else _] => destruct b; cbn
         end.

Section ticked_fields.
Implicit Types (w : World) (e : t) (p : Point).

(** The bookkeeping of a tick touches the time of the last tick, the
    session, the interval, the time of the last speed-up and the
    direction, and nothing else. *)
Lemma ticked_frame now e :
  exists session speed since,
    ticked now e
    = mk (state e) (settings e) (menu_index e) (settings_index e)
        (field_width e) (field_height e) (snake e) (food e)
        (next_direction e) (next_direction e) (score e) (game_over e)
        (paused e) (player_name e) (max_name_length e) session speed now
        since (foods_eaten e) (on_food_eaten e) (on_game_over e)
        (on_score_changed e).
Proof. by_ticked; do 3 eexists; reflexivity. Qed.

Lemma fed_frame now e f :
  exists session speed since,
    fed_engine now e f
    = mk (state e) (settings e) (menu_index e) (settings_index e)
        (field_width e) (field_height e) (food e :: snake e) f
        (next_direction e) (next_direction e) (score e + 10) (game_over e)
        (paused e) (player_name e) (max_name_length e) session speed now
        since (foods_eaten e + 1) (on_food_eaten e) (on_game_over e)
        (on_score_changed e).
Proof. by_ticked; do 3 eexists; reflexivity. Qed.

Lemma ticked_current_speed now e :
  current_speed (ticked now e)
  = if speeds_up now e
    then py_max_int 50 (py_sub_int (current_speed e) 10)
    else current_speed e.
Proof.
  unfold ticked, speeds_up. destruct e; cbn.
  destruct current_session0; cbn; [|reflexivity].
  destruct (_ && _ && _); reflexivity.
Qed.

Lemma fed_current_speed now e f :
  current_speed (fed_engine now e f)
  = if truthy (GameSettings.auto_speed_increase (settings e))
    then py_max_int 40 (py_sub_int (current_speed (ticked now e)) 3)
    else current_speed (ticked now e).
Proof.
  unfold fed_engine.
  destruct (truthy (GameSettings.auto_speed_increase (settings e)));
    destruct (ticked now e); reflexivity.
Qed.

Lemma ticked_current_session now e :
  current_session (ticked now e)
  = option_map
      (fun session =>
         GameSession.with_moves_made (GameSession.moves_made session + 1) session)
      (current_session e).
Proof.
  unfold ticked, speeds_up. destruct e; cbn.
  destruct current_session0; cbn; [|reflexivity].
  destruct (_ && _ && _); reflexivity.
Qed.

Lemma fed_current_session now e f :
  current_session (fed_engine now e f) = current_session (ticked now e).
Proof.
  unfold fed_engine.
  destruct (truthy (GameSettings.auto_speed_increase (settings e)));
    destruct (ticked now e); reflexivity.
Qed.
End ticked_fields.

(** Replaces the engine a tick leaves by its fields. *)
Ltac open_tick :=
  repeat match goal with
         | |- context [ticked ?now ?e] =>
             let session := fresh "session" in
             let speed := fresh "speed" in
             let since := fresh "since" in
             destruct (ticked_frame now e) as (session & speed & since & ->)
         | |- context [fed_engine ?now ?e ?f] =>
             let session := fresh "session" in
             let speed := fresh "speed" in
             let since := fresh "since" in
             destruct (fed_frame now e f) as (session & speed & since & ->)
         end;
  cbn [final self random data_manager calls
       state settings menu_index settings_index field_width field_height snake
       food direction next_direction score game_over paused player_name
       max_name_length current_session current_speed last_update_time
       last_speed_increase foods_eaten on_food_eaten on_game_over
       on_score_changed with_state with_game_over with_snake].

(** ** Invariants of the game *)

Section invariants.
Implicit Types (w : World) (e : t) (p : Point).

Lemma preset_sizes size fs :
  assoc size FIELD_SIZES = Some fs ->
  (fs_width fs = 15 /\ fs_height fs = 10)
  \/ (fs_width fs = 20 /\ fs_height fs = 15)
  \/ (fs_width fs = 30 /\ fs_height fs = 20)
  \/ (fs_width fs = 25 /\ fs_height fs = 18).
Proof.
  unfold FIELD_SIZES. cbn [assoc].
  repeat (destruct (String.eqb size _); [intros [= <-]; cbn; tauto|]).
  discriminate.
Qed.

Lemma removelast_Forall {A} (P : A -> Prop) (l : list A) :
  Forall P l -> Forall P (removelast l).
Proof.
  intros H. apply Forall_forall. intros a Ha.
  rewrite Forall_forall in H. apply H.
  apply list_elem_of_In, removelast_In, list_elem_of_In, Ha.
Qed.

Lemma inside_same_grid p e e' :
  field_width e' = field_width e -> field_height e' = field_height e ->
  inside p e -> inside p e'.
Proof. unfold inside. intros -> ->. tauto. Qed.

Lemma tick_on_grid now w :
  on_grid (self w) -> on_grid (self (final (update_game_logic now w))).
Proof.
  intros Hgrid. unfold on_grid in *.
  destruct (tick_classified now w); try exact Hgrid; open_tick.
  - match goal with H : snake _ = [] |- _ => rewrite H end. constructor.
  - exact Hgrid.
  - constructor; [assumption | apply removelast_Forall, Hgrid].
  - constructor; [|exact Hgrid].
    match goal with H : Point_add _ _ = food _ |- _ => rewrite <- H end.
    assumption.
Qed.

(** X1. The snake never leaves the grid: all its cells are cells of the
    grid after [reset_game], on every preset, and a call of
    [update_game_logic] keeps them so however it ends. *)
Theorem snake_stays_on_grid now w :
  (forall size,
      GameSettings.field_size (settings (self w)) = VStr size ->
      is_Some (assoc size FIELD_SIZES) ->
      exists w', reset_game now w = Ok tt w' /\ on_grid (self w'))
  /\ (on_grid (self w) -> on_grid (self (final (update_game_logic now w)))).
Proof.
  split.
  - intros size Hsize [fs Hfs].
    destruct (reset_game_spawn now w size fs Hsize Hfs)
      as (w' & Hstep & Hw & Hh & Hsnake & _).
    exists w'. split; [exact Hstep|].
    unfold on_grid, inside. rewrite Hsnake, Hw, Hh.
    destruct (preset_sizes size fs Hfs) as [[-> ->] | [[-> ->] | [[-> ->] | [-> ->]]]];
      repeat (apply List.Forall_cons; [vm_compute; intuition discriminate|]);
      apply List.Forall_nil.
  - apply tick_on_grid.
Qed.

Lemma removelast_connected cells : connected cells -> connected (removelast cells).
Proof.
  induction cells as [|p [|q [|r rest]] IH]; cbn; try tauto.
  intros [Hpq Hrest]. split; [exact Hpq|]. apply IH. exact Hrest.
Qed.

Lemma connected_cons p cells :
  match cells with
  | q :: _ => adjacent p q
  | [] => True
  end ->
  connected cells -> connected (p :: cells).
Proof. destruct cells; cbn; tauto. Qed.

Lemma tick_connected now w :
  connected (snake (self w)) ->
  connected (snake (self (final (update_game_logic now w)))).
Proof.
  intros Hpath.
  destruct (tick_classified now w) as [| | |head rest|head rest|head rest f k];
    try exact Hpath; open_tick.
  - match goal with H : snake _ = [] |- _ => rewrite H end. exact I.
  - exact Hpath.
  - match goal with H : snake _ = head :: rest |- _ => rewrite H in * end.
    destruct rest as [|neck rest].
    + exact I.
    + change (removelast (head :: neck :: rest))
        with (head :: removelast (neck :: rest)).
      apply connected_cons; [eexists; reflexivity|].
      apply (removelast_connected (head :: neck :: rest)), Hpath.
  - match goal with H : snake _ = head :: rest |- _ => rewrite H in * end.
    apply connected_cons; [|exact Hpath].
    match goal with H : Point_add _ _ = food _ |- _ => rewrite <- H end.
    eexists; reflexivity.
Qed.

Lemma tick_distinct now w :
  NoDup (snake (self w)) -> NoDup (snake (self (final (update_game_logic now w)))).
Proof.
  intros Hdistinct.
  destruct (tick_classified now w) as [| | |head rest|head rest|head rest f k];
    try exact Hdistinct; open_tick.
  - match goal with H : snake _ = [] |- _ => rewrite H end. constructor.
  - exact Hdistinct.
  - constructor; [|apply removelast_NoDup, Hdistinct].
    intros Hin. apply list_elem_of_In, removelast_In in Hin. contradiction.
  - constructor; [|exact Hdistinct].
    match goal with H : Point_add _ _ = food _ |- _ => rewrite <- H end.
    rewrite list_elem_of_In. assumption.
Qed.

(** X2. The body of the snake is a path on the grid: each cell is a
    neighbour of the next one after [reset_game], and a call of
    [update_game_logic] keeps it so however it ends. *)
Theorem snake_stays_connected now w :
  (forall size,
      GameSettings.field_size (settings (self w)) = VStr size ->
      is_Some (assoc size FIELD_SIZES) ->
      exists w', reset_game now w = Ok tt w' /\ connected (snake (self w')))
  /\ (connected (snake (self w)) ->
      connected (snake (self (final (update_game_logic now w))))).
Proof.
  split.
  - intros size Hsize [fs Hfs].
    destruct (reset_game_spawn now w size fs Hsize Hfs)
      as (w' & Hstep & _ & _ & Hsnake & _).
    exists w'. split; [exact Hstep|]. rewrite Hsnake.
    cbn [connected]. repeat split; exists RIGHT; unfold Point_add; cbn;
      f_equal; lia.
  - apply tick_connected.
Qed.

(** X3. The score is ten times the number of foods eaten, and the snake
    is three cells longer than that number: [reset_game] makes it so and
    [update_game_logic] keeps it so however it ends. *)
Theorem score_and_length_follow_food now w :
  (forall size,
      GameSettings.field_size (settings (self w)) = VStr size ->
      is_Some (assoc size FIELD_SIZES) ->
      exists w', reset_game now w = Ok tt w' /\ tallied (self w'))
  /\ (tallied (self w) -> tallied (self (final (update_game_logic now w)))).
Proof.
  split.
  - intros size Hsize [fs Hfs].
    destruct (reset_game_spawn now w size fs Hsize Hfs)
      as (w' & Hstep & _ & _ & Hsnake & _ & _ & Hscore & Heaten & _).
    exists w'. split; [exact Hstep|]. unfold tallied.
    rewrite Hsnake, Hscore, Heaten. split; reflexivity.
  - unfold tallied. intros [Hscore Hlen].
    destruct (tick_classified now w) as [| | |head rest|head rest|head rest f k];
      try (split; assumption); open_tick.
    + split; assumption.
    + split; assumption.
    + split; [assumption|].
      match goal with H : snake _ = head :: rest |- _ => rewrite H in * end.
      cbn [length] in *. rewrite removelast_cons_length. exact Hlen.
    + split; [lia|]. cbn [length]. lia.
Qed.

Lemma opposite_differs d : opposite d <> d.
Proof. destruct d; discriminate. Qed.

Lemma opposite_move p d d' :
  d' <> opposite d -> Point_add (Point_add p d) d' <> p.
Proof.
  destruct p as [py px]. destruct d, d'; cbn; intros Hd [=]; try lia;
    apply Hd; reflexivity.
Qed.

(** X4. The queued direction is never the reverse of the applied one, and
    the head of a game that goes on lies where the applied direction took
    it from the second cell: [reset_game] makes it so, and
    [handle_direction_input] and [update_game_logic] keep it so. Hence no
    tick moves the head back onto the second cell of the body. *)
Theorem snake_never_reverses now d w :
  (forall size,
      GameSettings.field_size (settings (self w)) = VStr size ->
      is_Some (assoc size FIELD_SIZES) ->
      exists w', reset_game now w = Ok tt w' /\ steered (self w'))
  /\ (steered (self w) -> steered (self (final (handle_direction_input d w))))
  /\ (steered (self w) -> steered (self (final (update_game_logic now w))))
  /\ (steered (self w) -> game_over (self w) = false ->
      forall head neck rest,
        snake (self w) = head :: neck :: rest ->
        Point_add head (next_direction (self w)) <> neck).
Proof.
  split; [|split; [|split]].
  - intros size Hsize [fs Hfs].
    destruct (reset_game_spawn now w size fs Hsize Hfs)
      as (w' & Hstep & _ & _ & Hsnake & Hd & Hnext & _).
    exists w'. split; [exact Hstep|]. unfold steered, heading.
    rewrite Hsnake, Hd, Hnext. split; [discriminate|].
    intros _. unfold Point_add; cbn. f_equal; lia.
  - intros [Hnext Hhead].
    destruct (paused (self w) || game_over (self w)) eqn:Hstop.
    + rewrite direction_rejected; [split; assumption|].
      apply orb_true_iff in Hstop. tauto.
    + apply orb_false_iff in Hstop as [Hp Hg].
      destruct (Direction_eqb d (opposite (direction (self w)))) eqn:Hd.
      * apply opposite_eqb in Hd.
        rewrite direction_rejected by (right; right; exact Hd).
        split; assumption.
      * rewrite direction_accepted; [|split; assumption|].
        2:{ intros ->. rewrite (proj2 (opposite_eqb _ _) eq_refl) in Hd.
            discriminate. }
        destruct w as [e r dm cs]. destruct e. cbn in *. unfold steered, heading.
        cbn. split; [|exact Hhead].
        intros ->. rewrite (proj2 (opposite_eqb _ _) eq_refl) in Hd.
        discriminate.
  - intros [Hnext Hhead]. unfold steered, heading in *.
    destruct (tick_classified now w) as [| | |head rest|head rest|head rest f k];
      try (split; assumption); open_tick.
    + split; [intros E; symmetry in E; exact (opposite_differs _ E)|].
      match goal with H : snake _ = [] |- _ => rewrite H end. tauto.
    + split; [intros E; symmetry in E; exact (opposite_differs _ E)|].
      discriminate.
    + split; [intros E; symmetry in E; exact (opposite_differs _ E)|].
      intros _.
      match goal with H : snake _ = head :: rest |- _ => rewrite H in * end.
      destruct rest as [|neck rest]; reflexivity.
    + split; [intros E; symmetry in E; exact (opposite_differs _ E)|].
      intros _.
      match goal with H : snake _ = head :: rest |- _ => rewrite H in * end.
      match goal with H : Point_add _ _ = food _ |- _ => rewrite <- H end.
      reflexivity.
  - intros [Hnext Hhead] Hg head neck rest Hs.
    specialize (Hhead Hg). unfold heading in Hhead. rewrite Hs in Hhead.
    subst head. apply opposite_move. exact Hnext.
Qed.
End invariants.

Lemma snake_stays_on_grid_witness :
  exists w', reset_game 0 (small_world (constant_tape 3)) = Ok tt w'
    /\ on_grid (self w')
    /\ on_grid (self (final (update_game_logic 1 w'))).
Proof.
  destruct (proj1 (snake_stays_on_grid 0 (small_world (constant_tape 3))) "Small")
    as (w' & Hreset & Hgrid); [reflexivity | eexists; reflexivity |].
  exists w'. split; [exact Hreset|]. split; [exact Hgrid|].
  apply (proj2 (snake_stays_on_grid 1 w')), Hgrid.
Defined.

Lemma snake_stays_connected_witness :
  exists w', reset_game 0 (small_world (constant_tape 3)) = Ok tt w'
    /\ connected (snake (self w'))
    /\ connected (snake (self (final (update_game_logic 1 w')))).
Proof.
  destruct (proj1 (snake_stays_connected 0 (small_world (constant_tape 3))) "Small")
    as (w' & Hreset & Hpath); [reflexivity | eexists; reflexivity |].
  exists w'. split; [exact Hreset|]. split; [exact Hpath|].
  apply (proj2 (snake_stays_connected 1 w')), Hpath.
Defined.

Lemma score_and_length_follow_food_witness :
  exists w', reset_game 0 (small_world (constant_tape 3)) = Ok tt w'
    /\ tallied (self w')
    /\ tallied (self (final (update_game_logic 1 w'))).
Proof.
  destruct (proj1 (score_and_length_follow_food 0 (small_world (constant_tape 3)))
              "Small")
    as (w' & Hreset & Htally); [reflexivity | eexists; reflexivity |].
  exists w'. split; [exact Hreset|]. split; [exact Htally|].
  apply (proj2 (score_and_length_follow_food 1 w')), Htally.
Defined.

Lemma snake_never_reverses_witness :
  exists w', reset_game 0 (small_world (constant_tape 3)) = Ok tt w'
    /\ steered (self w')
    /\ steered (self (final (handle_direction_input LEFT w')))
    /\ steered (self (final (update_game_logic 1 w'))).
Proof.
  destruct (proj1 (snake_never_reverses 0 LEFT (small_world (constant_tape 3)))
              "Small")
    as (w' & Hreset & Hsteer); [reflexivity | eexists; reflexivity |].
  exists w'. split; [exact Hreset|]. split; [exact Hsteer|].
  split.
  - apply (proj1 (proj2 (snake_never_reverses 1 LEFT w'))), Hsteer.
  - apply (proj1 (proj2 (proj2 (snake_never_reverses 1 LEFT w')))), Hsteer.
Defined.

Section speed.
Implicit Types (w : World) (e : t).

Lemma num_of_sub (v : value) j s :
  num_of v = Some s ->
  exists s', num_of (py_sub_int v j) = Some s' /\ (s' == s - inject_Z j)%Q.
Proof.
  destruct v as [|b|z|q| | |]; cbn; intros [= <-]; eexists; (split; [reflexivity|]).
  - unfold Z.sub. rewrite inject_Z_plus, inject_Z_opp. reflexivity.
  - unfold Z.sub. rewrite inject_Z_plus, inject_Z_opp. reflexivity.
  - reflexivity.
Qed.

Lemma num_of_max k (v : value) s :
  num_of v = Some s ->
  exists s', num_of (py_max_int k v) = Some s'
    /\ (inject_Z k <= s')%Q /\ (s <= s')%Q
    /\ ((s' == s)%Q \/ (s' == inject_Z k)%Q).
Proof.
  intros Hs. unfold py_max_int. rewrite Hs.
  destruct (Qltb (inject_Z k) s) eqn:Hlt.
  - apply Qltb_lt in Hlt. exists s. repeat split; try lra. exact Hs.
  - apply Qltb_ge in Hlt. exists (inject_Z k). cbn. repeat split; try lra.
Qed.

(** A speed-up: [max(k, v - j)]. *)
Lemma speed_up_bounds k j (v : value) s :
  0 <= j -> num_of v = Some s ->
  exists s', num_of (py_max_int k (py_sub_int v j)) = Some s'
    /\ (inject_Z k <= s')%Q /\ ((s' <= s)%Q \/ (s' == inject_Z k)%Q).
Proof.
  intros Hj Hs.
  destruct (num_of_sub v j s Hs) as (s1 & Hs1 & E1).
  destruct (num_of_max k _ s1 Hs1) as (s2 & Hs2 & Hk & _ & [E2|E2]).
  - exists s2. repeat split; try assumption. left.
    rewrite Zle_Qle in Hj. change (inject_Z 0) with 0%Q in Hj. lra.
  - exists s2. repeat split; try assumption. right. exact E2.
Qed.

Lemma with_state_current_speed v e : current_speed (with_state v e) = current_speed e.
Proof. destruct e; reflexivity. Qed.
Lemma with_game_over_current_speed v e :
  current_speed (with_game_over v e) = current_speed e.
Proof. destruct e; reflexivity. Qed.
Lemma with_snake_current_speed v e : current_speed (with_snake v e) = current_speed e.
Proof. destruct e; reflexivity. Qed.
Lemma with_state_last_update_time v e :
  last_update_time (with_state v e) = last_update_time e.
Proof. destruct e; reflexivity. Qed.
Lemma with_game_over_last_update_time v e :
  last_update_time (with_game_over v e) = last_update_time e.
Proof. destruct e; reflexivity. Qed.
Lemma with_snake_last_update_time v e :
  last_update_time (with_snake v e) = last_update_time e.
Proof. destruct e; reflexivity. Qed.

Lemma floor_50_40 (s s' : Q) :
  ((s' == s) \/ (50 <= s' /\ (s' <= s \/ s' == 50)))%Q ->
  ((s' == s) \/ (40 <= s' /\ (s' <= s \/ s' <= 50)))%Q.
Proof.
  intros [E | [H50 Hb]]; [left; exact E | right].
  split; [lra|]. destruct Hb; [left; assumption | right; lra].
Qed.

Lemma ticked_speed_bounds now e s :
  num_of (current_speed e) = Some s ->
  exists s', num_of (current_speed (ticked now e)) = Some s'
    /\ ((s' == s)%Q \/ (50 <= s' /\ (s' <= s \/ s' == 50))%Q).
Proof.
  intros Hs. rewrite ticked_current_speed. destruct (speeds_up now e).
  - destruct (speed_up_bounds 50 10 _ s ltac:(lia) Hs) as (s' & Hs' & Hk & Hle).
    exists s'. split; [exact Hs'|]. right. split; [exact Hk | exact Hle].
  - exists s. split; [exact Hs | left; reflexivity].
Qed.

Lemma fed_speed_bounds now e f s :
  num_of (current_speed e) = Some s ->
  exists s', num_of (current_speed (fed_engine now e f)) = Some s'
    /\ ((s' == s)%Q \/ (40 <= s' /\ (s' <= s \/ s' <= 50))%Q).
Proof.
  intros Hs. rewrite fed_current_speed.
  destruct (ticked_speed_bounds now e s Hs) as (s1 & Hs1 & H1).
  destruct (truthy _).
  - destruct (speed_up_bounds 40 3 _ s1 ltac:(lia) Hs1) as (s' & Hs' & Hk & Hle).
    exists s'. split; [exact Hs'|]. right.
    change (inject_Z 40) with 40%Q in *.
    change (inject_Z 50) with 50%Q in *.
    split; [exact Hk|]. destruct H1 as [E | [H50 [Hle1 | E]]]; destruct Hle as [Hle | E'];
      lra.
  - exists s1. split; [exact Hs1 | apply floor_50_40, H1].
Qed.

(** The interval after a call of [update_game_logic], against the one
    before. *)
Lemma tick_speed now w s :
  num_of (current_speed (self w)) = Some s ->
  exists s',
    num_of (current_speed (self (final (update_game_logic now w)))) = Some s'
    /\ ((s' == s)%Q \/ (40 <= s' /\ (s' <= s \/ s' <= 50))%Q).
Proof.
  intros Hs.
  destruct (tick_classified now w) as [| | |head rest|head rest|head rest f k];
    cbn [final self];
    rewrite ?with_state_current_speed, ?with_game_over_current_speed,
      ?with_snake_current_speed.
  - exists s. split; [exact Hs | left; reflexivity].
  - exists s. split; [exact Hs | left; reflexivity].
  - destruct (ticked_speed_bounds now (self w) s Hs) as (s' & Hs' & Hb).
    exists s'. split; [exact Hs' | apply floor_50_40, Hb].
  - destruct (ticked_speed_bounds now (self w) s Hs) as (s' & Hs' & Hb).
    exists s'. split; [exact Hs' | apply floor_50_40, Hb].
  - destruct (ticked_speed_bounds now (self w) s Hs) as (s' & Hs' & Hb).
    exists s'. split; [exact Hs' | apply floor_50_40, Hb].
  - apply fed_speed_bounds. exact Hs.
Qed.

(** X5. A call of [update_game_logic] keeps the tick interval a number;
    it leaves it as it was, or lowers it, or sets it to a floor, 50 ms for
    the speed-up by time and 40 ms for the speed-up by food. So an interval
    of at least 40 ms stays at least 40 ms, a positive one stays positive,
    and none ends above both its old value and 50 ms. *)
Theorem tick_interval_bounds now w s :
  num_of (current_speed (self w)) = Some s ->
  exists s',
    num_of (current_speed (self (final (update_game_logic now w)))) = Some s'
    /\ (40 <= s -> 40 <= s')%Q
    /\ (0 < s -> 0 < s')%Q
    /\ (s' <= s \/ s' <= 50)%Q.
Proof.
  intros Hs. destruct (tick_speed now w s Hs) as (s' & Hs' & H).
  exists s'. split; [exact Hs'|].
  destruct H as [E | [H40 Hb]].
  - split; [lra|]. split; [lra|]. left. lra.
  - split; [lra|]. split; [lra|]. destruct Hb; [left | right]; lra.
Qed.

(** An [int] interval stays an [int]. *)
Lemma tick_int_speed now w z :
  current_speed (self w) = VInt z ->
  exists z', current_speed (self (final (update_game_logic now w))) = VInt z'.
Proof.
  intros Hz.
  assert (Hup : forall k j, exists z', py_max_int k (py_sub_int (VInt z) j) = VInt z').
  { intros k j. unfold py_max_int, py_sub_int. cbn [num_of].
    destruct (Qltb _ _); eexists; reflexivity. }
  assert (Hticked : exists z1, current_speed (ticked now (self w)) = VInt z1).
  { rewrite ticked_current_speed, Hz.
    destruct (speeds_up now (self w)); [apply Hup | exists z; reflexivity]. }
  destruct (tick_classified now w) as [| | |head rest|head rest|head rest f k];
    cbn [final self];
    rewrite ?with_state_current_speed, ?with_game_over_current_speed,
      ?with_snake_current_speed;
    try (exists z; exact Hz); try exact Hticked.
  rewrite fed_current_speed. destruct Hticked as [z1 ->].
  destruct (truthy _); [|exists z1; reflexivity].
  unfold py_max_int, py_sub_int. cbn [num_of].
  destruct (Qltb _ _); eexists; reflexivity.
Qed.

(** The float interval of an [int] speed from 1 to 1000 ms is positive. *)
Lemma int_interval_positive z interval :
  1 <= z <= 1000 ->
  py_div_float (VInt z) 1000 = Val interval -> PrimFloat.ltb 0 interval = true.
Proof.
  intros Hz Hinterval.
  assert (Hall :
    forallb (fun k => match py_div_float (VInt (Z.of_nat k)) 1000 with
                      | Val i => PrimFloat.ltb 0 i
                      | Exc _ => false
                      end) (seq 1 1000) = true) by (vm_compute; reflexivity).
  rewrite forallb_forall in Hall. specialize (Hall (Z.to_nat z)).
  rewrite Z2Nat.id, Hinterval in Hall by lia.
  apply Hall, in_seq. lia.
Qed.

(** A call at the time of the last tick, with a positive float interval,
    leaves the world as it is. *)
Lemma tick_at_last_update now w :
  PrimFloat.sub now now = 0%float ->
  last_update_time (self w) = now ->
  (forall interval,
      py_div_float (current_speed (self w)) 1000 = Val interval ->
      PrimFloat.ltb 0 interval = true) ->
  final (update_game_logic now w) = w.
Proof.
  intros Hnow Hlast Hpos.
  destruct (tick_status now w) as [-> | [[x ->] | [_ (interval & Hi & Hdue)]]];
    try reflexivity.
  rewrite Hlast, Hnow, (Hpos interval Hi) in Hdue. discriminate.
Qed.

(** X6. Calling [update_game_logic] again at the same instant changes
    nothing more, provided the clock read is a finite float (so that
    [now - now] is zero) and the interval the first call leaves, the
    float [current_speed / 1000.0], is positive: the world after two
    calls at [now] is then the world after one. The interval is positive
    for every [int] speed from 1 to 1000 ms, which a tick keeps in that
    range once it is at least 40 ms. The float quotient of a speed as
    small as 5e-324 is zero, and there the second call ticks again. *)
Theorem tick_twice_same_instant now w :
  PrimFloat.sub now now = 0%float ->
  ((forall interval,
       py_div_float (current_speed (self (final (update_game_logic now w)))) 1000
       = Val interval ->
       PrimFloat.ltb 0 interval = true) ->
   final (update_game_logic now (final (update_game_logic now w)))
   = final (update_game_logic now w))
  /\ (forall z,
      current_speed (self w) = VInt z -> 40 <= z <= 1000 ->
      final (update_game_logic now (final (update_game_logic now w)))
      = final (update_game_logic now w)).
Proof.
  intros Hnow.
  assert (Hgeneral :
    (forall interval,
        py_div_float (current_speed (self (final (update_game_logic now w)))) 1000
        = Val interval ->
        PrimFloat.ltb 0 interval = true) ->
    final (update_game_logic now (final (update_game_logic now w)))
    = final (update_game_logic now w)).
  { destruct (tick_classified now w) as [Hskip|x Hrun Hbad| | | |];
      cbn [final] in *; intros Hpos.
    - rewrite (tick_skipped now w Hskip). reflexivity.
    - rewrite (tick_type_error now w x Hrun Hbad). reflexivity.
    - apply tick_at_last_update; [exact Hnow | | exact Hpos]. cbn [self].
      destruct (ticked_frame now (self w)) as (? & ? & ? & ->). reflexivity.
    - apply tick_at_last_update; [exact Hnow | | exact Hpos]. cbn [self].
      destruct (ticked_frame now (self w)) as (? & ? & ? & ->). reflexivity.
    - apply tick_at_last_update; [exact Hnow | | exact Hpos]. cbn [self].
      destruct (ticked_frame now (self w)) as (? & ? & ? & ->). reflexivity.
    - apply tick_at_last_update; [exact Hnow | | exact Hpos]. cbn [self].
      destruct (fed_frame now (self w) f) as (? & ? & ? & ->). reflexivity. }
  split; [exact Hgeneral|].
  intros z Hz Hrange. apply Hgeneral.
  destruct (tick_int_speed now w z Hz) as (z' & Hz').
  destruct (tick_speed now w (inject_Z z)) as (s' & Hs' & Hbound);
    [rewrite Hz; reflexivity|].
  rewrite Hz' in Hs' |- *. injection Hs' as <-.
  intros interval. apply int_interval_positive.
  change 40%Q with (inject_Z 40) in Hbound.
  change 50%Q with (inject_Z 50) in Hbound.
  rewrite <- !Zle_Qle, inject_Z_injective in Hbound. lia.
Qed.
End speed.

Lemma tick_interval_bounds_witness :
  exists s',
    num_of (current_speed
              (self (final (update_game_logic 1 (small_game (constant_tape 3))))))
    = Some s'
    /\ (40 <= s')%Q.
Proof.
  destruct (tick_interval_bounds 1 (small_game (constant_tape 3)) 150)
    as (s' & Hs' & Hfloor & _); [reflexivity|].
  exists s'. split; [exact Hs'|]. apply Hfloor. vm_compute. discriminate.
Defined.

Lemma tick_twice_same_instant_witness :
  final (update_game_logic 1
           (final (update_game_logic 1 (small_game (constant_tape 3)))))
  = final (update_game_logic 1 (small_game (constant_tape 3))).
Proof.
  apply (proj2 (tick_twice_same_instant 1 (small_game (constant_tape 3))
                  eq_refl) 150);
    [reflexivity | lia].
Defined.

(** A speed of [5e-324] ms: the float interval is zero, no call is early,
    and a second call at the same instant moves the snake again. *)
Example tick_twice_zero_interval :
  py_div_float
    (current_speed
       (self (final (reset_game 0 (final (new tiny_speed_file (constant_tape 3)))))))
    1000
  = Val 0%float
  /\ snake (self (final (update_game_logic 1
                 (final (reset_game 0 (final (new tiny_speed_file (constant_tape 3))))))))
     = [pt 5 8; pt 5 7; pt 5 6]
  /\ snake (self (final (update_game_logic 1
                 (final (update_game_logic 1
                    (final (reset_game 0
                              (final (new tiny_speed_file (constant_tape 3))))))))))
     = [pt 5 9; pt 5 8; pt 5 7].
Proof. repeat split; vm_compute; reflexivity. Qed.

Section reset_exact.
Implicit Types (w : World) (e : t) (p : Point).

(** The world [reset_game] leaves on a preset that exists, field by
    field; the food is where [place_food] put it. *)
Lemma reset_game_exact now w size fs :
  GameSettings.field_size (settings (self w)) = VStr size ->
  assoc size FIELD_SIZES = Some fs ->
  exists f k,
    reset_game now w
    = Ok tt
        (mkWorld
           (mk (state (self w)) (settings (self w)) (menu_index (self w))
              (settings_index (self w)) (fs_width fs) (fs_height fs)
              [ mkPoint (fs_height fs / 2) (fs_width fs / 2);
                mkPoint (fs_height fs / 2) (fs_width fs / 2 - 1);
                mkPoint (fs_height fs / 2) (fs_width fs / 2 - 2) ]
              f RIGHT RIGHT 0 false false (player_name (self w))
              (max_name_length (self w))
              (Some (GameSession.new now
                       (GameSettings.field_size (settings (self w)))
                       (GameSettings.difficulty (settings (self w)))))
              (GameSettings.initial_speed (settings (self w)))
              (last_update_time (self w)) 0%float 0 (on_food_eaten (self w))
              (on_game_over (self w)) (on_score_changed (self w)))
           (mkRandom (tape (random w)) (cursor (random w) + 2 * k))
           (data_manager w) (calls w))
    /\ (k <= 100)%nat
    /\ (f = food (self w)
        \/ (0 <= y f < fs_height fs /\ 0 <= x f < fs_width fs)).
Proof.
  intros Hsize Hassoc. destruct (preset_has_cells _ _ Hassoc) as [Hw Hh].
  unfold reset_game. unfold mbind at 1. unfold M_bind at 1.
  rewrite (calculate_field_dimensions_ok w size fs Hsize Hassoc).
  destruct w as [e r dm cs]. destruct e. enter.
  match goal with
  | |- context [place_food ?W] =>
      destruct (place_food_returns W) as (f & k & Hrun & Hcases);
        [cbn; lia | cbn; lia | rewrite Hrun; unfold fed]
  end.
  run. exists f, k. split; [reflexivity|].
  destruct Hcases as [(-> & -> & _) | (i & -> & Hi & -> & _)].
  - split; [lia | left; reflexivity].
  - split; [lia | right].
    unfold candidate; cbn [y x field_height field_width self].
    split; apply Z.mod_pos_bound; assumption.
Qed.
End reset_exact.

(** ** The menu and the settings screen *)

Section navigation.
Implicit Types (w : World) (e : t).

Lemma mod4_cases i : 0 <= i < 4 -> i = 0 \/ i = 1 \/ i = 2 \/ i = 3.
Proof. lia. Qed.

Lemma menu_move now w (action : string) :
  action = "up" \/ action = "down" ->
  handle_menu_navigation now action w
  = Ok false
      (mkWorld
         (with_menu_index
            ((menu_index (self w) + (if String.eqb action "up" then -1 else 1))
             mod 4)
            (self w))
         (random w) (data_manager w) (calls w)).
Proof.
  destruct w as [e r dm cs]. destruct e.
  intros [-> | ->]; reflexivity.
Qed.

(** X7. In the menu, "up" and "down" return [False] and move the
    selection inside 0..3, wrapping at both ends; nothing else changes, and
    on a selection inside 0..3 each undoes the other. *)
Theorem menu_selection_wraps now w :
  0 <= menu_index (self (final (handle_menu_navigation now "up" w))) < 4
  /\ 0 <= menu_index (self (final (handle_menu_navigation now "down" w))) < 4
  /\ (menu_index (self w) = 0 ->
      menu_index (self (final (handle_menu_navigation now "up" w))) = 3)
  /\ (menu_index (self w) = 3 ->
      menu_index (self (final (handle_menu_navigation now "down" w))) = 0)
  /\ (0 <= menu_index (self w) < 4 ->
      final (handle_menu_navigation now "down"
               (final (handle_menu_navigation now "up" w))) = w
      /\ final (handle_menu_navigation now "up"
                  (final (handle_menu_navigation now "down" w))) = w).
Proof.
  rewrite !menu_move by tauto. cbn [final String.eqb Ascii.eqb Bool.eqb].
  destruct w as [e r dm cs]. destruct e. cbn.
  split; [apply Z.mod_pos_bound; lia|].
  split; [apply Z.mod_pos_bound; lia|].
  split; [intros ->; reflexivity|].
  split; [intros ->; reflexivity|].
  intros Hi.
  destruct (mod4_cases _ Hi) as [-> | [-> | [-> | ->]]]; split; reflexivity.
Qed.
End navigation.

Lemma menu_selection_wraps_witness :
  menu_index
    (self (final (handle_menu_navigation 0 "up" (small_world (constant_tape 3)))))
  = 3.
Proof.
  apply (proj1 (proj2 (proj2
           (menu_selection_wraps 0 (small_world (constant_tape 3)))))).
  reflexivity.
Defined.

Section menu.
Implicit Types (w : World) (e : t).

Lemma menu_select_play now w :
  menu_index (self w) = 0 ->
  handle_menu_navigation now "select" w
  = match reset_game now
            (mkWorld (with_state PLAYING (self w)) (random w) (data_manager w)
               (calls w)) with
    | Ok _ w' => Ok false w'
    | Raise x w' => Raise x w'
    end.
Proof.
  destruct w as [en r dm cs]. destruct en. cbn. intros ->.
  unfold handle_menu_navigation. cbn [String.eqb Ascii.eqb Bool.eqb].
  cbv beta iota delta [mbind M_bind ask upd self menu_index Z.eqb].
  destruct (reset_game _ _); reflexivity.
Qed.

(** X8. [handle_menu_navigation] returns [True], the signal to leave the
    application, exactly for "select" on item 3, and then changes
    nothing. *)
Theorem menu_quits_only_on_exit now action w w' :
  handle_menu_navigation now action w = Ok true w'
  <-> action = "select" /\ menu_index (self w) = 3 /\ w' = w.
Proof.
  split.
  - destruct (Z.eqb_spec (menu_index (self w)) 0) as [H0|H0].
    + destruct (String.eqb_spec action "select") as [->|Hsel].
      * rewrite menu_select_play by exact H0.
        destruct (reset_game _ _); discriminate.
      * destruct w as [en r dm cs]. destruct en. unfold handle_menu_navigation.
        destruct (String.eqb_spec action "up"); [discriminate|].
        destruct (String.eqb_spec action "down"); [discriminate|].
        destruct (String.eqb_spec action "select"); [contradiction|].
        discriminate.
    + destruct w as [en r dm cs]. destruct en. cbn in H0.
      unfold handle_menu_navigation.
      destruct (String.eqb_spec action "up"); [discriminate|].
      destruct (String.eqb_spec action "down"); [discriminate|].
      destruct (String.eqb_spec action "select") as [->|]; [|discriminate].
      cbv beta iota delta [mbind M_bind ask self menu_index].
      destruct (Z.eqb_spec menu_index0 0); [contradiction|].
      destruct (Z.eqb_spec menu_index0 1); [discriminate|].
      destruct (Z.eqb_spec menu_index0 2); [discriminate|].
      destruct (Z.eqb_spec menu_index0 3); [|discriminate].
      intros [= <-]. cbn. repeat split. assumption.
  - intros (-> & Hi & ->). destruct w as [en r dm cs]. destruct en.
    cbn in Hi. subst. reflexivity.
Qed.
End menu.

Lemma menu_quits_only_on_exit_witness :
  handle_menu_navigation 0 "select"
    (final (handle_menu_navigation 0 "up" (small_world (constant_tape 3))))
  = Ok true (final (handle_menu_navigation 0 "up" (small_world (constant_tape 3)))).
Proof.
  apply (proj2 (menu_quits_only_on_exit 0 "select" _ _)).
  split; [reflexivity|]. split; reflexivity.
Defined.

Section menu_play.
Implicit Types (w : World) (e : t).

Lemma reset_game_unknown_size now w size :
  GameSettings.field_size (settings (self w)) = VStr size ->
  assoc size FIELD_SIZES = None ->
  reset_game now w = Raise KeyError w.
Proof.
  intros Hsize Hnone. unfold reset_game, calculate_field_dimensions.
  cbv beta iota delta [mbind M_bind ask]. rewrite Hsize.
  cbn [subscript]. rewrite Hnone. reflexivity.
Qed.

(** X9. "select" on item 0 of the menu sets the state to playing and
    then resets the game: on a field preset that exists it returns [False]
    with a fresh running game of three cells on that field; when the field
    size of the settings names no preset it raises [KeyError], and the
    engine is left in the playing state with the game it had. *)
Theorem menu_starts_game now w size :
  menu_index (self w) = 0 ->
  GameSettings.field_size (settings (self w)) = VStr size ->
  (forall fs, assoc size FIELD_SIZES = Some fs ->
     exists w', handle_menu_navigation now "select" w = Ok false w'
       /\ state (self w') = PLAYING
       /\ running (self w')
       /\ length (snake (self w')) = 3%nat
       /\ score (self w') = 0
       /\ field_width (self w') = fs_width fs
       /\ field_height (self w') = fs_height fs
       /\ data_manager w' = data_manager w)
  /\ (assoc size FIELD_SIZES = None ->
      handle_menu_navigation now "select" w
      = Raise KeyError
          (mkWorld (with_state PLAYING (self w)) (random w) (data_manager w)
             (calls w))).
Proof.
  intros Hi Hsize. rewrite menu_select_play by exact Hi. split.
  - intros fs Hfs.
    destruct (reset_game_exact now
                (mkWorld (with_state PLAYING (self w)) (random w)
                   (data_manager w) (calls w)) size fs)
      as (f & k & -> & _); [destruct w as [en r dm cs]; destruct en; exact Hsize
                           | exact Hfs |].
    eexists. split; [reflexivity|].
    destruct w as [en r dm cs]. destruct en. cbn.
    repeat split; reflexivity.
  - intros Hnone. rewrite (reset_game_unknown_size now _ size); [reflexivity | | exact Hnone].
    destruct w as [en r dm cs]. destruct en. exact Hsize.
Qed.
End menu_play.

Section settings_screen.
Implicit Types (w : World) (e : t).

Lemma mod9_cases i :
  0 <= i < 9 ->
  i = 0 \/ i = 1 \/ i = 2 \/ i = 3 \/ i = 4 \/ i = 5 \/ i = 6 \/ i = 7 \/ i = 8.
Proof. lia. Qed.

(** X10. In the settings, "up" and "down" move the selection inside 0..8,
    wrapping at both ends, and change nothing else: on a selection inside
    0..8 each undoes the other. *)
Theorem settings_selection_wraps w :
  0 <= settings_index (self (final (handle_settings_navigation "up" w))) < 9
  /\ 0 <= settings_index (self (final (handle_settings_navigation "down" w))) < 9
  /\ (settings_index (self w) = 0 ->
      settings_index (self (final (handle_settings_navigation "up" w))) = 8)
  /\ (settings_index (self w) = 8 ->
      settings_index (self (final (handle_settings_navigation "down" w))) = 0)
  /\ (0 <= settings_index (self w) < 9 ->
      final (handle_settings_navigation "down"
               (final (handle_settings_navigation "up" w))) = w
      /\ final (handle_settings_navigation "up"
                  (final (handle_settings_navigation "down" w))) = w).
Proof.
  destruct w as [en r dm cs]. destruct en. cbn.
  split; [apply Z.mod_pos_bound; lia|].
  split; [apply Z.mod_pos_bound; lia|].
  split; [intros ->; reflexivity|].
  split; [intros ->; reflexivity|].
  intros Hi.
  destruct (mod9_cases _ Hi)
    as [-> | [-> | [-> | [-> | [-> | [-> | [-> | [-> | ->]]]]]]]];
    split; reflexivity.
Qed.

(** X11. Whatever the action, [handle_settings_navigation] leaves the game
    alone: of the engine it can change the selection, the settings and the
    state only, so the grid in use, the snake, the food, the score, the
    session and the interval are as before; the generator and the log of
    callbacks are as before too. *)
Theorem settings_navigation_leaves_game action w :
  exists index new_settings new_state,
    self (final (handle_settings_navigation action w))
    = with_state new_state
        (with_settings new_settings (with_settings_index index (self w)))
    /\ random (final (handle_settings_navigation action w)) = random w
    /\ calls (final (handle_settings_navigation action w)) = calls w.
Proof.
  destruct w as [en r dm cs]. destruct en.
  unfold handle_settings_navigation, toggle, upd_settings, save_settings. enter.
  repeat match goal with
         | |- context [if String.eqb ?a ?b then _ else _] =>
             destruct (String.eqb a b)
         | |- context [if Z.eqb ?a ?b then _ else _] =>
             destruct (Z.eqb a b)
         | |- context [match list_index ?a ?b with _ => _ end] =>
             destruct (list_index a b)
         | |- context [match list_get ?a ?b with _ => _ end] =>
             destruct (list_get a b)
         | |- context [match subscript ?a ?b with _ => _ end] =>
             destruct (subscript a b)
         | _ => progress run
         end;
    do 3 eexists; (split; [reflexivity|]); split; reflexivity.
Qed.
End settings_screen.

Lemma menu_starts_game_witness :
  exists w',
    handle_menu_navigation 0 "select" (small_world (constant_tape 3)) = Ok false w'
    /\ state (self w') = PLAYING
    /\ field_width (self w') = 15 /\ field_height (self w') = 10.
Proof.
  destruct (proj1 (menu_starts_game 0 (small_world (constant_tape 3)) "Small"
                     eq_refl eq_refl) _ eq_refl)
    as (w' & Hstep & Hstate & _ & _ & _ & Hwidth & Hheight & _).
  exists w'. split; [exact Hstep|]. split; [exact Hstate|].
  split; [exact Hwidth | exact Hheight].
Defined.

Lemma settings_selection_wraps_witness :
  settings_index
    (self (final (handle_settings_navigation "up" (small_world (constant_tape 3)))))
  = 8.
Proof.
  apply (proj1 (proj2 (proj2
           (settings_selection_wraps (small_world (constant_tape 3)))))).
  reflexivity.
Defined.

Section settings_items.
Implicit Types (w : World) (e : t).

Lemma list_index_absent (names : list string) (v : value) :
  (forall name, In name names -> v <> VStr name) ->
  list_index names v = Exc ValueError.
Proof.
  intros Habsent. destruct v as [| | | |s| |]; try reflexivity.
  unfold list_index.
  assert (Hnone : forall i, index_from i names s = None).
  { induction names as [|name names IH]; intros i; [reflexivity|].
    cbn [index_from]. destruct (String.eqb_spec name s) as [->|Hne].
    - exfalso. apply (Habsent s); [left; reflexivity | reflexivity].
    - apply IH. intros name' Hin. apply Habsent. right. exact Hin. }
  rewrite Hnone. reflexivity.
Qed.

(** X12. "select" on item 0 of the settings moves the difficulty one step
    along Easy, Medium, Hard, Extreme and back to Easy, and sets the
    initial speed to the one of the new difficulty (200, 150, 100, 60);
    nothing else changes. When the difficulty is none of the four names,
    as a settings file may have it, the call raises [ValueError] and
    changes nothing. *)
Theorem difficulty_cycles w :
  settings_index (self w) = 0 ->
  (forall d d' speed,
      In (d, d', speed)
        [ ("Easy", "Medium", 150); ("Medium", "Hard", 100);
          ("Hard", "Extreme", 60); ("Extreme", "Easy", 200) ] ->
      GameSettings.difficulty (settings (self w)) = VStr d ->
      handle_settings_navigation "select" w
      = Ok tt
          (mkWorld
             (with_settings
                (GameSettings.with_initial_speed (VInt speed)
                   (GameSettings.with_difficulty (VStr d') (settings (self w))))
                (self w))
             (random w) (data_manager w) (calls w)))
  /\ ((forall d, In d difficulties ->
         GameSettings.difficulty (settings (self w)) <> VStr d) ->
      handle_settings_navigation "select" w = Raise ValueError w).
Proof.
  destruct w as [en r dm cs]. destruct en. destruct settings0. cbn.
  intros ->. split.
  - intros d d' speed Hin ->.
    repeat (destruct Hin as [[= <- <- <-] | Hin]; [reflexivity|]).
    destruct Hin.
  - intros Habsent.
    unfold handle_settings_navigation.
    cbn [String.eqb Ascii.eqb Bool.eqb].
    cbv beta iota delta [mbind M_bind ask self settings_index Z.eqb settings
                         GameSettings.difficulty].
    rewrite (list_index_absent difficulties difficulty Habsent). reflexivity.
Qed.

(** X13. "select" on item 1 of the settings moves the field size one step
    along Small, Medium, Large, Classic and back to Small, and changes
    nothing else, the grid of the game in progress included. When the
    field size is none of the four names the call raises [ValueError] and
    changes nothing. *)
Theorem field_size_cycles w :
  settings_index (self w) = 1 ->
  (forall size size',
      In (size, size')
        [ ("Small", "Medium"); ("Medium", "Large"); ("Large", "Classic");
          ("Classic", "Small") ] ->
      GameSettings.field_size (settings (self w)) = VStr size ->
      handle_settings_navigation "select" w
      = Ok tt
          (mkWorld
             (with_settings
                (GameSettings.with_field_size (VStr size') (settings (self w)))
                (self w))
             (random w) (data_manager w) (calls w)))
  /\ ((forall size, In size (map fst FIELD_SIZES) ->
         GameSettings.field_size (settings (self w)) <> VStr size) ->
      handle_settings_navigation "select" w = Raise ValueError w).
Proof.
  destruct w as [en r dm cs]. destruct en. destruct settings0. cbn -[FIELD_SIZES].
  intros ->. split.
  - intros size size' Hin ->.
    repeat (destruct Hin as [[= <- <-] | Hin]; [reflexivity|]).
    destruct Hin.
  - intros Habsent.
    unfold handle_settings_navigation.
    cbn [String.eqb Ascii.eqb Bool.eqb].
    cbv beta iota zeta delta [mbind M_bind ask self settings_index Z.eqb
                              Pos.eqb settings GameSettings.field_size].
    rewrite (list_index_absent (map fst FIELD_SIZES) field_size Habsent).
    reflexivity.
Qed.


End settings_items.

Lemma difficulty_cycles_witness :
  handle_settings_navigation "select" (small_world (constant_tape 3))
  = Ok tt
      (mkWorld
         (with_settings
            (GameSettings.with_initial_speed (VInt 100)
               (GameSettings.with_difficulty (VStr "Hard")
                  (settings (self (small_world (constant_tape 3))))))
            (self (small_world (constant_tape 3))))
         (random (small_world (constant_tape 3)))
         (data_manager (small_world (constant_tape 3)))
         (calls (small_world (constant_tape 3)))).
Proof.
  apply (proj1 (difficulty_cycles (small_world (constant_tape 3)) eq_refl)
           "Medium" "Hard" 100).
  - right. left. reflexivity.
  - reflexivity.
Defined.

Lemma field_size_cycles_witness :
  settings
    (self (final (handle_settings_navigation "select"
                    (final (handle_settings_navigation "down"
                              (small_world (constant_tape 3)))))))
  = GameSettings.with_field_size (VStr "Medium")
      (settings (self (small_world (constant_tape 3)))).
Proof.
  rewrite (proj1 (field_size_cycles
                    (final (handle_settings_navigation "down"
                              (small_world (constant_tape 3)))) eq_refl)
             "Small" "Medium");
    [reflexivity | left; reflexivity | reflexivity].
Defined.


(** ** Names, pause and the end of a game *)

Section trimming.
Implicit Types (s : pystr) (c : N).

Lemma lstrip_split s :
  exists spaces, s = spaces ++ lstrip s /\ forallb is_space spaces = true.
Proof.
  induction s as [|c s (spaces & Hs & Hall)]; [exists []; split; reflexivity|].
  cbn [lstrip]. destruct (is_space c) eqn:Hc.
  - exists (c :: spaces). cbn. rewrite Hc, Hall. split; [f_equal; exact Hs | reflexivity].
  - exists []. split; reflexivity.
Qed.

Lemma lstrip_clean s : starts_clean (lstrip s).
Proof.
  induction s as [|c s IH]; [exact I|].
  cbn [lstrip]. destruct (is_space c) eqn:Hc; [exact IH | exact Hc].
Qed.

Lemma lstrip_of_clean s : starts_clean s -> lstrip s = s.
Proof. destruct s as [|c s]; [reflexivity|]. cbn. intros ->. reflexivity. Qed.

Lemma lstrip_spaces s : forallb is_space s = true -> lstrip s = [].
Proof.
  induction s as [|c s IH]; [reflexivity|]. cbn.
  intros H. apply andb_true_iff in H as [-> H]. apply IH, H.
Qed.

Lemma strip_split s :
  exists before after,
    s = before ++ strip s ++ after
    /\ forallb is_space before = true /\ forallb is_space after = true.
Proof.
  destruct (lstrip_split s) as (before & Hs & Hbefore).
  destruct (lstrip_split (rev (lstrip s))) as (tail & Ht & Htail).
  exists before, (rev tail). split; [|split; [exact Hbefore|]].
  - unfold strip, rstrip. rewrite <- rev_app_distr, <- Ht, rev_involutive.
    exact Hs.
  - rewrite forallb_forall in *. intros c Hc. apply Htail.
    apply in_rev. exact Hc.
Qed.

Lemma strip_ends_clean s : starts_clean (rev (strip s)).
Proof. unfold strip, rstrip. rewrite rev_involutive. apply lstrip_clean. Qed.

Lemma strip_starts_clean s : starts_clean (strip s).
Proof.
  pose proof (lstrip_clean s) as Hclean.
  destruct (lstrip_split (rev (lstrip s))) as (tail & Ht & _).
  assert (E : lstrip s = strip s ++ rev tail).
  { unfold strip, rstrip. rewrite <- rev_app_distr, <- Ht, rev_involutive.
    reflexivity. }
  rewrite E in Hclean. destruct (strip s); [exact I | exact Hclean].
Qed.

Lemma strip_idempotent s : strip (strip s) = strip s.
Proof.
  unfold strip at 1. rewrite (lstrip_of_clean _ (strip_starts_clean s)).
  unfold rstrip. rewrite (lstrip_of_clean _ (strip_ends_clean s)).
  apply rev_involutive.
Qed.

Lemma strip_blank s : strip s = [] <-> forallb is_space s = true.
Proof.
  split.
  - intros Hblank. destruct (strip_split s) as (before & after & Hs & Hb & Ha).
    rewrite Hblank in Hs. cbn [app] in Hs.
    rewrite Hs, forallb_app, Hb, Ha. reflexivity.
  - intros Hall. unfold strip. rewrite (lstrip_spaces s Hall). reflexivity.
Qed.

(** X15. [strip], the trimming of a name: the name is some white space,
    the trimmed name and some white space again; the trimmed name neither
    starts nor ends with white space; it is empty exactly when the name
    is all white space; and trimming twice is trimming once. *)
Theorem strip_trims s :
  (exists before after,
      s = before ++ strip s ++ after
      /\ forallb is_space before = true /\ forallb is_space after = true)
  /\ match strip s with
     | [] => True
     | c :: _ => is_space c = false
     end
  /\ match rev (strip s) with
     | [] => True
     | c :: _ => is_space c = false
     end
  /\ (strip s = [] <-> forallb is_space s = true)
  /\ strip (strip s) = strip s.
Proof.
  split; [apply strip_split|]. split; [apply strip_starts_clean|].
  split; [apply strip_ends_clean|]. split; [apply strip_blank|].
  apply strip_idempotent.
Qed.

Lemma strip_trims_witness : strip [32; 9; 12288]%N = [].
Proof.
  apply (proj2 (proj1 (proj2 (proj2 (proj2 (strip_trims [32; 9; 12288]%N)))))).
  reflexivity.
Defined.

End trimming.

Section pause.
Implicit Types (w : World) (e : t).

(** The session with one more pause counted. *)
Lemma toggle_pause_playing w :
  state (self w) = PLAYING -> game_over (self w) = false ->
  toggle_pause w
  = Ok tt
      (mkWorld
         (with_current_session
            (option_map
               (fun session =>
                  GameSession.with_pauses_count
                    (GameSession.pauses_count session + 1) session)
               (current_session (self w)))
            (with_paused (negb (paused (self w))) (self w)))
         (random w) (data_manager w) (calls w)).
Proof.
  destruct w as [en r dm cs]. destruct en. cbn. intros -> ->.
  unfold toggle_pause, upd_session. enter.
  destruct current_session0; reflexivity.
Qed.

Lemma toggle_pause_elsewhere w :
  state (self w) <> PLAYING \/ game_over (self w) = true ->
  toggle_pause w = Ok tt w.
Proof.
  destruct w as [en r dm cs]. destruct en. cbn.
  intros Hoff. unfold toggle_pause. enter.
  destruct Hoff as [Hst | ->].
  - destruct state0; try reflexivity. contradiction.
  - rewrite andb_false_r. reflexivity.
Qed.

End pause.

Section name_entry_facts.
Variable isprintable : N -> bool.
Implicit Types (w : World) (e : t).

Lemma type_char w (char : pystr) now stamp later :
  handle_name_input isprintable "char" char now stamp later w
  = Ok tt
      (if match char with [] => false | _ => true end
          && (Z.of_nat (length (player_name (self w))) <? max_name_length (self w))
          && forallb isprintable char
       then mkWorld (with_player_name (player_name (self w) ++ char) (self w))
              (random w) (data_manager w) (calls w)
       else w).
Proof.
  destruct w as [en r dm cs]. destruct en. unfold handle_name_input.
  cbn [String.eqb Ascii.eqb Bool.eqb andb].
  destruct char as [|c char]; [reflexivity|]. enter.
  destruct (_ <? _); cbn; [|reflexivity].
  destruct (isprintable c && forallb isprintable char); reflexivity.
Qed.

Lemma type_backspace w (char : pystr) now stamp later :
  handle_name_input isprintable "backspace" char now stamp later w
  = Ok tt
      (mkWorld (with_player_name (removelast (player_name (self w))) (self w))
         (random w) (data_manager w) (calls w)).
Proof.
  destruct w as [en r dm cs]. destruct en. unfold handle_name_input.
  cbn [String.eqb Ascii.eqb Bool.eqb andb]. enter.
  destruct player_name0; reflexivity.
Qed.

(** X17. Typing a name: a character is appended when the name is shorter
    than [max_name_length] and the character is printable, and is dropped
    otherwise; a backspace removes the last character, and does nothing on
    the empty name. Neither touches anything but the name. So a name
    within the limit stays within it, and a backspace undoes a character
    that was taken. *)
Theorem name_typing c now stamp later w :
  (exists name,
      handle_name_input isprintable "char" [c] now stamp later w
      = Ok tt (mkWorld (with_player_name name (self w)) (random w)
                 (data_manager w) (calls w))
      /\ (name = player_name (self w) ++ [c] \/ name = player_name (self w))
      /\ (name = player_name (self w) ++ [c]
          <-> Z.of_nat (length (player_name (self w))) < max_name_length (self w)
              /\ isprintable c = true)
      /\ (Z.of_nat (length (player_name (self w))) <= max_name_length (self w) ->
          Z.of_nat (length name) <= max_name_length (self w)))
  /\ handle_name_input isprintable "backspace" [] now stamp later w
     = Ok tt (mkWorld (with_player_name (removelast (player_name (self w))) (self w))
                (random w) (data_manager w) (calls w))
  /\ (Z.of_nat (length (player_name (self w))) < max_name_length (self w) ->
      isprintable c = true ->
      final (handle_name_input isprintable "backspace" [] now stamp later
               (final (handle_name_input isprintable "char" [c] now stamp later w)))
      = w).
Proof.
  split; [|split; [apply type_backspace|]].
  - rewrite type_char. cbn [forallb andb length].
    destruct (Z.ltb_spec (Z.of_nat (length (player_name (self w))))
                (max_name_length (self w))) as [Hlt|Hge];
      [destruct (isprintable c) eqn:Hc|]; cbn [andb].
    + eexists. split; [reflexivity|]. split; [left; reflexivity|].
      split; [tauto|]. intros _. rewrite length_app. cbn [length]. lia.
    + exists (player_name (self w)). split.
      { destruct w as [en r dm cs]. destruct en. reflexivity. }
      split; [right; reflexivity|]. split; [|tauto].
      split; [|intros [_ [=]]].
      intros E. apply (f_equal (@length N)) in E.
      rewrite length_app in E. cbn in E. lia.
    + exists (player_name (self w)). split.
      { destruct w as [en r dm cs]. destruct en. reflexivity. }
      split; [right; reflexivity|]. split; [|tauto].
      split; [|lia].
      intros E. apply (f_equal (@length N)) in E.
      rewrite length_app in E. cbn in E. lia.
  - intros Hlt Hc. rewrite type_char. cbn [forallb andb].
    rewrite (proj2 (Z.ltb_lt _ _) Hlt), Hc. cbn [andb final].
    rewrite type_backspace. cbn [final].
    destruct w as [en r dm cs]. destruct en. cbn.
    rewrite removelast_last. reflexivity.
Qed.
End name_entry_facts.


Lemma name_typing_witness :
  final (handle_name_input (fun _ => true) "backspace" [] 0 "" 0
           (final (handle_name_input (fun _ => true) "char" [65%N] 0 "" 0
                     (small_world (constant_tape 3)))))
  = small_world (constant_tape 3).
Proof.
  apply (proj2 (proj2 (name_typing (fun _ => true) 65%N 0 "" 0
                         (small_world (constant_tape 3)))));
    reflexivity.
Defined.

Section finishing.
Variable isprintable : N -> bool.
Implicit Types (w : World) (e : t).

Lemma finish_with_session now stamp later w session :
  current_session (self w) = Some session ->
  finish_game_session now stamp later w
  = Ok tt
      (mkWorld
         (with_state MENU
            (with_player_name []
               (with_current_session
                  (Some (GameSession.mk (GameSession.start_time session) now
                           (score (self w)) (foods_eaten (self w))
                           (Z.of_nat (length (snake (self w))))
                           (GameSession.field_size session)
                           (GameSession.difficulty session)
                           (GameSession.moves_made session)
                           (GameSession.pauses_count session)))
                  (self w))))
         (random w)
         (DataManager.add_score (score (self w))
            (or_anonymous (strip (player_name (self w))))
            (GameSession.mk (GameSession.start_time session) now
               (score (self w)) (foods_eaten (self w))
               (Z.of_nat (length (snake (self w))))
               (GameSession.field_size session)
               (GameSession.difficulty session)
               (GameSession.moves_made session)
               (GameSession.pauses_count session))
            stamp later (data_manager w)).2
         (calls w)).
Proof.
  destruct w as [en r dm cs]. destruct en. cbn. intros ->. destruct session.
  unfold finish_game_session, upd_session, data_manager_add_score. enter.
  reflexivity.
Qed.

Lemma finish_without_session now stamp later w :
  current_session (self w) = None ->
  finish_game_session now stamp later w
  = Ok tt
      (mkWorld (with_state MENU (with_player_name [] (self w))) (random w)
         (data_manager w) (calls w)).
Proof.
  destruct w as [en r dm cs]. destruct en. cbn. intros ->. reflexivity.
Qed.


(** X19. On the name screen "skip" throws away what was typed: it leaves
    the world that "enter" leaves when nothing was typed, or only blanks,
    and the entry it records carries the placeholder. *)
Theorem skip_is_blank_enter (char char' blank : pystr) now stamp later w :
  strip blank = [] ->
  handle_name_input isprintable "skip" char now stamp later w
  = handle_name_input isprintable "enter" char' now stamp later
      (mkWorld (with_player_name blank (self w)) (random w) (data_manager w)
         (calls w)).
Proof.
  intros Hblank.
  change (handle_name_input isprintable "enter" char' now stamp later)
    with (finish_game_session now stamp later).
  change (handle_name_input isprintable "skip" char now stamp later w)
    with (finish_game_session now stamp later
            (mkWorld (with_player_name anonymous (self w)) (random w)
               (data_manager w) (calls w))).
  destruct (current_session (self w)) as [session|] eqn:Hs.
  - rewrite (finish_with_session now stamp later _ session)
      by (destruct w as [en r dm cs]; destruct en; exact Hs).
    rewrite (finish_with_session now stamp later _ session)
      by (destruct w as [en r dm cs]; destruct en; exact Hs).
    destruct w as [en r dm cs]. destruct en. cbn [self random data_manager calls
      with_player_name player_name score foods_eaten snake].
    rewrite Hblank. reflexivity.
  - rewrite finish_without_session
      by (destruct w as [en r dm cs]; destruct en; exact Hs).
    rewrite finish_without_session
      by (destruct w as [en r dm cs]; destruct en; exact Hs).
    destruct w as [en r dm cs]. destruct en. reflexivity.
Qed.
End finishing.


Lemma skip_is_blank_enter_witness :
  handle_name_input (fun _ => true) "skip" [] 2 "2024-01-01 00:00:00" 3
    (small_game (constant_tape 3))
  = handle_name_input (fun _ => true) "enter" [] 2 "2024-01-01 00:00:00" 3
      (mkWorld (with_player_name [32; 32]%N (self (small_game (constant_tape 3))))
         (random (small_game (constant_tape 3)))
         (data_manager (small_game (constant_tape 3)))
         (calls (small_game (constant_tape 3)))).
Proof.
  apply (skip_is_blank_enter (fun _ => true) [] [] [32; 32]%N).
  reflexivity.
Defined.

(** ** The ledger and the files *)

Section ledger_order.
Import DataManager.
Implicit Types (l : list Entry.t) (dm : DataManager.t).

Lemma sorted_app_desc l l' :
  StronglySorted desc (l ++ l') ->
  List.Forall (fun d => List.Forall (fun k => Entry.score d <= Entry.score k) l) l'.
Proof.
  induction l as [|a l IH]; intros Hs.
  - apply List.Forall_forall. intros d _. constructor.
  - simpl in Hs. apply StronglySorted_inv in Hs as [Hs Ha].
    specialize (IH Hs).
    apply List.Forall_forall. intros d Hd.
    constructor.
    + rewrite List.Forall_forall in Ha. apply Ha. apply in_or_app. right. exact Hd.
    + rewrite List.Forall_forall in IH. apply IH. exact Hd.
Qed.

Lemma filter_take_prefix {A} (p : A -> bool) n (l : list A) :
  exists rest, List.filter p l = List.filter p (take n l) ++ rest.
Proof.
  exists (List.filter p (drop n l)).
  rewrite <- List.filter_app. rewrite take_drop. reflexivity.
Qed.

(** X20. The cut of [add_score] drops the lowest entries: the list it
    returns, with the entries it drops, is a rearrangement of the earlier
    list and the new entry; no dropped entry has a score above that of a
    kept one; and the list has one entry more than before, up to fifty. *)
Theorem add_score_keeps_best score name session stamp now dm :
  let entry := build_entry score name session stamp now in
  let scores := (add_score score name session stamp now dm).1 in
  exists dropped,
    Permutation (scores ++ dropped) (load_scores dm ++ [entry])
    /\ List.Forall
         (fun d => List.Forall (fun k => Entry.score d <= Entry.score k) scores)
         dropped
    /\ length scores = Nat.min 50 (S (length (load_scores dm))).
Proof.
  intros entry scores.
  exists (drop 50 (sort_desc (load_scores dm ++ [entry]))).
  unfold scores, add_score. cbn [fst]. fold entry.
  split; [rewrite take_drop; apply sort_desc_perm|].
  split.
  - apply sorted_app_desc. rewrite take_drop. apply sort_desc_sorted.
  - rewrite length_take, sort_desc_length, length_app. cbn [length].
    rewrite Nat.add_1_r. reflexivity.
Qed.

(** X21. Entries of one score keep the order in which they were added:
    in the list [add_score] returns, the entries of any given score are
    the first ones, in their order, of those of the earlier list followed
    by the new entry. The cut takes the newest of equals first. *)
Theorem add_score_ties_keep_order score name session stamp now dm k :
  let entry := build_entry score name session stamp now in
  let scores := (add_score score name session stamp now dm).1 in
  exists cut,
    List.filter (fun a => Entry.score a =? k) (load_scores dm ++ [entry])
    = List.filter (fun a => Entry.score a =? k) scores ++ cut.
Proof.
  intros entry scores. unfold scores, add_score. cbn [fst]. fold entry.
  rewrite <- (sort_desc_stable k (load_scores dm ++ [entry])).
  apply filter_take_prefix.
Qed.

Lemma sort_desc_head l a rest :
  sort_desc l = a :: rest ->
  List.Forall (fun e => Entry.score e <= Entry.score a) l.
Proof.
  intros Hl. apply List.Forall_forall. intros e He.
  apply (Permutation_in _ (Permutation_sym (sort_desc_perm l))) in He.
  pose proof (sort_desc_sorted l) as Hs. rewrite Hl in *.
  apply StronglySorted_inv in Hs as [_ Ha].
  destruct He as [<-|He]; [lia|].
  rewrite List.Forall_forall in Ha. apply Ha. exact He.
Qed.

End ledger_order.

Section high_score.
Implicit Types (w : World).

(** X22. After a game is recorded on a file that can be written,
    [get_high_score] is the greatest of the scores of the earlier entries
    and of the game, whatever the order of the earlier file; it is the
    score of the first entry of the file and is not below the score of
    the game. *)
Theorem high_score_after_game now stamp later w session :
  current_session (self w) = Some session ->
  DataManager.writable (data_manager w) = true ->
  exists w' high,
    finish_game_session now stamp later w = Ok tt w'
    /\ get_high_score w' = Ok high w'
    /\ score (self w) <= high
    /\ List.Forall (fun e => Entry.score e <= high)
         (DataManager.load_scores (data_manager w))
    /\ (high = score (self w)
        \/ exists e, In e (DataManager.load_scores (data_manager w))
                     /\ Entry.score e = high).
Proof.
  intros Hs Hw.
  rewrite (finish_with_session now stamp later w session Hs).
  set (stamped := GameSession.mk _ _ _ _ _ _ _ _ _).
  set (entry := DataManager.build_entry (score (self w))
                  (or_anonymous (strip (player_name (self w)))) stamped stamp later).
  eexists. 
  destruct (DataManager.sort_desc (DataManager.load_scores (data_manager w) ++ [entry]))
    as [|best rest] eqn:Hsort.
  - exfalso. apply (f_equal (@length _)) in Hsort.
    rewrite sort_desc_length, length_app in Hsort. simpl in Hsort. lia.
  - exists (Entry.score best).
    split; [reflexivity|].
    pose proof (sort_desc_head _ _ _ Hsort) as Hall.
    apply List.Forall_app in Hall as [Hold Hnew].
    apply List.Forall_inv in Hnew.
    assert (Hin : In best (DataManager.load_scores (data_manager w) ++ [entry])).
    { apply (Permutation_in _ (sort_desc_perm _)). rewrite Hsort. left. reflexivity. }
    split.
    + unfold get_high_score, DataManager.add_score, DataManager.save_scores.
      cbn [data_manager snd]. rewrite Hw. cbn [DataManager.load_scores DataManager.scores_file].
      fold entry. rewrite Hsort. reflexivity.
    + split; [exact Hnew|]. split; [exact Hold|].
      apply in_app_or in Hin as [Hin|[<-|[]]].
      * right. exists best. split; [exact Hin | reflexivity].
      * left. reflexivity.
Qed.

End high_score.

Lemma high_score_after_game_witness :
  exists w' high,
    finish_game_session 2 "2024-01-01 00:00:00" 3 (small_game (constant_tape 3))
    = Ok tt w'
    /\ get_high_score w' = Ok high w'
    /\ score (self (small_game (constant_tape 3))) <= high.
Proof.
  destruct (high_score_after_game 2 "2024-01-01 00:00:00" 3
              (small_game (constant_tape 3)) session0 eq_refl eq_refl)
    as (w' & high & Hstep & Hhigh & Hle & _).
  exists w', high. split; [exact Hstep|]. split; [exact Hhigh | exact Hle].
Defined.

Section persistence.
Implicit Types (w : World) (dm : DataManager.t) (s : GameSettings.t).

Lemma load_saved_settings s dm :
  DataManager.writable dm = true ->
  DataManager.load_settings (DataManager.save_settings s dm) = s.
Proof.
  intros Hw. unfold DataManager.save_settings, DataManager.load_settings.
  rewrite Hw. cbn [DataManager.settings_file].
  rewrite round_trip. reflexivity.
Qed.

Lemma new_loads_settings dm r :
  settings (self (final (new dm r))) = DataManager.load_settings dm
  /\ data_manager (final (new dm r)) = dm.
Proof.
  unfold new, calculate_field_dimensions. enter.
  destruct (subscript _ _); split; reflexivity.
Qed.

Lemma settings_select_save w :
  settings_index (self w) = 8 ->
  handle_settings_navigation "select" w
  = Ok tt (mkWorld (with_state MENU (self w)) (random w)
             (DataManager.save_settings (settings (self w)) (data_manager w))
             (calls w)).
Proof. destruct w as [en r dm cs]. destruct en. cbn. intros ->. reflexivity. Qed.

(** X23. Settings saved from the settings screen are the settings of the
    next engine built on the same files: after "select" on item 8 with a
    file that can be written, [__init__] loads the record that was in
    memory, whatever it holds. When the file cannot be written the files
    are as before, and the next engine has what the old file gives. The
    scores file is untouched either way. *)
Theorem saved_settings_are_reloaded w r :
  settings_index (self w) = 8 ->
  let saved := data_manager (final (handle_settings_navigation "select" w)) in
  (DataManager.writable (data_manager w) = true ->
   settings (self (final (new saved r))) = settings (self w))
  /\ (DataManager.writable (data_manager w) = false ->
      saved = data_manager w
      /\ settings (self (final (new saved r)))
         = DataManager.load_settings (data_manager w))
  /\ DataManager.load_scores saved = DataManager.load_scores (data_manager w).
Proof.
  intros Hi saved. unfold saved. rewrite (settings_select_save w Hi).
  cbn [final data_manager].
  split; [|split].
  - intros Hw. rewrite (proj1 (new_loads_settings _ r)).
    apply load_saved_settings, Hw.
  - intros Hw. unfold DataManager.save_settings. rewrite Hw.
    split; [reflexivity | apply new_loads_settings].
  - unfold DataManager.save_settings.
    destruct (DataManager.writable (data_manager w)); reflexivity.
Qed.

(** X24. A settings file that is missing or unreadable gives the default
    settings, and so does a file with none of the field names; the engine
    built on it has the 20 x 15 grid of the default size. *)
Theorem missing_settings_give_defaults dm r (data : gmap string value) :
  (DataManager.settings_file dm = None
   \/ (DataManager.settings_file dm = Some data
       /\ forall k, k ∈ GameSettings.known_fields -> data !! k = None)) ->
  DataManager.load_settings dm = GameSettings.defaults
  /\ exists w, new dm r = Ok tt w
       /\ field_width (self w) = 20 /\ field_height (self w) = 15
       /\ state (self w) = MENU.
Proof.
  intros Hfile.
  assert (Hload : DataManager.load_settings dm = GameSettings.defaults).
  { unfold DataManager.load_settings.
    destruct Hfile as [-> | [-> Hnone]]; [reflexivity|].
    rewrite from_dict_fields. unfold GameSettings.defaults.
    rewrite !Hnone by (unfold GameSettings.known_fields; set_solver).
    reflexivity. }
  split; [exact Hload|].
  unfold new. rewrite Hload. eexists. split; [reflexivity|].
  repeat split; reflexivity.
Qed.
End persistence.

Lemma saved_settings_are_reloaded_witness :
  settings
    (self (final (new (data_manager
                         (final (handle_settings_navigation "select"
                                   (final (handle_settings_navigation "up"
                                             (small_world (constant_tape 3)))))))
                    (constant_tape 0))))
  = settings (self (small_world (constant_tape 3))).
Proof.
  apply (proj1 (saved_settings_are_reloaded
                  (final (handle_settings_navigation "up"
                            (small_world (constant_tape 3))))
                  (constant_tape 0) eq_refl)).
  reflexivity.
Defined.

Lemma missing_settings_give_defaults_witness :
  DataManager.load_settings (DataManager.mk None None true) = GameSettings.defaults.
Proof.
  apply (missing_settings_give_defaults (DataManager.mk None None true)
           (constant_tape 0) ∅).
  left. reflexivity.
Defined.

(** ** Frames *)

Section frames.
Variable format_value : value -> string.
Implicit Types (w : World) (e : t).

(** What [get_game_state_data] returns or raises: the timer is computed
    first, then the dictionary, whose only entry that can raise is the
    speed. The world is the same in every case. *)
Lemma game_state_data_exact later w :
  get_game_state_data later w
  = match shown_timer later (self w) with
    | Exc x => Raise x w
    | Val timer =>
        match py_rsub_int 200 (current_speed (self w)) with
        | Exc x => Raise x w
        | Val speed =>
            Ok (GameStateData.mk (snake (self w)) (food (self w)) (score (self w))
                  match DataManager.load_scores (data_manager w) with
                  | [] => 0
                  | first :: _ => Entry.score first
                  end
                  (field_width (self w)) (field_height (self w)) timer speed
                  (foods_eaten (self w)) (paused (self w)) (game_over (self w)))
              w
        end
    end.
Proof.
  destruct w as [en r dm cs]. destruct en.
  unfold get_game_state_data, get_high_score, shown_timer.
  cbv beta iota delta [mbind M_bind mret M_ret ask lift raise].
  cbn [self current_session current_speed].
  destruct current_session0 as [session|];
    [destruct (py_int (GameSession.duration later session))|];
    cbv beta iota; cbn [self current_speed]; try reflexivity;
    destruct (py_rsub_int 200 current_speed0); reflexivity.
Qed.

Lemma game_state_data_world later w : final (get_game_state_data later w) = w.
Proof.
  rewrite game_state_data_exact.
  destruct (shown_timer later (self w)); [|reflexivity].
  destruct (py_rsub_int 200 (current_speed (self w))); reflexivity.
Qed.


Lemma rsub_other (v : value) :
  num_of v = None -> py_rsub_int 200 v = Exc TypeError.
Proof. destruct v; try discriminate; reflexivity. Qed.

(** X25. Outside the game a frame only draws: the world is as before, no
    tick is made whatever the time, and the renderer gets one call, that
    of the screen of the state: the menu with its items and the
    selection, the settings with their items and the selection, the
    ledger on file, or the name screen with the name typed, its length,
    the score and the test for a new record against the ledger on file.
    In the states PAUSED and GAME_OVER, which no method of the engine
    sets, it gets none. *)
Theorem frame_outside_game now later w :
  state (self w) <> PLAYING ->
  exists draws,
    run_frame format_value now later w = Ok draws w
    /\ (length draws <= 1)%nat
    /\ (draws = [] <-> state (self w) = PAUSED \/ state (self w) = GAME_OVER)
    /\ (state (self w) = MENU ->
        draws = [draw_menu get_menu_items (menu_index (self w))])
    /\ (state (self w) = SETTINGS ->
        exists items,
          get_settings_items format_value w = Ok items w
          /\ length items = 9%nat
          /\ draws = [draw_settings items (settings_index (self w))])
    /\ (state (self w) = HIGH_SCORES ->
        draws = [draw_high_scores (DataManager.load_scores (data_manager w))])
    /\ (state (self w) = NAME_INPUT ->
        exists high,
          get_high_score w = Ok high w
          /\ draws = [draw_name_input (player_name (self w))
                        (Z.of_nat (length (player_name (self w))))
                        (high <? score (self w)) (score (self w))]).
Proof.
  destruct w as [en r dm cs]. destruct en. cbn [self state].
  intros Hst. unfold run_frame, get_settings_items, get_high_score.
  destruct state0; try congruence; enter; eexists;
    (split; [reflexivity|]); cbn [length];
    (split; [lia|]);
    (split; [split; [intros E; try discriminate E; auto
                   | intros [E|E]; try discriminate E; reflexivity]|]);
    (split; [intros E; first [discriminate E | reflexivity]|]);
    (split; [intros E;
             first [ discriminate E
                   | eexists; split; [reflexivity|]; split; reflexivity ]|]);
    (split; [intros E; first [discriminate E | reflexivity]|]);
    intros E; first [discriminate E | eexists; split; reflexivity].
Qed.





End frames.

Lemma frame_outside_game_witness :
  exists draws,
    run_frame (fun _ => ""%string) 1 1 (small_world (constant_tape 3))
    = Ok draws (small_world (constant_tape 3))
    /\ (length draws <= 1)%nat.
Proof.
  destruct (frame_outside_game (fun _ => ""%string) 1 1
              (small_world (constant_tape 3)))
    as (draws & Hframe & Hlen & _); [vm_compute; discriminate|].
  exists draws. split; [exact Hframe | exact Hlen].
Defined.


Section food_and_pace.
Implicit Types (w : World) (e : t) (p : Point).

(** X27. The food stays on the grid: when it is on a cell of the grid
    before a call of [update_game_logic], it is on one after it, however
    the call ends. When the call moves the food, the snake has eaten, the
    score is up by ten, and the new cell is off the grown snake. *)
Theorem food_stays_on_grid now w :
  inside (food (self w)) (self w) ->
  inside (food (self (final (update_game_logic now w))))
    (self (final (update_game_logic now w)))
  /\ (food (self (final (update_game_logic now w))) <> food (self w) ->
      ~ In (food (self (final (update_game_logic now w))))
          (snake (self (final (update_game_logic now w))))
      /\ snake (self (final (update_game_logic now w)))
         = food (self w) :: snake (self w)
      /\ score (self (final (update_game_logic now w))) = score (self w) + 10).
Proof.
  intros Hfood.
  destruct (tick_classified now w)
    as [| | | | |head rest f k Hrun Hdue Hs Hin Hfree Hf Hplace];
    open_tick; try (split; [exact Hfood | intros Hne; congruence]).
  destruct Hplace as [(_ & -> & _) | (i & _ & _ & -> & Hfirst & _)].
  - split; [exact Hfood | intros Hne; congruence].
  - split.
    + apply (inside_same_grid _ (self w)); [reflexivity | reflexivity |].
      apply candidate_inside; unfold inside in Hin; lia.
    + intros _. split; [|split; reflexivity].
      apply contains_not_In. exact Hfirst.
Qed.

Lemma ticked_score now e : score (ticked now e) = score e.
Proof. destruct (ticked_frame now e) as (session & speed & since & ->). reflexivity. Qed.

Lemma ticked_paced now e :
  paced e ->
  score (ticked now e) = score e
  /\ match current_session (ticked now e) with
     | Some session =>
         0 <= score e /\ score e + 10 <= 10 * GameSession.moves_made session
     | None => True
     end.
Proof.
  unfold paced. rewrite ticked_current_session, ticked_score.
  split; [reflexivity|].
  destruct (current_session e) as [session|]; cbn; [|trivial].
  destruct session; cbn in *. lia.
Qed.

Lemma efficiency_bounds (points moves : Z) :
  0 <= points <= 10 * moves ->
  (0 <= inject_Z points / inject_Z (Z.max moves 1) <= 10)%Q.
Proof.
  intros Hpace.
  assert (Hpos : (0 < inject_Z (Z.max moves 1))%Q).
  { change 0%Q with (inject_Z 0). rewrite <- Zlt_Qlt. lia. }
  split.
  - apply Qle_shift_div_l; [exact Hpos|].
    rewrite Qmult_0_l. change 0%Q with (inject_Z 0). rewrite <- Zle_Qle. lia.
  - apply Qle_shift_div_r; [exact Hpos|].
    change 10%Q with (inject_Z 10). rewrite <- inject_Z_mult, <- Zle_Qle. lia.
Qed.

(** X28. The score never runs ahead of the moves: it is at most ten
    points for each move counted in the session. [reset_game] starts
    both at zero, [update_game_logic] counts a move on every tick that
    adds to the score, and so the efficiency [finish_game_session]
    records, the score by the moves, lies between 0 and 10. *)
Theorem score_paced_by_moves now stamp later w :
  (forall size,
      GameSettings.field_size (settings (self w)) = VStr size ->
      is_Some (assoc size FIELD_SIZES) ->
      exists w', reset_game now w = Ok tt w' /\ paced (self w'))
  /\ (paced (self w) -> paced (self (final (update_game_logic now w))))
  /\ (forall session,
      paced (self w) -> current_session (self w) = Some session ->
      DataManager.writable (data_manager w) = true ->
      exists w' entry,
        finish_game_session now stamp later w = Ok tt w'
        /\ DataManager.load_scores (data_manager w')
           = take 50 (DataManager.sort_desc
                        (DataManager.load_scores (data_manager w) ++ [entry]))
        /\ Entry.score entry = score (self w)
        /\ Entry.moves_made entry = GameSession.moves_made session
        /\ (0 <= Entry.efficiency entry <= 10)%Q).
Proof.
  split; [|split].
  - intros size Hsize [fs Hfs].
    destruct (reset_game_exact now w size fs Hsize Hfs) as (f & k & -> & _).
    eexists. split; [reflexivity|]. unfold paced. cbn. lia.
  - intros Hpace. destruct (ticked_paced now (self w) Hpace) as [Hscore Hticked].
    destruct (tick_classified now w) as [| | | | |head rest f k];
      try exact Hpace; cbn [final self].
    + unfold paced. destruct (ticked now (self w)). cbn in *.
      destruct current_session0; [lia | trivial].
    + unfold paced. destruct (ticked now (self w)). cbn in *.
      destruct current_session0; [lia | trivial].
    + unfold paced. destruct (ticked now (self w)). cbn in *.
      destruct current_session0; [lia | trivial].
    + unfold paced, fed_engine.
      destruct (truthy (GameSettings.auto_speed_increase (settings (self w))));
        destruct (ticked now (self w)); cbn in *;
        (destruct current_session0; [lia | trivial]).
  - intros session Hpace Hs Hw.
    rewrite (finish_with_session now stamp later w session Hs).
    unfold paced in Hpace. rewrite Hs in Hpace.
    eexists. eexists. split; [reflexivity|].
    cbn [data_manager]. unfold DataManager.add_score, DataManager.save_scores.
    cbn [snd]. rewrite Hw. cbn [DataManager.load_scores DataManager.scores_file].
    split; [reflexivity|]. split; [reflexivity|]. split; [reflexivity|].
    cbn [DataManager.build_entry Entry.efficiency GameSession.moves_made].
    apply efficiency_bounds. exact Hpace.
Qed.
End food_and_pace.

Lemma food_stays_on_grid_witness :
  inside
    (food (self (final (update_game_logic 1
                          (position [pt 5 7; pt 5 6; pt 5 5] RIGHT (pt 5 8))))))
    (self (final (update_game_logic 1
                    (position [pt 5 7; pt 5 6; pt 5 5] RIGHT (pt 5 8))))).
Proof.
  apply (food_stays_on_grid 1 (position [pt 5 7; pt 5 6; pt 5 5] RIGHT (pt 5 8))).
  unfold inside. vm_compute. intuition congruence.
Defined.

Lemma score_paced_by_moves_witness :
  exists w', reset_game 0 (small_world (constant_tape 3)) = Ok tt w'
    /\ paced (self w')
    /\ paced (self (final (update_game_logic 1 w'))).
Proof.
  destruct (proj1 (score_paced_by_moves 0 "" 0 (small_world (constant_tape 3)))
              "Small")
    as (w' & Hreset & Hpace); [reflexivity | eexists; reflexivity |].
  exists w'. split; [exact Hreset|]. split; [exact Hpace|].
  apply (proj1 (proj2 (score_paced_by_moves 1 "" 0 w'))), Hpace.
Defined.

Section timer.
Implicit Types (w : World) (e : t).

Lemma length_append (s s' : string) :
  String.length (String.append s s') = (String.length s + String.length s')%nat.
Proof. induction s as [|c s IH]; simpl; [reflexivity | f_equal; exact IH]. Qed.

Lemma format_02d_two n :
  0 <= n < 100 -> String.length (format_02d n) = 2%nat.
Proof.
  intros Hn.
  assert (Hall : forallb (fun k => (String.length (format_02d (Z.of_nat k)) =? 2)%nat)
                   (seq 0 100) = true) by (vm_compute; reflexivity).
  rewrite forallb_forall in Hall.
  specialize (Hall (Z.to_nat n)).
  rewrite Z2Nat.id in Hall by lia.
  apply Nat.eqb_eq, Hall, in_seq. lia.
Qed.

Lemma truncate_bounds (q : Q) k :
  (0 <= q < inject_Z k)%Q -> 0 <= truncate q < k.
Proof.
  intros [Hlo Hhi]. unfold truncate.
  destruct (Qle_bool 0 q) eqn:Hsign.
  - split.
    + change 0 with (Qfloor 0). apply Qfloor_resp_le, Hlo.
    + rewrite Zlt_Qlt. eapply Qle_lt_trans; [apply Qfloor_le | exact Hhi].
  - apply Qle_bool_iff in Hlo. congruence.
Qed.

(** X29. [get_game_state_data] leaves the world as it is, whether it
    returns or raises, and the timer it returns is the time of the
    session in minutes and seconds: the duration is the float the code
    computes, the float difference of the clock read and the start of the
    session, and the timer shows the whole seconds of that float. For a
    duration from 0 to under 6000 seconds the timer has five characters,
    two digits on each side of a colon, with less than 100 minutes and
    less than 60 seconds; without a session it is 00:00. When the
    duration is no finite float the call raises, [ValueError] on NaN and
    [OverflowError] on an infinity. *)
Theorem timer_is_minutes_and_seconds later w :
  final (get_game_state_data later w) = w
  /\ (forall d w',
      get_game_state_data later w = Ok d w' ->
      w' = w /\ shown_timer later (self w) = Val (GameStateData.timer d))
  /\ (current_session (self w) = None ->
      shown_timer later (self w) = Val "00:00"%string)
  /\ (forall session q,
      current_session (self w) = Some session ->
      float_value (GameSession.duration later session) = Some q ->
      (0 <= q < 6000)%Q ->
      exists timer minutes seconds,
        shown_timer later (self w) = Val timer
        /\ String.length timer = 5%nat
        /\ String.get 2 timer = Some ":"%char
        /\ 0 <= minutes < 100 /\ 0 <= seconds < 60
        /\ timer = String.append (format_02d minutes)
                     (String.append ":" (format_02d seconds))
        /\ (inject_Z (60 * minutes + seconds) <= q
            < inject_Z (60 * minutes + seconds + 1))%Q)
  /\ (forall session,
      current_session (self w) = Some session ->
      float_value (GameSession.duration later session) = None ->
      get_game_state_data later w
      = Raise (if is_nan (GameSession.duration later session)
               then ValueError else OverflowError) w).
Proof.
  split; [apply game_state_data_world|].
  split.
  { intros d w'. rewrite game_state_data_exact.
    destruct (shown_timer later (self w)) as [timer|x]; [|discriminate].
    destruct (py_rsub_int 200 (current_speed (self w))); [|discriminate].
    intros [= <- <-]. split; reflexivity. }
  split; [intros Hnone; unfold shown_timer; rewrite Hnone; reflexivity|].
  split.
  - intros session q Hs Hq Hdur. unfold shown_timer, py_int. rewrite Hs, Hq.
    pose proof (truncate_bounds _ 6000 Hdur) as Hel.
    set (elapsed := truncate q) in *.
    assert (Hm : 0 <= elapsed / 60 < 100)
      by (split; [apply Z.div_pos; lia | apply Z.div_lt_upper_bound; lia]).
    assert (Hsec : 0 <= elapsed mod 60 < 60) by (apply Z.mod_pos_bound; lia).
    eexists. exists (elapsed / 60), (elapsed mod 60).
    split; [reflexivity|]. split; [|split].
    + rewrite !length_append.
      rewrite (format_02d_two _ Hm), (format_02d_two (elapsed mod 60)) by lia.
      reflexivity.
    + pose proof (append_correct2 (format_02d (elapsed / 60))
                    (String.append ":" (format_02d (elapsed mod 60))) 0) as Hget.
      rewrite (format_02d_two _ Hm) in Hget. cbn [Nat.add] in Hget.
      rewrite <- Hget. reflexivity.
    + split; [exact Hm|]. split; [exact Hsec|]. split; [reflexivity|].
      replace (60 * (elapsed / 60) + elapsed mod 60) with elapsed
        by (apply Z.div_mod; lia).
      unfold elapsed, truncate.
      destruct Hdur as [Hlo Hhi]. apply Qle_bool_iff in Hlo. rewrite Hlo.
      split; [apply Qfloor_le | apply Qlt_floor].
  - intros session Hs Hnone.
    rewrite game_state_data_exact. unfold shown_timer, py_int.
    rewrite Hs, Hnone.
    destruct (is_nan (GameSession.duration later session)); reflexivity.
Qed.
End timer.

(** The clock reads 0.3 and 60.3: the float difference is 60, and the
    timer shows a minute. *)
Lemma timer_is_minutes_and_seconds_witness :
  exists timer,
    shown_timer (to_float (603 # 10))
      (self (final (reset_game (to_float (3 # 10)) (small_world (constant_tape 3)))))
    = Val timer
    /\ String.length timer = 5%nat.
Proof.
  destruct (proj1 (proj2 (proj2 (proj2
              (timer_is_minutes_and_seconds (to_float (603 # 10))
                 (final (reset_game (to_float (3 # 10))
                           (small_world (constant_tape 3))))))))
              (GameSession.new (to_float (3 # 10)) (VStr "Small") (VStr "Medium"))
              (8444249301319680 # 140737488355328)%Q)
    as (timer & minutes & seconds & Htimer & Hlen & _).
  - vm_compute. reflexivity.
  - vm_compute. reflexivity.
  - split; vm_compute; [discriminate | reflexivity].
  - exists timer. split; [exact Htimer | exact Hlen].
Defined.

Example timer_of_rounded_duration :
  shown_timer (to_float (603 # 10))
    (self (final (reset_game (to_float (3 # 10)) (small_world (constant_tape 3)))))
  = Val "01:00"%string.
Proof. vm_compute. reflexivity. Qed.

(** ** Any sequence of calls *)

Section any_play.
Variable isprintable : N -> bool.
Variable format_value : value -> string.
Implicit Types (w : World) (e : t) (m : Method).

Lemma keeps_frame w w' :
  state (self w') = state (self w) \/ live (state (self w')) ->
  snake (self w') = snake (self w) ->
  field_width (self w') = field_width (self w) ->
  field_height (self w') = field_height (self w) ->
  keeps w w'.
Proof.
  intros Hstate Hsnake Hwidth Hheight. split; [|split].
  - intros Hlive. destruct Hstate as [-> | Hstate]; assumption.
  - unfold sound_body. rewrite Hsnake. trivial.
  - unfold on_grid. rewrite Hsnake. intros Hgrid.
    eapply List.Forall_impl; [|exact Hgrid].
    intros p. apply inside_same_grid; assumption.
Qed.

Lemma keeps_refl w : keeps w w.
Proof. unfold keeps. tauto. Qed.

(** [calculate_field_dimensions] sets the grid and nothing else, or
    raises with nothing changed. *)
Lemma calculate_field_dimensions_frame w :
  exists width height,
    self (final (calculate_field_dimensions w))
    = with_field_height height (with_field_width width (self w)).
Proof.
  destruct w as [en r dm cs]. destruct en.
  unfold calculate_field_dimensions. enter.
  destruct (subscript _ _); run; do 2 eexists; reflexivity.
Qed.

Lemma reset_game_total now w :
  (exists x, reset_game now w = Raise x w)
  \/ exists size fs,
       GameSettings.field_size (settings (self w)) = VStr size
       /\ assoc size FIELD_SIZES = Some fs.
Proof.
  destruct (GameSettings.field_size (settings (self w))) as [|b|z|q|size|l|d] eqn:Hsize.
  5:{ destruct (assoc size FIELD_SIZES) as [fs|] eqn:Hfs.
      - right. exists size, fs. split; [reflexivity | exact Hfs].
      - left. exists KeyError. apply (reset_game_unknown_size now w size Hsize Hfs). }
  all: left; eexists; unfold reset_game, calculate_field_dimensions;
    cbv beta iota delta [mbind M_bind ask]; rewrite Hsize; reflexivity.
Qed.

Lemma spawn_sound e (fs : FieldSize) size :
  assoc size FIELD_SIZES = Some fs ->
  field_width e = fs_width fs -> field_height e = fs_height fs ->
  snake e = [ mkPoint (fs_height fs / 2) (fs_width fs / 2);
              mkPoint (fs_height fs / 2) (fs_width fs / 2 - 1);
              mkPoint (fs_height fs / 2) (fs_width fs / 2 - 2) ] ->
  sound_board e.
Proof.
  intros Hfs Hwidth Hheight Hsnake. unfold sound_board, on_grid, inside.
  rewrite Hsnake, Hwidth, Hheight.
  destruct (preset_sizes size fs Hfs) as [[-> ->] | [[-> ->] | [[-> ->] | [-> ->]]]].
  all: split; [|split].
  all: try (repeat (apply List.Forall_cons; [vm_compute; intuition discriminate|]);
            apply List.Forall_nil).
  all: try (cbn [connected]; repeat split; exists RIGHT; reflexivity).
  all: apply NoDup_ListNoDup;
    repeat (constructor; [cbv; intuition congruence|]); constructor.
Qed.

Lemma reset_game_keeps now w : keeps w (final (reset_game now w)).
Proof.
  destruct (reset_game_total now w) as [[x ->] | (size & fs & Hsize & Hfs)];
    [apply keeps_refl|].
  destruct (reset_game_exact now w size fs Hsize Hfs) as (f & k & -> & _).
  cbn [final].
  destruct (spawn_sound
              (mk (state (self w)) (settings (self w)) (menu_index (self w))
                 (settings_index (self w)) (fs_width fs) (fs_height fs)
                 [ mkPoint (fs_height fs / 2) (fs_width fs / 2);
                   mkPoint (fs_height fs / 2) (fs_width fs / 2 - 1);
                   mkPoint (fs_height fs / 2) (fs_width fs / 2 - 2) ]
                 f RIGHT RIGHT 0 false false (player_name (self w))
                 (max_name_length (self w))
                 (Some (GameSession.new now
                          (GameSettings.field_size (settings (self w)))
                          (GameSettings.difficulty (settings (self w)))))
                 (GameSettings.initial_speed (settings (self w)))
                 (last_update_time (self w)) 0%float 0 (on_food_eaten (self w))
                 (on_game_over (self w)) (on_score_changed (self w)))
              fs size Hfs eq_refl eq_refl eq_refl)
    as (Hgrid & Hpath & Hdistinct).
  split; [trivial|]. split; intros _; [split; assumption | exact Hgrid].
Qed.

Lemma place_food_keeps w : keeps w (final (place_food w)).
Proof.
  destruct (place_food_loop_bounded 100 w) as [_ [f Hf]].
  apply keeps_frame; unfold place_food; rewrite Hf; destruct (self w);
    try reflexivity. left. reflexivity.
Qed.

Lemma handle_direction_input_keeps d w :
  keeps w (final (handle_direction_input d w)).
Proof.
  destruct w as [en r dm cs]. destruct en.
  unfold handle_direction_input. enter.
  destruct (paused0 || game_over0); run; [apply keeps_refl|].
  destruct (Direction_eqb d (opposite direction0)); run;
    apply keeps_frame; try reflexivity; left; reflexivity.
Qed.

Lemma finish_game_session_keeps now stamp later w :
  keeps w (final (finish_game_session now stamp later w)).
Proof.
  destruct (current_session (self w)) as [session|] eqn:Hs.
  - rewrite (finish_with_session now stamp later w session Hs).
    destruct w as [en r dm cs]. destruct en.
    apply keeps_frame; try reflexivity. right. split; discriminate.
  - rewrite (finish_without_session now stamp later w Hs).
    destruct w as [en r dm cs]. destruct en.
    apply keeps_frame; try reflexivity. right. split; discriminate.
Qed.

Lemma with_player_name_keeps name w w' :
  keeps (mkWorld (with_player_name name (self w)) (random w) (data_manager w)
           (calls w)) w' ->
  keeps w w'.
Proof.
  unfold keeps, sound_body, on_grid, inside.
  destruct w as [en r dm cs]. destruct en. cbn. trivial.
Qed.

Lemma with_state_keeps s w w' :
  live s ->
  keeps (mkWorld (with_state s (self w)) (random w) (data_manager w) (calls w)) w' ->
  keeps w w'.
Proof.
  unfold keeps, sound_body, on_grid, inside.
  destruct w as [en r dm cs]. destruct en. cbn. intros Hs [Hstate Hboard].
  split; [intros _; apply Hstate, Hs | exact Hboard].
Qed.

Lemma handle_name_input_keeps action (char : pystr) now stamp later w :
  keeps w (final (handle_name_input isprintable action char now stamp later w)).
Proof.
  unfold handle_name_input.
  destruct (String.eqb action "char" && _).
  { destruct w as [en r dm cs]. destruct en. enter.
    destruct (_ && _); run; [|apply keeps_refl].
    apply keeps_frame; try reflexivity. left. reflexivity. }
  destruct (String.eqb action "backspace").
  { destruct w as [en r dm cs]. destruct en. enter.
    destruct player_name0; run; [apply keeps_refl|].
    apply keeps_frame; try reflexivity. left. reflexivity. }
  destruct (String.eqb action "enter"); [apply finish_game_session_keeps|].
  destruct (String.eqb action "skip"); [|apply keeps_refl].
  apply (with_player_name_keeps anonymous).
  apply finish_game_session_keeps.
Qed.

Lemma handle_menu_navigation_keeps now action w :
  keeps w (final (handle_menu_navigation now action w)).
Proof.
  destruct (String.eqb_spec action "select") as [->|Hother].
  - destruct (Z.eqb_spec (menu_index (self w)) 0) as [H0|H0].
    + rewrite (menu_select_play now w H0).
      apply (with_state_keeps PLAYING); [split; discriminate|].
      pose proof (reset_game_keeps now
                    (mkWorld (with_state PLAYING (self w)) (random w)
                       (data_manager w) (calls w))) as Hreset.
      destruct (reset_game now _); exact Hreset.
    + destruct w as [en r dm cs]. destruct en. cbn in H0.
      unfold handle_menu_navigation. cbn [String.eqb Ascii.eqb Bool.eqb].
      cbv beta iota delta [mbind M_bind mret M_ret ask upd self menu_index].
      destruct (Z.eqb_spec menu_index0 0); [contradiction|].
      destruct (menu_index0 =? 1); [|destruct (menu_index0 =? 2);
                                      [|destruct (menu_index0 =? 3)]];
        cbn; try apply keeps_refl;
        apply keeps_frame; try reflexivity; right; split; discriminate.
  - destruct w as [en r dm cs]. destruct en. unfold handle_menu_navigation.
    destruct (String.eqb action "up");
      [cbn; apply keeps_frame; try reflexivity; left; reflexivity|].
    destruct (String.eqb action "down");
      [cbn; apply keeps_frame; try reflexivity; left; reflexivity|].
    destruct (String.eqb_spec action "select"); [contradiction|].
    apply keeps_refl.
Qed.

Lemma handle_settings_navigation_keeps action w :
  keeps w (final (handle_settings_navigation action w)).
Proof.
  destruct w as [en r dm cs]. destruct en.
  unfold handle_settings_navigation, toggle, upd_settings, save_settings. enter.
  repeat match goal with
         | |- context [if String.eqb ?a ?b then _ else _] =>
             destruct (String.eqb a b)
         | |- context [if Z.eqb ?a ?b then _ else _] =>
             destruct (Z.eqb a b)
         | |- context [match list_index ?a ?b with _ => _ end] =>
             destruct (list_index a b)
         | |- context [match list_get ?a ?b with _ => _ end] =>
             destruct (list_get a b)
         | |- context [match subscript ?a ?b with _ => _ end] =>
             destruct (subscript a b)
         | _ => progress run
         end;
    try apply keeps_refl;
    apply keeps_frame; try reflexivity;
    first [left; reflexivity | right; split; discriminate].
Qed.

Lemma toggle_pause_keeps w : keeps w (final (toggle_pause w)).
Proof.
  destruct (GameState_eqb (state (self w)) PLAYING && negb (game_over (self w)))
    eqn:Hon.
  - apply andb_true_iff in Hon as [Hst Hg].
    rewrite toggle_pause_playing.
    + destruct w as [en r dm cs]. destruct en.
      apply keeps_frame; cbn; try reflexivity. left. reflexivity.
    + destruct (state (self w)); try discriminate Hst. reflexivity.
    + destruct (game_over (self w)); [discriminate Hg | reflexivity].
  - rewrite toggle_pause_elsewhere; [apply keeps_refl|].
    apply andb_false_iff in Hon as [Hst | Hg].
    + left. intros E. rewrite E in Hst. discriminate.
    + right. destruct (game_over (self w)); [reflexivity | discriminate].
Qed.

Lemma tick_state now w :
  state (self (final (update_game_logic now w))) = state (self w)
  \/ state (self (final (update_game_logic now w))) = NAME_INPUT.
Proof.
  destruct (tick_classified now w); open_tick; tauto.
Qed.

Lemma update_game_logic_keeps now w :
  keeps w (final (update_game_logic now w)).
Proof.
  split; [|split].
  - intros Hlive. destruct (tick_state now w) as [-> | ->];
      [exact Hlive | split; discriminate].
  - intros (Hpath & Hdistinct).
    split; [apply tick_connected, Hpath | apply tick_distinct, Hdistinct].
  - apply tick_on_grid.
Qed.

Ltac drawn later :=
  unfold get_settings_items, get_high_score; cbn beta iota;
  try reflexivity;
  rewrite game_state_data_exact;
  repeat match goal with
         | |- context [match ?r with Val _ => _ | Exc _ => _ end] => destruct r
         end;
  reflexivity.

Lemma frame_world now later w :
  final (run_frame format_value now later w)
  = if GameState_eqb (state (self w)) PLAYING
    then final (update_game_logic now w)
    else w.
Proof.
  unfold run_frame. cbv beta iota delta [mbind M_bind mret M_ret ask].
  destruct (GameState_eqb (state (self w)) PLAYING).
  - destruct (update_game_logic now w) as [[] w1|x w1]; [|reflexivity].
    cbn [final]. destruct (state (self w1)); drawn later.
  - destruct (state (self w)); drawn later.
Qed.

Lemma run_frame_keeps now later w :
  keeps w (final (run_frame format_value now later w)).
Proof.
  rewrite frame_world.
  destruct (GameState_eqb _ _); [apply update_game_logic_keeps | apply keeps_refl].
Qed.

(** Every call keeps the state live and the body sound; every call but a
    direct [calculate_field_dimensions] keeps the snake on the grid. *)
Lemma after_keeps m w :
  (live (state (self w)) ->
   live (state (self (after isprintable format_value m w))))
  /\ (sound_body (self w) ->
      sound_body (self (after isprintable format_value m w)))
  /\ (resizes m = false ->
      on_grid (self w) -> on_grid (self (after isprintable format_value m w))).
Proof.
  assert (Hkeeps : forall w', keeps w w' ->
            (live (state (self w)) -> live (state (self w')))
            /\ (sound_body (self w) -> sound_body (self w'))
            /\ (resizes m = false -> on_grid (self w) -> on_grid (self w'))).
  { intros w' (Hstate & Hbody & Hgrid). tauto. }
  destruct m; cbn [after].
  - destruct (calculate_field_dimensions_frame w) as (width & height & ->).
    destruct (self w). cbn. split; [trivial|]. split; [trivial | discriminate].
  - apply Hkeeps, reset_game_keeps.
  - apply Hkeeps, place_food_keeps.
  - apply Hkeeps, keeps_refl.
  - apply Hkeeps, handle_direction_input_keeps.
  - apply Hkeeps, handle_menu_navigation_keeps.
  - apply Hkeeps, handle_settings_navigation_keeps.
  - apply Hkeeps, handle_name_input_keeps.
  - apply Hkeeps, finish_game_session_keeps.
  - apply Hkeeps, toggle_pause_keeps.
  - apply Hkeeps, update_game_logic_keeps.
  - rewrite game_state_data_world. apply Hkeeps, keeps_refl.
  - apply Hkeeps, keeps_refl.
  - apply Hkeeps, keeps_refl.
  - apply Hkeeps, run_frame_keeps.
Qed.

Lemma new_sound dm r :
  live (state (self (final (new dm r))))
  /\ sound_body (self (final (new dm r)))
  /\ on_grid (self (final (new dm r))).
Proof.
  unfold new, calculate_field_dimensions. enter.
  destruct (subscript _ _); cbn; (split; [split; discriminate|]);
    (split; [split; [exact I | constructor] | apply List.Forall_nil]).
Qed.

(** X30. Whatever a host calls, in whatever order and whether or not the
    calls raise, an engine stays well formed from its construction on:
    its state is never PAUSED nor GAME_OVER, the two members of the
    enumeration no method sets (pause and game over are flags), and the
    body of the snake is a path of neighbouring cells with no cell twice.
    This is for every method of the engine. The snake also stays on the
    grid in use, as long as the host does not call
    [calculate_field_dimensions] itself: that method, which [__init__]
    and [reset_game] use, sets the grid from the settings without moving
    the snake, and after a change of the field size it can leave the
    snake outside. Each single call keeps these properties. *)
Theorem engine_stays_well_formed (calls : list Method) dm r m w :
  (live (state (self w)) ->
   live (state (self (after isprintable format_value m w))))
  /\ (sound_body (self w) ->
      sound_body (self (after isprintable format_value m w)))
  /\ (resizes m = false ->
      on_grid (self w) -> on_grid (self (after isprintable format_value m w)))
  /\ live (state (self (played isprintable format_value calls (final (new dm r)))))
  /\ sound_body
       (self (played isprintable format_value calls (final (new dm r))))
  /\ (forallb (fun call => negb (resizes call)) calls = true ->
      on_grid (self (played isprintable format_value calls (final (new dm r))))).
Proof.
  split; [apply after_keeps|]. split; [apply after_keeps|].
  split; [apply after_keeps|].
  unfold played.
  destruct (new_sound dm r) as (Hstate & Hbody & Hgrid).
  revert Hstate Hbody Hgrid. generalize (final (new dm r)).
  induction calls as [|first rest IH]; intros w0 Hstate Hbody Hgrid.
  { split; [exact Hstate|]. split; [exact Hbody | intros _; exact Hgrid]. }
  cbn [fold_left forallb].
  destruct (after_keeps first w0) as (Hstate' & Hbody' & Hgrid').
  destruct (resizes first) eqn:Hresize.
  - (* the grid is set anew: the rest keeps state and body *)
    assert (Hrest : forall calls' w1,
              live (state (self w1)) -> sound_body (self w1) ->
              live (state (self (fold_left
                                   (fun w m => after isprintable format_value m w)
                                   calls' w1)))
              /\ sound_body (self (fold_left
                                     (fun w m => after isprintable format_value m w)
                                     calls' w1))).
    { induction calls' as [|c calls' IH']; intros w1 H1 H2; [split; assumption|].
      cbn [fold_left]. destruct (after_keeps c w1) as (Hs & Hb & _).
      apply IH'; [apply Hs, H1 | apply Hb, H2]. }
    destruct (Hrest rest (after isprintable format_value first w0)
                (Hstate' Hstate) (Hbody' Hbody)) as [Hlive Hsound].
    split; [exact Hlive|]. split; [exact Hsound|]. cbn. discriminate.
  - cbn [negb andb]. apply IH; [apply Hstate', Hstate | apply Hbody', Hbody|].
    apply Hgrid'; [reflexivity | exact Hgrid].
Qed.

End any_play.

Lemma engine_stays_well_formed_witness :
  live (state (self (played (fun _ => true) (fun _ => ""%string)
                       [ do_handle_menu_navigation 0 "select";
                         do_update_game_logic 1;
                         do_calculate_field_dimensions;
                         do_toggle_pause;
                         do_run_frame 2 2 ]
                       (final (new small_field_file (constant_tape 3))))))
  /\ on_grid
       (self (after (fun _ => true) (fun _ => ""%string) (do_update_game_logic 1)
                (played (fun _ => true) (fun _ => ""%string) [do_reset_game 0]
                   (final (new small_field_file (constant_tape 3)))))).
Proof.
  split.
  - exact (proj1 (proj2 (proj2 (proj2
             (engine_stays_well_formed (fun _ => true) (fun _ => ""%string)
                [ do_handle_menu_navigation 0 "select";
                  do_update_game_logic 1;
                  do_calculate_field_dimensions;
                  do_toggle_pause;
                  do_run_frame 2 2 ]
                small_field_file (constant_tape 3) do_toggle_pause
                (small_world (constant_tape 3))))))).
  - refine (proj1 (proj2 (proj2
              (engine_stays_well_formed (fun _ => true) (fun _ => ""%string)
                 [] small_field_file (constant_tape 3) (do_update_game_logic 1)
                 (played (fun _ => true) (fun _ => ""%string) [do_reset_game 0]
                    (final (new small_field_file (constant_tape 3))))))) eq_refl _).
    exact (proj2 (proj2 (proj2 (proj2 (proj2
             (engine_stays_well_formed (fun _ => true) (fun _ => ""%string)
                [do_reset_game 0] small_field_file (constant_tape 3)
                do_toggle_pause (small_world (constant_tape 3)))))))
             eq_refl).
Defined.

(** A direct call of [calculate_field_dimensions] after the field size
    was changed in the settings: a snake spawned on the 30 x 20 grid is
    at row 10, outside the 15 x 10 grid then in use. *)
Example resize_leaves_snake_off_grid :
  ~ on_grid
      (self (played (fun _ => true) (fun _ => ""%string)
               [ do_handle_settings_navigation "down";
                 do_handle_settings_navigation "select";
                 do_reset_game 0;
                 do_handle_settings_navigation "select";
                 do_handle_settings_navigation "select";
                 do_calculate_field_dimensions ]
               (final (new (DataManager.mk None None true) (constant_tape 3))))).
Proof.
  set (w := played _ _ _ _).
  assert (Hsnake : snake (self w) = [pt 10 15; pt 10 14; pt 10 13])
    by (vm_compute; reflexivity).
  assert (Hheight : field_height (self w) = 10) by (vm_compute; reflexivity).
  unfold on_grid, inside. rewrite Hsnake, Hheight. intros Hgrid.
  inversion Hgrid as [|head rest [[_ Hrow] _] _]. cbn in Hrow. lia.
Qed.
